(** * The Enginality tick engine (ENGINALITY/runtime_loop.py)

    A shallow embedding of [EnginalityRuntime.run_tick] and of the steps it
    is made of, with the collaborators of the runtime (Anchor Store, ZON4D
    kernel, hydration, performer, performance ABI, wall clock) taken as
    interfaces over an arbitrary world, and the properties of the tick
    pipeline proved against it. *)

From Stdlib Require Import ZArith List String Ascii Bool Lia Floats DecimalString.
From Stdlib Require Import Sorting.Sorted Sorting.Permutation.
From stdpp Require Import gmap strings.

Set Warnings "-inexact-float,-register-all".
Open Scope Z_scope.

(** ** Python values the engine relies on *)

(** The classes of exception the handlers of [run_tick] tell apart:
    [except RuntimeError] (run_tick), [except ImportError] and
    [except Exception] (step 10).  [BaseExceptionOnly] stands for what derives
    from BaseException but not from Exception (KeyboardInterrupt, SystemExit,
    GeneratorExit); [OtherException] for every other subclass of Exception.
    The string is [str(exc)]. *)
Inductive PyExn : Type :=
| RuntimeError (msg : string)
| ImportError (msg : string)
| OtherException (msg : string)
| BaseExceptionOnly (msg : string).

Definition exn_str (e : PyExn) : string :=
  match e with
  | RuntimeError m | ImportError m | OtherException m | BaseExceptionOnly m => m
  end.

Definition is_runtime_error (e : PyExn) : bool :=
  match e with RuntimeError _ => true | _ => false end.

(** [isinstance(e, Exception)] *)
Definition is_exception (e : PyExn) : bool :=
  match e with BaseExceptionOnly _ => false | _ => true end.

(** A call either returns or raises. *)
Inductive outcome (A : Type) : Type :=
| Ret (a : A)
| Raise (e : PyExn).
Arguments Ret {A} a.
Arguments Raise {A} e.

(** [str(n)] for an int. *)
Definition string_of_Z (z : Z) : string := NilZero.string_of_int (Z.to_int z).

(** [max(a, b)] on floats: CPython keeps [a] unless [b > a]. *)
Definition py_max (a b : float) : float :=
  if (a <? b)%float then b else a.

(** The float of an int small enough to be exact. *)
Definition float_of_Z (n : Z) : float := PrimFloat.of_uint63 (Uint63.of_Z n).

(** [round(x, 6)] on a float.  CPython rounds the exact binary value of [x]
    to 6 decimals, half to even, and returns the double nearest to that
    decimal; zeros, infinities and NaN round to themselves.  With
    [x = m * 2^e] and [n] the rounded value of [x * 10^6], the nearest double
    to [n / 10^6] is the correctly rounded quotient of the two doubles when
    [n < 2^53], and [x] itself otherwise (then [x] is spaced wider than
    [10^-6]). *)
Definition round6 (x : float) : float :=
  match Prim2SF x with
  | S754_finite s m e =>
      if 0 <=? e then x else
      let q := Z.pos m * 1000000 in
      let d := 2 ^ (- e) in
      let n0 := q / d in
      let r := q mod d in
      let n := if 2 * r <? d then n0
               else if d <? 2 * r then n0 + 1
               else if Z.even n0 then n0 else n0 + 1 in
      if n <? 2 ^ 53
      then let y := (float_of_Z n / 1000000)%float in
           if s then (- y)%float else y
      else x
  | _ => x
  end.

(** [l[:k]] for a list and an int: a negative [k] counts from the end. *)
Definition py_slice_to {A : Type} (l : list A) (k : Z) : list A :=
  if 0 <=? k then take (Z.to_nat k) l
  else take (Z.to_nat (Z.of_nat (length l) + k)) l.

(** [sorted(l, key=key)]: the stable sort that compares keys with [<] only.
    On keys that [<] orders totally, every stable sort returns the same list
    as CPython's; it is written here as insertion from the right. *)
Section PySorted.
Context {A K : Type} (ltb : K -> K -> bool) (key : A -> K).

Fixpoint sorted_insert (x : A) (l : list A) : list A :=
  match l with
  | [] => [x]
  | y :: l' => if ltb (key y) (key x) then y :: sorted_insert x l'
               else x :: y :: l'
  end.

Definition py_sorted (l : list A) : list A := foldr sorted_insert [] l.
End PySorted.

(** ** Spec-driven data structures *)

Section DataModel.
(** Python's [Any]: payloads, metadata values, state values, view values. *)
Context {Any : Type}.
(** [PerformanceTask] (task_types.py), never inspected by the runtime. *)
Context {Task : Type}.

Record Delta : Type := mkDelta {
  delta_id : string;
  source_id : string;
  entity_ref : string;
  temporal_index : float;
  temporal_scope : float * float;
  parent_ids : list string;
  payload : Any;
  metadata : gmap string Any;
}.

Record Snapshot : Type := mkSnapshot {
  snap_id : string;
  tick : Z;
  zon4d_state : gmap string Any;
  hash32 : option string;
  anchor_type : string;
}.

(** One entry of [ctx.alerts]. *)
Record Alert : Type := mkAlert {
  level : string;
  step : Z;
  message : string;
  alert_tick : Z;
  ts : float;
}.

Record TickContext : Type := mkTickContext {
  tick_id : Z;
  wall_clock_ts : float;
  snapshot_in : option Snapshot;
  snapshot_out : option Snapshot;
  deltas_in : list Delta;
  deltas_ordered : list Delta;
  deltas_accepted : list Delta;
  deltas_rejected : list Delta;
  inverse_deltas : list Delta;
  alerts : list Alert;
  fenced : bool;
  breached : bool;
  breach_step : option Z;
  ctx_timeline_hash_ok : bool;
  delta_time : float;
  domain_views : gmap string Any;
  performance_tasks : list Task;
}.

(** The fields of [EnginalityRuntime] that a tick reads or writes. *)
Record Runtime : Type := mkRuntime {
  tick_counter : Z;
  current_snapshot : option Snapshot;
  max_deltas_per_tick : Z;
  ap_preflight_budget_ms : Z;
  ap_final_budget_ms : Z;
  performer_attached : bool;
  _last_wall_clock_ts : option float;
}.
End DataModel.

Arguments Delta : clear implicits.
Arguments Snapshot : clear implicits.
Arguments TickContext : clear implicits.

(** Field updates of the mutable [TickContext] and [EnginalityRuntime]. *)
Section FieldUpdates.
Context {Any Task : Type}.
Local Abbreviation TickContext := (TickContext Any Task).
Local Abbreviation Snapshot := (Snapshot Any).
Local Abbreviation Delta := (Delta Any).

Definition set_snapshot_out (c : TickContext) (v : option Snapshot) : TickContext :=
  mkTickContext (tick_id c) (wall_clock_ts c) (snapshot_in c) v
    (deltas_in c) (deltas_ordered c) (deltas_accepted c) (deltas_rejected c)
    (inverse_deltas c) (alerts c) (fenced c) (breached c) (breach_step c)
    (ctx_timeline_hash_ok c) (delta_time c) (domain_views c) (performance_tasks c).

Definition set_deltas_in (c : TickContext) (v : list Delta) : TickContext :=
  mkTickContext (tick_id c) (wall_clock_ts c) (snapshot_in c) (snapshot_out c)
    v (deltas_ordered c) (deltas_accepted c) (deltas_rejected c)
    (inverse_deltas c) (alerts c) (fenced c) (breached c) (breach_step c)
    (ctx_timeline_hash_ok c) (delta_time c) (domain_views c) (performance_tasks c).

Definition set_deltas_ordered (c : TickContext) (v : list Delta) : TickContext :=
  mkTickContext (tick_id c) (wall_clock_ts c) (snapshot_in c) (snapshot_out c)
    (deltas_in c) v (deltas_accepted c) (deltas_rejected c)
    (inverse_deltas c) (alerts c) (fenced c) (breached c) (breach_step c)
    (ctx_timeline_hash_ok c) (delta_time c) (domain_views c) (performance_tasks c).

Definition set_deltas_accepted (c : TickContext) (v : list Delta) : TickContext :=
  mkTickContext (tick_id c) (wall_clock_ts c) (snapshot_in c) (snapshot_out c)
    (deltas_in c) (deltas_ordered c) v (deltas_rejected c)
    (inverse_deltas c) (alerts c) (fenced c) (breached c) (breach_step c)
    (ctx_timeline_hash_ok c) (delta_time c) (domain_views c) (performance_tasks c).

Definition set_deltas_rejected (c : TickContext) (v : list Delta) : TickContext :=
  mkTickContext (tick_id c) (wall_clock_ts c) (snapshot_in c) (snapshot_out c)
    (deltas_in c) (deltas_ordered c) (deltas_accepted c) v
    (inverse_deltas c) (alerts c) (fenced c) (breached c) (breach_step c)
    (ctx_timeline_hash_ok c) (delta_time c) (domain_views c) (performance_tasks c).

Definition set_inverse_deltas (c : TickContext) (v : list Delta) : TickContext :=
  mkTickContext (tick_id c) (wall_clock_ts c) (snapshot_in c) (snapshot_out c)
    (deltas_in c) (deltas_ordered c) (deltas_accepted c) (deltas_rejected c)
    v (alerts c) (fenced c) (breached c) (breach_step c)
    (ctx_timeline_hash_ok c) (delta_time c) (domain_views c) (performance_tasks c).

Definition set_alerts (c : TickContext) (v : list Alert) : TickContext :=
  mkTickContext (tick_id c) (wall_clock_ts c) (snapshot_in c) (snapshot_out c)
    (deltas_in c) (deltas_ordered c) (deltas_accepted c) (deltas_rejected c)
    (inverse_deltas c) v (fenced c) (breached c) (breach_step c)
    (ctx_timeline_hash_ok c) (delta_time c) (domain_views c) (performance_tasks c).

Definition set_fenced (c : TickContext) (v : bool) : TickContext :=
  mkTickContext (tick_id c) (wall_clock_ts c) (snapshot_in c) (snapshot_out c)
    (deltas_in c) (deltas_ordered c) (deltas_accepted c) (deltas_rejected c)
    (inverse_deltas c) (alerts c) v (breached c) (breach_step c)
    (ctx_timeline_hash_ok c) (delta_time c) (domain_views c) (performance_tasks c).

Definition set_breached (c : TickContext) (v : bool) : TickContext :=
  mkTickContext (tick_id c) (wall_clock_ts c) (snapshot_in c) (snapshot_out c)
    (deltas_in c) (deltas_ordered c) (deltas_accepted c) (deltas_rejected c)
    (inverse_deltas c) (alerts c) (fenced c) v (breach_step c)
    (ctx_timeline_hash_ok c) (delta_time c) (domain_views c) (performance_tasks c).

Definition set_breach_step (c : TickContext) (v : option Z) : TickContext :=
  mkTickContext (tick_id c) (wall_clock_ts c) (snapshot_in c) (snapshot_out c)
    (deltas_in c) (deltas_ordered c) (deltas_accepted c) (deltas_rejected c)
    (inverse_deltas c) (alerts c) (fenced c) (breached c) v
    (ctx_timeline_hash_ok c) (delta_time c) (domain_views c) (performance_tasks c).

Definition set_ctx_timeline_hash_ok (c : TickContext) (v : bool) : TickContext :=
  mkTickContext (tick_id c) (wall_clock_ts c) (snapshot_in c) (snapshot_out c)
    (deltas_in c) (deltas_ordered c) (deltas_accepted c) (deltas_rejected c)
    (inverse_deltas c) (alerts c) (fenced c) (breached c) (breach_step c)
    v (delta_time c) (domain_views c) (performance_tasks c).

Definition set_domain_views (c : TickContext) (v : gmap string Any) : TickContext :=
  mkTickContext (tick_id c) (wall_clock_ts c) (snapshot_in c) (snapshot_out c)
    (deltas_in c) (deltas_ordered c) (deltas_accepted c) (deltas_rejected c)
    (inverse_deltas c) (alerts c) (fenced c) (breached c) (breach_step c)
    (ctx_timeline_hash_ok c) (delta_time c) v (performance_tasks c).

Definition set_performance_tasks (c : TickContext) (v : list Task) : TickContext :=
  mkTickContext (tick_id c) (wall_clock_ts c) (snapshot_in c) (snapshot_out c)
    (deltas_in c) (deltas_ordered c) (deltas_accepted c) (deltas_rejected c)
    (inverse_deltas c) (alerts c) (fenced c) (breached c) (breach_step c)
    (ctx_timeline_hash_ok c) (delta_time c) (domain_views c) v.

Definition set_current_snapshot (r : @Runtime Any) (v : option Snapshot) : @Runtime Any :=
  mkRuntime (tick_counter r) v (max_deltas_per_tick r) (ap_preflight_budget_ms r)
    (ap_final_budget_ms r) (performer_attached r) (_last_wall_clock_ts r).

Definition set_tick_counter (r : @Runtime Any) (v : Z) : @Runtime Any :=
  mkRuntime v (current_snapshot r) (max_deltas_per_tick r) (ap_preflight_budget_ms r)
    (ap_final_budget_ms r) (performer_attached r) (_last_wall_clock_ts r).

Definition set_last_wall_clock_ts (r : @Runtime Any) (v : option float) : @Runtime Any :=
  mkRuntime (tick_counter r) (current_snapshot r) (max_deltas_per_tick r)
    (ap_preflight_budget_ms r) (ap_final_budget_ms r) (performer_attached r) v.
End FieldUpdates.

(** ** Interfaces / Protocols

    A collaborator is a Python object with state of its own, so each method
    takes the world (the state of everything outside the runtime) and returns
    it with its outcome.  [compute_hash] and [append_snapshot] of the Anchor
    Store and the whole AP engine are declared by the source and never called
    by the pipeline; they have no counterpart here. *)
Section Protocols.
Context {Any Task : Type}.
Local Abbreviation State := (gmap string Any).

(** [time.time()] *)
Class WallClock (W : Type) : Type := {
  time_time : W -> float * W;
}.

(** A method typed [-> Snapshot] may still hand back [None], which step 6
    guards against; hence [option]. *)
Class AnchorStore (W : Type) : Type := {
  load_initial_snapshot : W -> outcome (option (Snapshot Any)) * W;
  load_last_immutable_anchor : W -> outcome (option (Snapshot Any)) * W;
  timeline_hash_ok : W -> outcome bool * W;
}.

(** [apply_delta_in_place] mutates the dict it is given: it returns the
    dict as it is afterwards. *)
Class ZON4DKernel (W : Type) : Type := {
  compute_inverse_delta : State -> Delta Any -> W -> outcome (option (Delta Any)) * W;
  apply_delta_in_place : State -> Delta Any -> W -> outcome State * W;
  validate_state : State -> W -> outcome bool * W;
}.

(** [from .domain_views import generate_domain_views_from_state] followed by
    the call: the import may raise ImportError, the call anything.  The
    views it builds are never inspected by the runtime. *)
Class Hydration (W : Type) : Type := {
  generate_domain_views_from_state : State -> Z -> W -> outcome State * W;
}.

(** [PerformerEngine.step(tick_id, delta_time, domain_views)] *)
Class PerformerEngine (W : Type) : Type := {
  performer_step : Z -> float -> State -> W -> outcome (list Task) * W;
}.

Class PerformanceABI (W : Type) : Type := {
  schedule_performance : Z -> list Task -> W -> outcome unit * W;
}.

(** [NoopPerformanceABI] *)
Definition NoopPerformanceABI (W : Type) : PerformanceABI W :=
  {| schedule_performance := fun _ _ w => (Ret tt, w) |}.
End Protocols.

(** ** Runtime implementation *)

Section RuntimeImplementation.
Context {Any Task W : Type}.
Context {clock : WallClock W} {anchor_store : @AnchorStore Any W}
        {zon4d : @ZON4DKernel Any W} {hydration : @Hydration Any W}
        {performer_engine : @PerformerEngine Any Task W}
        {performance_abi : @PerformanceABI Task W}.
Local Abbreviation State := (gmap string Any).
Local Abbreviation Delta := (Delta Any).
Local Abbreviation Snapshot := (Snapshot Any).
Local Abbreviation TickContext := (TickContext Any Task).
Local Abbreviation Runtime := (@Runtime Any).

(** What a step of the tick can read and write: the context of the tick,
    the runtime object and the world of the collaborators. *)
Record TickState : Type := mkTickState {
  ctx : TickContext;
  rt : Runtime;
  world : W;
}.

(** A step runs on the tick state and returns or raises; what it wrote
    before raising stays written. *)
Definition M (A : Type) : Type := TickState -> outcome A * TickState.

Definition ret {A : Type} (a : A) : M A := fun st => (Ret a, st).
Definition raise {A : Type} (e : PyExn) : M A := fun st => (Raise e, st).
Definition bind {A B : Type} (m : M A) (k : A -> M B) : M B :=
  fun st => match m st with
            | (Ret a, st') => k a st'
            | (Raise e, st') => (Raise e, st')
            end.

Local Notation "x <- m ;; k" := (bind m (fun x => k))
  (at level 100, m at next level, k at level 200, right associativity).
Local Notation "m ;; k" := (bind m (fun _ => k))
  (at level 100, k at level 200, right associativity).

Definition get_ctx : M TickContext := fun st => (Ret (ctx st), st).
Definition get_rt : M Runtime := fun st => (Ret (rt st), st).
Definition modify_ctx (f : TickContext -> TickContext) : M unit :=
  fun st => (Ret tt, mkTickState (f (ctx st)) (rt st) (world st)).
Definition modify_rt (f : Runtime -> Runtime) : M unit :=
  fun st => (Ret tt, mkTickState (ctx st) (f (rt st)) (world st)).
(** A call to a collaborator. *)
Definition call {A : Type} (f : W -> outcome A * W) : M A :=
  fun st => let (r, w') := f (world st) in (r, mkTickState (ctx st) (rt st) w').

(** *** Breach / rollback / alert helpers *)

Definition _alert (lvl : string) (stp : Z) (msg : string) : M unit :=
  modify_ctx (fun c =>
    set_alerts c (alerts c ++ [mkAlert lvl stp msg (tick_id c) (wall_clock_ts c)])).

Definition _breach (stp : Z) (msg : string) : M unit :=
  modify_ctx (fun c => set_breach_step (set_breached c true) (Some stp)) ;;
  _alert "CRITICAL" stp msg.

(** [ctx.breach_step or -1] *)
Definition breach_step_or (c : TickContext) : Z :=
  match breach_step c with
  | Some s => if s =? 0 then -1 else s
  | None => -1
  end.

Definition _mark_breach (reason : string) : M unit :=
  modify_ctx (fun c => set_breached c true) ;;
  c <- get_ctx ;;
  _alert "CRITICAL" (breach_step_or c) ("Runtime breach: " ++ reason).

Definition _alloc_snapshot_id (tid : Z) : string := "snap_" ++ string_of_Z tid.

(** The loop of the fast path: [for inv in ...: apply_delta_in_place(state, inv)]. *)
Fixpoint apply_inverses (invs : list Delta) (state : State) : M State :=
  match invs with
  | [] => ret state
  | inv :: invs' =>
      state' <- call (apply_delta_in_place state inv) ;;
      apply_inverses invs' state'
  end.

Definition use_fast_path (c : TickContext) : bool :=
  ctx_timeline_hash_ok c
  && ((2 <=? breach_step_or c) && (breach_step_or c <=? 7))
  && (0 <? length (inverse_deltas c))%nat.

Definition _rollback : M unit :=
  c0 <- get_ctx ;;
  let stp := breach_step_or c0 in
  ok <- call timeline_hash_ok ;;
  modify_ctx (fun c => set_ctx_timeline_hash_ok c ok) ;;
  c <- get_ctx ;;
  use_fast <-
    (if use_fast_path c then
       r <- get_rt ;;
       match current_snapshot r with
       | None => raise (OtherException "'NoneType' object has no attribute 'zon4d_state'")
       | Some cur =>
           state <- apply_inverses (rev (inverse_deltas c)) (zon4d_state cur) ;;
           valid <- call (validate_state state) ;;
           if negb valid then
             _alert "CRITICAL" stp
               "Fast-path rollback validation failed; falling back to anchor restore" ;;
             ret false
           else
             modify_rt (fun r => set_current_snapshot r
               (Some (mkSnapshot (snap_id cur) (tick cur) state (hash32 cur)
                                 (anchor_type cur)))) ;;
             _alert "INFO" stp "Fast-path rollback applied via inverse Deltas" ;;
             ret true
       end
     else ret false) ;;
  if negb use_fast then
    anchor <- call load_last_immutable_anchor ;;
    modify_rt (fun r => set_current_snapshot r anchor) ;;
    _alert "INFO" stp "Slow-path rollback: restored last immutable anchor"
  else ret tt.

(** *** Step 1: tick initialization *)

Definition _step1_init (pending_deltas : list Delta)
    (views : option (gmap string Any)) (explicit_delta_time : option float)
    (r : Runtime) (w : W) : outcome TickContext * Runtime * W :=
  let r1 := set_tick_counter r (tick_counter r + 1) in
  let (wall, w1) := time_time w in
  let dt :=
    match explicit_delta_time with
    | Some d => py_max d 0
    | None =>
        match _last_wall_clock_ts r1 with
        | None => 0%float
        | Some last => py_max (wall - last) 0
        end
    end in
  let r2 := set_last_wall_clock_ts r1 (Some wall) in
  let c := mkTickContext (tick_counter r2) wall (current_snapshot r2) None
             pending_deltas [] [] [] [] [] false false None true
             dt (default ∅ views) [] in
  let (res, st) :=
    (ok <- call timeline_hash_ok ;;
     modify_ctx (fun c => set_ctx_timeline_hash_ok c ok) ;;
     if negb ok then _breach 1 "Timeline hash mismatch at Tick init" else ret tt)
    (mkTickState c r2 w1) in
  (match res with Ret _ => Ret (ctx st) | Raise e => Raise e end, rt st, world st).

(** *** Step 2: delta queue ingestion *)

Definition _validate_delta_structure (d : Delta) : bool :=
  if String.eqb (delta_id d) "" || String.eqb (source_id d) ""
     || String.eqb (entity_ref d) "" then false
  else if (snd (temporal_scope d) <? fst (temporal_scope d))%float then false
  else if (64 <? length (parent_ids d))%nat then false
  else true.

Definition _normalized_delta (d : Delta) : Delta :=
  mkDelta (delta_id d) (source_id d) (entity_ref d)
          (round6 (temporal_index d)) (temporal_scope d) (parent_ids d)
          (payload d) (metadata d).

(** [for d in ctx.deltas_in: ...], with [valid] the list built so far. *)
Fixpoint ingest_loop (ds : list Delta) (valid : list Delta) : M (list Delta) :=
  match ds with
  | [] => ret valid
  | d :: ds' =>
      if _validate_delta_structure d then
        ingest_loop ds' (valid ++ [_normalized_delta d])
      else
        modify_ctx (fun c => set_deltas_rejected c (deltas_rejected c ++ [d])) ;;
        _alert "WARNING" 2 ("Rejected malformed Delta " ++ delta_id d) ;;
        ingest_loop ds' valid
  end.

Definition fence_message (overflow : Z) : string :=
  "Temporal fence: " ++ string_of_Z overflow ++ " Deltas pushed to next Tick".

Definition _step2_ingest : M unit :=
  c <- get_ctx ;;
  if breached c then ret tt else
  r <- get_rt ;;
  (if max_deltas_per_tick r <? Z.of_nat (length (deltas_in c)) then
     let overflow := Z.of_nat (length (deltas_in c)) - max_deltas_per_tick r in
     modify_ctx (fun c => set_deltas_in c
                   (py_slice_to (deltas_in c) (max_deltas_per_tick r))) ;;
     _alert "WARNING" 2 (fence_message overflow) ;;
     modify_ctx (fun c => set_fenced c true)
   else ret tt) ;;
  c' <- get_ctx ;;
  valid <- ingest_loop (deltas_in c') [] ;;
  modify_ctx (fun c => set_deltas_in c valid).

(** *** Step 3: temporal ordering *)

Definition SortKey : Type := float * nat * string * string.

Definition sort_key (d : Delta) : SortKey :=
  (temporal_index d, length (parent_ids d), source_id d, delta_id d).

(** [<] on the key tuples: the first component on which the two differ
    (by [==]) decides. *)
Definition key_ltb (a b : SortKey) : bool :=
  let '(t1, n1, s1, i1) := a in
  let '(t2, n2, s2, i2) := b in
  if negb (t1 =? t2)%float then (t1 <? t2)%float
  else if negb (n1 =? n2)%nat then (n1 <? n2)%nat
  else if negb (String.eqb s1 s2) then String.ltb s1 s2
  else if negb (String.eqb i1 i2) then String.ltb i1 i2
  else false.

Definition _step3_temporal_order : M unit :=
  c <- get_ctx ;;
  if breached c then ret tt else
  modify_ctx (fun c => set_deltas_ordered c (py_sorted key_ltb sort_key (deltas_in c))).

(** *** Step 6: delta application *)

(** [for d in ctx.deltas_accepted: ...] on the working copy. *)
Fixpoint apply_loop (ds : list Delta) (new_state : State) (invs : list Delta)
  : M (State * list Delta) :=
  match ds with
  | [] => ret (new_state, invs)
  | d :: ds' =>
      inv <- call (compute_inverse_delta new_state d) ;;
      match inv with
      | None =>
          _breach 6 ("Cannot compute inverse for Delta " ++ delta_id d) ;;
          raise (RuntimeError "Inverse Delta computation failed")
      | Some i =>
          new_state' <- call (apply_delta_in_place new_state d) ;;
          apply_loop ds' new_state' (invs ++ [i])
      end
  end.

Definition _step6_apply_deltas : M unit :=
  c <- get_ctx ;;
  if breached c then ret tt else
  match snapshot_in c with
  | None =>
      _breach 6 "No input Snapshot to mutate" ;;
      raise (RuntimeError "Missing snapshot_in")
  | Some sin =>
      res <- apply_loop (deltas_accepted c) (zon4d_state sin) [] ;;
      let '(new_state, invs) := res in
      valid <- call (validate_state new_state) ;;
      if negb valid then
        _breach 6 "ZON4D state validation failed" ;;
        raise (RuntimeError "ZON4D validation failed after mutations")
      else
        let snapshot_out :=
          mkSnapshot (_alloc_snapshot_id (tick_id c)) (tick_id c) new_state None "soft" in
        modify_ctx (fun c => set_snapshot_out c (Some snapshot_out)) ;;
        modify_ctx (fun c => set_inverse_deltas c invs)
  end.

(** *** Step 10: domain view generation *)

Definition _step10_generate_domain_views : M unit :=
  c <- get_ctx ;;
  if breached c then ret tt else
  match snapshot_out c with
  | None => ret tt
  | Some sout =>
      fun st =>
        match call (generate_domain_views_from_state (zon4d_state sout) (tick_id c)) st with
        | (Ret post_delta_views, st') =>
            (* [dict.update]: the new views win on a shared key *)
            (if (0 <? size post_delta_views)%nat then
               modify_ctx (fun c => set_domain_views c
                             (post_delta_views ∪ domain_views c))
             else ret tt) st'
        | (Raise (ImportError _), st') =>
            _alert "WARNING" 10
              "domain_views module not available; skipping view generation" st'
        | (Raise e, st') =>
            if is_exception e then
              _alert "ERROR" 10 ("Domain view generation failed: " ++ exn_str e) st'
            else (Raise e, st')
        end
  end.

(** *** Step 11: performance pass scheduling *)

Definition _step11_schedule_performance : M unit :=
  c <- get_ctx ;;
  if breached c then ret tt else
  r <- get_rt ;;
  if negb (performer_attached r) then
    _alert "INFO" 11 "Tick complete (PerformerEngine not attached; performance no-op)"
  else
    tasks <- call (performer_step (tick_id c) (delta_time c) (domain_views c)) ;;
    modify_ctx (fun c => set_performance_tasks c tasks) ;;
    call (schedule_performance (tick_id c) tasks) ;;
    _alert "INFO" 11
      ("Tick complete (Performer scheduled "
         ++ string_of_Z (Z.of_nat (length tasks)) ++ " tasks)").

(** *** Public entry point *)

(** The body of the [try] of [run_tick]. *)
Definition tick_try : M unit :=
  _step2_ingest ;;
  _step3_temporal_order ;;
  modify_ctx (fun c => set_deltas_accepted c (deltas_ordered c)) ;;
  _step6_apply_deltas ;;
  _step10_generate_domain_views ;;
  _step11_schedule_performance ;;
  c <- get_ctx ;;
  match snapshot_out c with
  | Some sout =>
      if negb (breached c)
      then modify_rt (fun r => set_current_snapshot r (Some sout))
      else ret tt
  | None => ret tt
  end.

(** [try: ... except RuntimeError as exc: ... else: ...] *)
Definition tick_guarded : M unit :=
  fun st =>
    match tick_try st with
    | (Raise (RuntimeError msg), st1) => (_mark_breach msg ;; _rollback) st1
    | (Raise e, st1) => (Raise e, st1)
    | (Ret _, st1) => if breached (ctx st1) then _rollback st1 else (Ret tt, st1)
    end.

Definition run_tick (pending_deltas : list Delta)
    (views : option (gmap string Any)) (delta_time : option float)
    (r : Runtime) (w : W) : outcome TickContext * Runtime * W :=
  match _step1_init pending_deltas views delta_time r w with
  | (Raise e, r1, w1) => (Raise e, r1, w1)
  | (Ret c, r1, w1) =>
      let (res, st) := tick_guarded (mkTickState c r1 w1) in
      (match res with Ret _ => Ret (ctx st) | Raise e => Raise e end, rt st, world st)
  end.

(** The state in which [run_tick] calls [_rollback], when it does: after
    [_mark_breach] in the handler, or at the [else] of a tick flagged
    breached. *)
Definition rollback_entry (st : TickState) : option TickState :=
  match tick_try st with
  | (Raise (RuntimeError msg), st1) =>
      match _mark_breach msg st1 with
      | (Ret _, st2) => Some st2
      | (Raise _, _) => None
      end
  | (Raise _, _) => None
  | (Ret _, st1) => if breached (ctx st1) then Some st1 else None
  end.

End RuntimeImplementation.

(** ** The collaborators of test_runtime_loop.py *)

Module TestHarness.
(** The Python values that the test kernel meets in payloads and state. *)
Inductive PyVal : Type :=
| PyNone
| PyInt (n : Z)
| PyStr (s : string)
| PyDict (items : list (string * PyVal)).

(** [PerformanceTask]: the tests attach no performer, so none is built. *)
Definition TestTask : Type := Empty_set.

Local Abbreviation Delta := (Delta PyVal).
Local Abbreviation Snapshot := (Snapshot PyVal).
Local Abbreviation State := (gmap string PyVal).

(** The state of the test doubles: [TestAnchorStore.current_hash_ok] and the
    reading of the clock. *)
Record TestWorld : Type := mkTestWorld {
  current_hash_ok : bool;
  now : float;
}.

#[export] Instance TestClock : WallClock TestWorld :=
  {| time_time := fun w => (now w, mkTestWorld (current_hash_ok w) (now w + 1)%float) |}.

Definition immutable_anchor : Snapshot :=
  mkSnapshot "snap_0" 0 {[ "value" := PyInt 0 ]} (Some "hash0") "immutable".

#[export] Instance TestAnchorStore : @AnchorStore PyVal TestWorld :=
  {| load_initial_snapshot := fun w => (Ret (Some immutable_anchor), w);
     load_last_immutable_anchor := fun w => (Ret (Some immutable_anchor), w);
     timeline_hash_ok := fun w => (Ret (current_hash_ok w), w) |}.

Fixpoint items_get (items : list (string * PyVal)) (k : string) : option PyVal :=
  match items with
  | [] => None
  | (k', v) :: rest => if String.eqb k' k then Some v else items_get rest k
  end.

(** [payload.get(k)]: an AttributeError when the payload is no dict. *)
Definition payload_get (p : PyVal) (k : string) : outcome (option PyVal) :=
  match p with
  | PyDict items => Ret (items_get items k)
  | PyNone => Raise (OtherException "'NoneType' object has no attribute 'get'")
  | PyInt _ => Raise (OtherException "'int' object has no attribute 'get'")
  | PyStr _ => Raise (OtherException "'str' object has no attribute 'get'")
  end.

Definition test_compute_inverse_delta (state : State) (delta : Delta)
  : outcome (option Delta) :=
  match payload_get (payload delta) "amount" with
  | Raise e => Raise e
  | Ret None | Ret (Some PyNone) => Ret None
  | Ret (Some (PyInt amt)) =>
      Ret (Some (mkDelta ("inv_" ++ delta_id delta) (source_id delta)
                   (entity_ref delta) (temporal_index delta)
                   (temporal_scope delta) []
                   (PyDict [("op", PyStr "add"); ("amount", PyInt (- amt))]) ∅))
  | Ret (Some _) => Raise (OtherException "bad operand type for unary -")
  end.

Definition test_apply_delta_in_place (state : State) (delta : Delta)
  : outcome State :=
  match payload_get (payload delta) "amount" with
  | Raise e => Raise e
  | Ret got =>
      match default (PyInt 0) (state !! "value"), default (PyInt 0) got with
      | PyInt v, PyInt amt => Ret (<[ "value" := PyInt (v + amt) ]> state)
      | _, _ => Raise (OtherException "unsupported operand type(s) for +")
      end
  end.

Definition test_validate_state (state : State) : bool :=
  match state !! "value" with
  | Some (PyInt _) => true
  | _ => false
  end.

#[export] Instance TestZON4DKernel : @ZON4DKernel PyVal TestWorld :=
  {| compute_inverse_delta := fun s d w => (test_compute_inverse_delta s d, w);
     apply_delta_in_place := fun s d w => (test_apply_delta_in_place s d, w);
     validate_state := fun s w => (Ret (test_validate_state s), w) |}.

(** [BreachKernel]: the test kernel with validation forced to fail. *)
Definition BreachKernel : @ZON4DKernel PyVal TestWorld :=
  {| compute_inverse_delta := fun s d w => (test_compute_inverse_delta s d, w);
     apply_delta_in_place := fun s d w => (test_apply_delta_in_place s d, w);
     validate_state := fun s w => (Ret false, w) |}.

(** [state.get(k)] *)
Definition state_get (state : State) (k : string) : PyVal :=
  default PyNone (state !! k).

(** [TestZON4DKernel] of test_full_integration.py: a delta overwrites the
    slot of its [entity_ref] with its payload, its inverse carries the value
    the slot held, and a state is valid when no value is "INVALID". *)
Definition IntegrationKernel : @ZON4DKernel PyVal TestWorld :=
  {| compute_inverse_delta := fun s d w =>
       (Ret (Some (mkDelta ("inv_" ++ delta_id d) "inverse" (entity_ref d)
                     (temporal_index d) (temporal_scope d) [delta_id d]
                     (state_get s (entity_ref d)) ∅)), w);
     apply_delta_in_place := fun s d w => (Ret (<[ entity_ref d := payload d ]> s), w);
     validate_state := fun s w =>
       (Ret (forallb (fun kv => match snd kv with
                                | PyStr v => negb (String.eqb v "INVALID")
                                | _ => true
                                end) (map_to_list s)), w) |}.

(** [generate_domain_views_from_state] on the states of these tests, which
    hold the single key "value": no view is derived. *)
#[export] Instance TestHydration : @Hydration PyVal TestWorld :=
  {| generate_domain_views_from_state := fun _ _ w => (Ret ∅, w) |}.

(** No performer is attached in these tests; the instance is never called. *)
#[export] Instance NoPerformer : @PerformerEngine PyVal TestTask TestWorld :=
  {| performer_step := fun _ _ _ w => (Ret [], w) |}.

#[export] Instance TestABI : @PerformanceABI TestTask TestWorld :=
  NoopPerformanceABI TestWorld.

Definition world0 : TestWorld := mkTestWorld true 100.

(** [EnginalityRuntime(..., config={})] and [config={"max_deltas_per_tick": n}] *)
Definition runtime_with (config_max : option Z) : @Runtime PyVal :=
  mkRuntime 0 (Some immutable_anchor) (default 1024 config_max) 5 10 false None.

(** [Delta(id, "user", "world/value", ti, (ti, ti), [], {"op": "add", "amount": amt})] *)
Definition add_delta (id : string) (ti : float) (amt : Z) : Delta :=
  mkDelta id "user" "world/value" ti (ti, ti) []
    (PyDict [("op", PyStr "add"); ("amount", PyInt amt)]) ∅.

(** [runtime.run_tick(pending)] and [runtime.run_tick(pending, delta_time=dt)]
    on a runtime built with kernel [k]. *)
Abbreviation run k pending dt r w :=
  (@run_tick PyVal TestTask TestWorld TestClock TestAnchorStore k TestHydration
     NoPerformer TestABI pending None dt r w).
End TestHarness.

(** ** Python values of the views *)

Module Values.
(** The values that the state and the views hold: what JSON can carry. *)
Inductive Value : Type :=
| VNone
| VBool (b : bool)
| VInt (n : Z)
| VFloat (x : float)
| VStr (s : string)
| VList (elems : list Value)
| VDict (items : list (string * Value)).

(** [bool(v)] *)
Definition truthy (v : Value) : bool :=
  match v with
  | VNone => false
  | VBool b => b
  | VInt n => negb (n =? 0)
  | VFloat x => negb (x =? 0)%float
  | VStr s => negb (String.eqb s "")
  | VList elems => match elems with [] => false | _ => true end
  | VDict items => match items with [] => false | _ => true end
  end.

(** [a or b] *)
Definition py_or (a b : Value) : Value := if truthy a then a else b.

(** What [float()] does with a string, and the text of the TypeError or
    ValueError it raises on a value it cannot convert: the grammar of
    numerals and the wording of the messages are those of the interpreter. *)
Class PyFloat : Type := {
  float_of_str : string -> option float;
  float_error : Value -> string;
}.

(** The float nearest to an int, ties to even. *)
Definition float_of_int (n : Z) : float := SF2Prim (binary_normalize prec emax n 0 false).

(** [float(v)] *)
Definition py_float `{PyFloat} (v : Value) : outcome float :=
  match v with
  | VFloat x => Ret x
  | VBool b => Ret (if b then 1 else 0)%float
  | VInt n =>
      let x := float_of_int n in
      if is_infinity x then Raise (OtherException "int too large to convert to float")
      else Ret x
  | VStr s =>
      match float_of_str s with
      | Some x => Ret x
      | None => Raise (OtherException (float_error v))
      end
  | VNone | VList _ | VDict _ => Raise (OtherException (float_error v))
  end.
End Values.

(** ** Domain view generation (ENGINALITY/domain_views.py) *)

Module DomainViews.
Import Values.
Local Abbreviation State := (gmap string Value).

Section Generate.
Context `{PyFloat}.

Definition obind {A B : Type} (m : outcome A) (k : A -> outcome B) : outcome B :=
  match m with
  | Ret a => k a
  | Raise e => Raise e
  end.

Local Notation "x <- m ;; k" := (obind m (fun x => k))
  (at level 100, m at next level, k at level 200, right associativity).

(** [state.get(k)] and [state.get(k, d)] *)
Definition get (state : State) (k : string) : Value := default VNone (state !! k).
Definition get_or (state : State) (k : string) (d : Value) : Value :=
  default d (state !! k).

(** [views[k] = v] when the block has something to show. *)
Definition put (k : string) (v : option Value) (views : State) : State :=
  match v with
  | Some x => <[ k := x ]> views
  | None => views
  end.

(** The narrative block. *)
Definition narrative_view (state : State) : outcome (option Value) :=
  let active_speaker := get state "narrative/active_speaker" in
  let active_line := get state "narrative/active_line" in
  let emotion := get state "narrative/emotion" in
  let intensity := get state "narrative/intensity" in
  if truthy active_speaker && truthy active_line then
    i <- (if truthy intensity then py_float intensity else Ret 0.5%float) ;;
    d <- py_float (get_or state "narrative/duration" (VFloat 2.5)) ;;
    Ret (Some (VDict
      [("active_conversations",
        VList [VDict
          [("conversation_id", get_or state "narrative/conversation_id" (VStr "main"));
           ("speaker_id", active_speaker);
           ("line_id", active_line);
           ("emotion", py_or emotion (VStr "neutral"));
           ("intensity", VFloat i);
           ("duration", VFloat d)]])]))
  else Ret None.

(** The audio block. *)
Definition audio_view (state : State) : outcome (option Value) :=
  let music_asset := get state "audio/music" in
  let music_action := get_or state "audio/music_action" (VStr "play") in
  let sfx_asset := get state "audio/sfx" in
  music_events <-
    (if truthy music_asset then
       d <- py_float (get_or state "audio/music_duration" (VFloat 10)) ;;
       v <- py_float (get_or state "audio/music_volume" (VFloat 0)) ;;
       Ret [VDict [("asset_id", music_asset); ("action", music_action);
                   ("duration", VFloat d); ("volume_db", VFloat v)]]
     else Ret []) ;;
  sfx_events <-
    (if truthy sfx_asset then
       d <- py_float (get_or state "audio/sfx_duration" (VFloat 1)) ;;
       v <- py_float (get_or state "audio/sfx_volume" (VFloat 0)) ;;
       Ret [VDict [("asset_id", sfx_asset); ("duration", VFloat d);
                   ("volume_db", VFloat v)]]
     else Ret []) ;;
  if truthy (VList music_events) || truthy (VList sfx_events) then
    Ret (Some (VDict [("music_events", VList music_events);
                      ("sfx_events", VList sfx_events)]))
  else Ret None.

(** The animation block. *)
Definition animation_view (state : State) : outcome (option Value) :=
  let rig_id := get state "animation/rig" in
  let pose_id := get state "animation/pose" in
  let pose_layer := get_or state "animation/layer" (VStr "base") in
  let viseme_curve := get state "animation/viseme_curve" in
  let linked_audio := get state "animation/linked_audio" in
  body_events <-
    (if truthy rig_id && truthy pose_id then
       d <- py_float (get_or state "animation/duration" (VFloat 2)) ;;
       b_in <- py_float (get_or state "animation/blend_in" (VFloat 0.1)) ;;
       b_out <- py_float (get_or state "animation/blend_out" (VFloat 0.1)) ;;
       Ret [VDict [("rig_id", rig_id); ("pose_id", pose_id); ("duration", VFloat d);
                   ("layer", pose_layer); ("blend_in", VFloat b_in);
                   ("blend_out", VFloat b_out)]]
     else Ret []) ;;
  facial_events <-
    (if truthy rig_id && truthy viseme_curve then
       d <- py_float (get_or state "animation/viseme_duration" (VFloat 2)) ;;
       o <- py_float (get_or state "animation/viseme_offset" (VFloat 0)) ;;
       Ret [VDict [("rig_id", rig_id); ("viseme_curve_id", viseme_curve);
                   ("duration", VFloat d); ("audio_clip_id", linked_audio);
                   ("offset", VFloat o)]]
     else Ret []) ;;
  if truthy (VList body_events) || truthy (VList facial_events) then
    Ret (Some (VDict [("body_events", VList body_events);
                      ("facial_events", VList facial_events)]))
  else Ret None.

(** [{k: v for k, v in state.items() if k.startswith(p)}], handed over
    when it is not empty.  The items come in the order in which the map
    lists them; Python has them in the order of insertion, which no
    lookup can tell. *)
Definition slice_view (p : string) (state : State) : option Value :=
  let data := map_to_list (filter (fun kv => String.prefix p (fst kv) = true) state) in
  if truthy (VDict data) then Some (VDict data) else None.

Definition generate_domain_views_from_state (state : State) (tick_id : Z)
  : outcome State :=
  let views : State := ∅ in
  n <- narrative_view state ;;
  let views := put "narrative_view" n views in
  a <- audio_view state ;;
  let views := put "audio_view" a views in
  m <- animation_view state ;;
  let views := put "animation_view" m views in
  let views := put "spatial_view" (slice_view "spatial/" state) views in
  let views := put "ap_rules_view" (slice_view "ap/" state) views in
  Ret views.
End Generate.

End DomainViews.

(** ** Tasks, clips and the scene track (ENGINALITY/task_types.py, scene_track.py) *)

Module Performer.
Import Values.

Module PerformanceTaskType.
Inductive t : Type := RENDER | AUDIO | DIALOGUE | ANIMATION | CAMERA | FX.

Definition value (x : t) : string :=
  match x with
  | RENDER => "render"
  | AUDIO => "audio"
  | DIALOGUE => "dialogue"
  | ANIMATION => "animation"
  | CAMERA => "camera"
  | FX => "fx"
  end.
End PerformanceTaskType.

Module ClipType.
Inductive t : Type := AUDIO | DIALOGUE | ANIMATION | CAMERA | FX.

Definition value (x : t) : string :=
  match x with
  | AUDIO => "audio"
  | DIALOGUE => "dialogue"
  | ANIMATION => "animation"
  | CAMERA => "camera"
  | FX => "fx"
  end.
End ClipType.

Record PerformanceTask : Type := mkPerformanceTask {
  task_id : string;
  task_tick_id : Z;
  task_scene_time : float;
  task_type : PerformanceTaskType.t;
  task_payload : list (string * Value);
  task_priority : Z;
}.

Record Clip : Type := mkClip {
  clip_id : string;
  clip_type : ClipType.t;
  start_time : float;
  duration : float;
  clip_payload : list (string * Value);
  easing : Value;
  tags : list string;
}.

Record Track : Type := mkTrack {
  track_id : string;
  track_priority : Z;
  layering_mode : string;
  clips : list Clip;
  _triggered_clips : gset string;
}.

(** [tracks] is a dict that is read in the order of insertion: its items. *)
Record SceneTrack : Type := mkSceneTrack {
  scene_id : string;
  active : bool;
  scene_time : float;
  tick_to_scene_time : gmap Z float;
  tracks : list (string * Track);
  mix_bus : list (string * Value);
  camera_state : list (string * Value);
}.

(** [Track.add_clip] *)
Definition Track_add_clip (t : Track) (clip : Clip) : Track :=
  mkTrack (track_id t) (track_priority t) (layering_mode t)
    (py_sorted PrimFloat.ltb start_time (clips t ++ [clip]))
    (_triggered_clips t).

(** The loop of [Track.get_new_clips_in_window]. *)
Fixpoint new_clips_loop (cs : list Clip) (triggered : gset string)
    (start_t end_t : float) : list Clip * gset string :=
  match cs with
  | [] => ([], triggered)
  | clip :: rest =>
      if bool_decide (clip_id clip ∈ triggered) then
        new_clips_loop rest triggered start_t end_t
      else if (start_t <? start_time clip)%float && (start_time clip <=? end_t)%float then
        let (l, tr) := new_clips_loop rest ({[ clip_id clip ]} ∪ triggered) start_t end_t in
        (clip :: l, tr)
      else new_clips_loop rest triggered start_t end_t
  end.

(** [Track.get_new_clips_in_window]: the new clips, and the track with
    their ids marked. *)
Definition Track_get_new_clips_in_window (t : Track) (start_t end_t : float)
  : list Clip * Track :=
  let (l, tr) := new_clips_loop (clips t) (_triggered_clips t) start_t end_t in
  (l, mkTrack (track_id t) (track_priority t) (layering_mode t) (clips t) tr).

(** [tracks[k]], [k in tracks] and [tracks[k] = t] on the items. *)
Fixpoint tracks_get (ts : list (string * Track)) (k : string) : option Track :=
  match ts with
  | [] => None
  | (k', t) :: rest => if String.eqb k' k then Some t else tracks_get rest k
  end.

Fixpoint tracks_set (ts : list (string * Track)) (k : string) (t : Track)
  : list (string * Track) :=
  match ts with
  | [] => [(k, t)]
  | (k', t') :: rest =>
      if String.eqb k' k then (k', t) :: rest else (k', t') :: tracks_set rest k t
  end.

Definition set_tracks (sc : SceneTrack) (ts : list (string * Track)) : SceneTrack :=
  mkSceneTrack (scene_id sc) (active sc) (scene_time sc) (tick_to_scene_time sc) ts
    (mix_bus sc) (camera_state sc).

Definition get_or_create_track (sc : SceneTrack) (id : string) (priority : Z)
    (mode : string) : Track * SceneTrack :=
  match tracks_get (tracks sc) id with
  | Some t => (t, sc)
  | None =>
      let t := mkTrack id priority mode [] ∅ in
      (t, set_tracks sc (tracks_set (tracks sc) id t))
  end.

(** [SceneTrack.add_clip]: the clip goes into the track object that the
    dict holds. *)
Definition SceneTrack_add_clip (sc : SceneTrack) (id : string) (clip : Clip)
    (priority : Z) (mode : string) : SceneTrack :=
  let (t, sc1) := get_or_create_track sc id priority mode in
  set_tracks sc1 (tracks_set (tracks sc1) id (Track_add_clip t clip)).

Definition advance_time (sc : SceneTrack) (delta_time : float) (tick_id : Z)
  : (float * float) * SceneTrack :=
  let prev_time := scene_time sc in
  let new_time := (scene_time sc + py_max delta_time 0)%float in
  ((prev_time, new_time),
   mkSceneTrack (scene_id sc) (active sc) new_time
     (<[ tick_id := new_time ]> (tick_to_scene_time sc)) (tracks sc)
     (mix_bus sc) (camera_state sc)).

Definition _map_clip_type_to_task_type (clip_type : ClipType.t) : PerformanceTaskType.t :=
  match clip_type with
  | ClipType.DIALOGUE => PerformanceTaskType.DIALOGUE
  | ClipType.AUDIO => PerformanceTaskType.AUDIO
  | ClipType.ANIMATION => PerformanceTaskType.ANIMATION
  | ClipType.CAMERA => PerformanceTaskType.CAMERA
  | ClipType.FX => PerformanceTaskType.FX
  end.

(** The task that [gather_new_tasks_for_window] builds for a clip. *)
Definition task_of_clip (track : Track) (tick_id : Z) (clip : Clip) : PerformanceTask :=
  mkPerformanceTask
    (clip_id clip ++ "@" ++ string_of_Z tick_id)
    tick_id
    (start_time clip)
    (_map_clip_type_to_task_type (clip_type clip))
    [("track_id", VStr (track_id track));
     ("clip_id", VStr (clip_id clip));
     ("duration", VFloat (duration clip));
     ("payload", VDict (clip_payload clip));
     ("tags", VList (map VStr (tags clip)))]
    (track_priority track).

(** [for track in self.tracks.values(): ...] *)
Fixpoint gather_loop (ts : list (string * Track)) (tick_id : Z)
    (window_start window_end : float) : list PerformanceTask * list (string * Track) :=
  match ts with
  | [] => ([], [])
  | (k, track) :: rest =>
      let (new_clips, track') :=
        Track_get_new_clips_in_window track window_start window_end in
      let (tasks, rest') := gather_loop rest tick_id window_start window_end in
      (map (task_of_clip track tick_id) new_clips ++ tasks, (k, track') :: rest')
  end.

Definition gather_new_tasks_for_window (sc : SceneTrack) (tick_id : Z)
    (window_start window_end : float) : list PerformanceTask * SceneTrack :=
  let (tasks, ts) := gather_loop (tracks sc) tick_id window_start window_end in
  (tasks, set_tracks sc ts).
End Performer.

(** * Vocabulary of the properties *)

(** ** Order vocabulary *)

(** [x != x], true of NaN only. *)
Definition is_nan (x : float) : bool := negb (x =? x)%float.

(** The laws that make [<] with [==] a strict total order on a domain. *)
Record StrictTotal {A : Type} (dom : A -> Prop) (eqb ltb : A -> A -> bool) : Prop := {
  st_refl : forall a, dom a -> eqb a a = true;
  st_sym : forall a b, eqb a b = true -> eqb b a = true;
  st_eq_trans : forall a b c, eqb a b = true -> eqb b c = true -> eqb a c = true;
  st_lt_trans : forall a b c, ltb a b = true -> ltb b c = true -> ltb a c = true;
  st_eq_lt : forall a b c, eqb a b = true -> ltb b c = true -> ltb a c = true;
  st_lt_eq : forall a b c, ltb a b = true -> eqb b c = true -> ltb a c = true;
  st_lt_neq : forall a b, ltb a b = true -> eqb a b = false;
  st_asym : forall a b, ltb a b = true -> ltb b a = false;
  st_total : forall a b, dom a -> dom b ->
    ltb a b = true \/ eqb a b = true \/ ltb b a = true;
}.

(** [<] and [==] on pairs, as Python compares tuples. *)
Definition lex_ltb {A B : Type} (eqA ltA : A -> A -> bool) (ltB : B -> B -> bool)
    (x y : A * B) : bool :=
  if negb (eqA (fst x) (fst y)) then ltA (fst x) (fst y) else ltB (snd x) (snd y).

Definition lex_eqb {A B : Type} (eqA : A -> A -> bool) (eqB : B -> B -> bool)
    (x y : A * B) : bool :=
  eqA (fst x) (fst y) && eqB (snd x) (snd y).

Definition key_eqb (a b : SortKey) : bool :=
  let '(t1, n1, s1, i1) := a in
  let '(t2, n2, s2, i2) := b in
  (t1 =? t2)%float && (n1 =? n2)%nat && String.eqb s1 s2 && String.eqb i1 i2.

(** [a <= b] on sort keys. *)
Definition key_leb (a b : SortKey) : bool := key_ltb a b || key_eqb a b.

Definition key_ok (k : SortKey) : Prop := is_nan (fst (fst (fst k))) = false.

(** [a <= b] on the keys of two entries. *)
Definition le_by {A K : Type} (eqb ltb : K -> K -> bool) (key : A -> K) (a b : A) : Prop :=
  ltb (key a) (key b) || eqb (key a) (key b) = true.

(** Every two entries of the list, the earlier one first, are related. *)
Definition pairwise {A : Type} (R : A -> A -> Prop) (l : list A) : Prop :=
  ForallOrdPairs R l.

(** ** The steps, as functions of what the collaborators answer *)

Section Vocabulary.
Context {Any Task W : Type}.
Context {clock : WallClock W} {anchor_store : @AnchorStore Any W}
        {zon4d : @ZON4DKernel Any W} {hydration : @Hydration Any W}
        {performer_engine : @PerformerEngine Any Task W}
        {performance_abi : @PerformanceABI Task W}.
Local Abbreviation State := (gmap string Any).
Local Abbreviation Delta := (Delta Any).
Local Abbreviation Snapshot := (Snapshot Any).
Local Abbreviation TickContext := (TickContext Any Task).
Local Abbreviation Runtime := (@Runtime Any).
Local Abbreviation TickState := (@TickState Any Task W).

(** The pending deltas that the fence of step 2 lets through. *)
Definition fence (max : Z) (pending : list Delta) : list Delta :=
  if max <? Z.of_nat (length pending) then py_slice_to pending max else pending.

(** Of those, the ones that fail the structural checks, in order. *)
Definition malformed (max : Z) (pending : list Delta) : list Delta :=
  List.filter (fun d => negb (_validate_delta_structure d)) (fence max pending).

(** And the ones that pass, normalized, in order: [ctx.deltas_in] after step 2. *)
Definition ingest_valid (max : Z) (pending : list Delta) : list Delta :=
  map _normalized_delta (List.filter _validate_delta_structure (fence max pending)).

(** [ctx.deltas_ordered] after step 3. *)
Definition accepted_of (max : Z) (pending : list Delta) : list Delta :=
  py_sorted key_ltb sort_key (ingest_valid max pending).

Definition fence_alert (tid : Z) (wall : float) (overflow : Z) : Alert :=
  mkAlert "WARNING" 2 (fence_message overflow) tid wall.

Definition reject_alert (tid : Z) (wall : float) (d : Delta) : Alert :=
  mkAlert "WARNING" 2 ("Rejected malformed Delta " ++ delta_id d) tid wall.


(** The context as [_breach(ctx, stp, msg)] leaves it. *)
Definition breach_ctx (c : TickContext) (stp : Z) (msg : string) : TickContext :=
  set_alerts (set_breach_step (set_breached c true) (Some stp))
    (alerts c ++ [mkAlert "CRITICAL" stp msg (tick_id c) (wall_clock_ts c)]).

(** The context as steps 2 and 3 and the assignment of [deltas_accepted]
    leave it, on a tick that is not breached. *)
Definition ingested (max : Z) (c : TickContext) : TickContext :=
  let over := max <? Z.of_nat (length (deltas_in c)) in
  mkTickContext (tick_id c) (wall_clock_ts c) (snapshot_in c) (snapshot_out c)
    (ingest_valid max (deltas_in c))
    (accepted_of max (deltas_in c))
    (accepted_of max (deltas_in c))
    (deltas_rejected c ++ malformed max (deltas_in c))
    (inverse_deltas c)
    (alerts c
       ++ (if over
           then [fence_alert (tick_id c) (wall_clock_ts c)
                   (Z.of_nat (length (deltas_in c)) - max)]
           else [])
       ++ map (reject_alert (tick_id c) (wall_clock_ts c)) (malformed max (deltas_in c)))
    (if over then true else fenced c)
    (breached c) (breach_step c) (ctx_timeline_hash_ok c) (delta_time c)
    (domain_views c) (performance_tasks c).

(** What the loop of step 6 does to the working copy: every delta inverted
    and applied, or the first delta without an inverse, or the exception a
    kernel call raised. *)
Inductive mutation : Type :=
| Mutated (new_state : State) (invs : list Delta) (w : W)
| NoInverse (d : Delta) (w : W)
| KernelRaised (e : PyExn) (w : W).

Fixpoint mutate (ds : list Delta) (new_state : State) (invs : list Delta) (w : W)
  : mutation :=
  match ds with
  | [] => Mutated new_state invs w
  | d :: ds' =>
      match compute_inverse_delta new_state d w with
      | (Raise e, w1) => KernelRaised e w1
      | (Ret None, w1) => NoInverse d w1
      | (Ret (Some i), w1) =>
          match apply_delta_in_place new_state d w1 with
          | (Raise e, w2) => KernelRaised e w2
          | (Ret new_state', w2) => mutate ds' new_state' (invs ++ [i]) w2
          end
      end
  end.

(** [applied s w ds invs s' w']: from state [s] in world [w], the kernel
    inverted and applied the deltas [ds] one after the other, each inverse
    computed on the state its delta was then applied to; [invs] are the
    inverses, [s'] the final state. *)
Inductive applied : State -> W -> list Delta -> list Delta -> State -> W -> Prop :=
| applied_nil s w : applied s w [] [] s w
| applied_cons s w d ds inv invs w1 s1 w2 s' w' :
    compute_inverse_delta s d w = (Ret (Some inv), w1) ->
    apply_delta_in_place s d w1 = (Ret s1, w2) ->
    applied s1 w2 ds invs s' w' ->
    applied s w (d :: ds) (inv :: invs) s' w'.

(** The loop of the fast path, on the world alone. *)
Fixpoint replay (invs : list Delta) (state : State) (w : W) : outcome State * W :=
  match invs with
  | [] => (Ret state, w)
  | inv :: invs' =>
      match apply_delta_in_place state inv w with
      | (Ret state', w') => replay invs' state' w'
      | (Raise e, w') => (Raise e, w')
      end
  end.

(** The slow path of [_rollback] on its own: ask for the continuity flag,
    restore the last immutable anchor, log. *)
Definition slow_rollback (st : TickState) : outcome unit * TickState :=
  let c := ctx st in
  match timeline_hash_ok (world st) with
  | (Raise e, w1) => (Raise e, mkTickState c (rt st) w1)
  | (Ret ok, w1) =>
      let c1 := set_ctx_timeline_hash_ok c ok in
      match load_last_immutable_anchor w1 with
      | (Raise e, w2) => (Raise e, mkTickState c1 (rt st) w2)
      | (Ret anchor, w2) =>
          (Ret tt,
           mkTickState
             (set_alerts c1
                (alerts c1 ++ [mkAlert "INFO" (breach_step_or c)
                                 "Slow-path rollback: restored last immutable anchor"
                                 (tick_id c) (wall_clock_ts c)]))
             (set_current_snapshot (rt st) anchor) w2)
      end
  end.

(** Steps 10 and 11 and the commit that closes the [try]. *)
Definition tail_steps : @M Any Task W unit :=
  bind _step10_generate_domain_views (fun _ =>
  bind _step11_schedule_performance (fun _ =>
  bind get_ctx (fun c =>
    match snapshot_out c with
    | Some sout =>
        if negb (breached c)
        then modify_rt (fun r => set_current_snapshot r (Some sout))
        else ret tt
    | None => ret tt
    end))).

(** Two contexts that differ at most in what steps 10 and 11 write:
    alerts, domain views and performance tasks. *)
Definition same_core (c c' : TickContext) : Prop :=
  tick_id c' = tick_id c /\ wall_clock_ts c' = wall_clock_ts c
  /\ snapshot_in c' = snapshot_in c /\ snapshot_out c' = snapshot_out c
  /\ deltas_in c' = deltas_in c /\ deltas_ordered c' = deltas_ordered c
  /\ deltas_accepted c' = deltas_accepted c /\ deltas_rejected c' = deltas_rejected c
  /\ inverse_deltas c' = inverse_deltas c /\ fenced c' = fenced c
  /\ breached c' = breached c /\ breach_step c' = breach_step c
  /\ ctx_timeline_hash_ok c' = ctx_timeline_hash_ok c
  /\ delta_time c' = delta_time c.

(** The context after step 6 went through: the snapshot built from the
    mutated state and the recorded inverses. *)
Definition mutated_ctx (c : TickContext) (new_state : gmap string Any)
    (invs : list Delta) : TickContext :=
  set_inverse_deltas
    (set_snapshot_out c
       (Some (mkSnapshot (_alloc_snapshot_id (tick_id c)) (tick_id c) new_state None "soft")))
    invs.

(** The breach step is outside 2..7, or no inverse delta is recorded. *)
Definition fast_ineligible (c : TickContext) : Prop :=
  (2 <=? breach_step_or c) && (breach_step_or c <=? 7) = false
  \/ inverse_deltas c = [].

(** What steps 10 and 11 may do to the tick state. *)
Definition tail_frame (st st' : TickState) : Prop :=
  same_core (ctx st) (ctx st') /\ rt st' = rt st
  /\ exists tail, alerts (ctx st') = alerts (ctx st) ++ tail
                  /\ Forall (fun a => step a = 10 \/ step a = 11) tail.

(** The seconds that step 1 records as [delta_time]. *)
Definition tick_dt (explicit : option float) (last : option float) (wall : float) : float :=
  match explicit with
  | Some d => py_max d 0
  | None => match last with
            | None => 0%float
            | Some l => py_max (wall - l) 0
            end
  end.

(** The runtime once step 1 has counted the tick and read the clock. *)
Definition started (r : Runtime) (wall : float) : Runtime :=
  set_last_wall_clock_ts (set_tick_counter r (tick_counter r + 1)) (Some wall).

(** The context that step 1 builds, before the continuity check. *)
Definition fresh_ctx (r : Runtime) (wall : float) (explicit : option float)
    (pending : list Delta) (views : option (gmap string Any)) : TickContext :=
  mkTickContext (tick_counter r + 1) wall (current_snapshot r) None
    pending [] [] [] [] [] false false None true
    (tick_dt explicit (_last_wall_clock_ts r) wall) (default ∅ views) [].

(** The context that step 1 returns when the continuity check answers [ok]. *)
Definition checked_ctx (c : TickContext) (ok : bool) : TickContext :=
  if ok then set_ctx_timeline_hash_ok c true
  else breach_ctx (set_ctx_timeline_hash_ok c false) 1 "Timeline hash mismatch at Tick init".

(** The state in which a call to [run_tick] invokes [_rollback], if it does. *)
Definition run_tick_rollback_entry (pending : list Delta)
    (views : option (gmap string Any)) (dt : option float) (r : Runtime) (w : W)
  : option TickState :=
  match _step1_init pending views dt r w with
  | (Ret c, r1, w1) => rollback_entry (mkTickState c r1 w1)
  | (Raise _, _, _) => None
  end.



(** The kernel's inverses are compensations as far as [obs] can tell:
    applying the inverse computed for [d] on [s] to any state that looks
    like the one [d] produced gives a state that looks like [s]. *)
Definition compensating {V : Type} (obs : State -> string -> V) : Prop :=
  forall s d inv s1 w w1 w2,
    compute_inverse_delta s d w = (Ret (Some inv), w1) ->
    apply_delta_in_place s d w1 = (Ret s1, w2) ->
    forall t w3, (forall k, obs t k = obs s1 k) ->
    exists t' w4, apply_delta_in_place t inv w3 = (Ret t', w4)
                  /\ forall k, obs t' k = obs s k.

(** The fields that no step after the assignment of [deltas_accepted] writes. *)
Definition same_queues (c c' : TickContext) : Prop :=
  tick_id c' = tick_id c /\ wall_clock_ts c' = wall_clock_ts c
  /\ snapshot_in c' = snapshot_in c
  /\ deltas_in c' = deltas_in c /\ deltas_ordered c' = deltas_ordered c
  /\ deltas_accepted c' = deltas_accepted c /\ deltas_rejected c' = deltas_rejected c
  /\ fenced c' = fenced c /\ delta_time c' = delta_time c.

(** What step 1 hands to the rest of the tick. *)
Definition just_started (c : TickContext) : Prop :=
  inverse_deltas c = [] /\ deltas_ordered c = []
  /\ breach_step c = (if breached c then Some 1 else None).

(** What [run_tick] hands back once the guarded part of the tick is over. *)
Definition finish (x : outcome unit * TickState) : outcome TickContext * Runtime * W :=
  (match fst x with Ret _ => Ret (ctx (snd x)) | Raise e => Raise e end,
   rt (snd x), world (snd x)).

(** Two deltas whose normalized temporal indices differ. *)
Definition distinct_index (a b : Delta) : Prop :=
  (round6 (temporal_index a) =? round6 (temporal_index b))%float = false.

(** The normalized temporal index of a delta is a number. *)
Definition index_ok (d : Delta) : Prop := is_nan (round6 (temporal_index d)) = false.

Definition key_le (a b : Delta) : Prop := key_leb (sort_key a) (sort_key b) = true.

Definition index_lt (a b : Delta) : Prop :=
  (temporal_index a <? temporal_index b)%float = true.

(** The alert that [_rollback] logs when the state rebuilt by the fast path
    fails validation. *)
Definition fast_failed_alert (c : TickContext) : Alert :=
  mkAlert "CRITICAL" (breach_step_or c)
    "Fast-path rollback validation failed; falling back to anchor restore"
    (tick_id c) (wall_clock_ts c).
End Vocabulary.

(** ** Inputs of the tests, and a few more *)

Module TestRuns.
Import TestHarness.
Local Abbreviation Delta := (Delta PyVal).
Local Abbreviation K := (@ZON4DKernel PyVal TestWorld).

Abbreviation run_entry k pending dt r w :=
  (@run_tick_rollback_entry PyVal TestTask TestWorld TestClock TestAnchorStore k
     TestHydration NoPerformer TestABI pending None dt r w).

(** test_ordering *)
Definition ordering_deltas : list Delta :=
  [add_delta "d1" 10 5; add_delta "d2" 5 1; add_delta "d3" 7 2].


(** test_forced_breach_and_rollback *)
Definition bad_delta : Delta := add_delta "bad" 1 99.

(** A well-formed delta whose payload is [None]. *)
Definition none_delta : Delta :=
  mkDelta "n1" "user" "world/value" 1 (1, 1)%float [] PyNone ∅.

(** A well-formed delta whose payload names no amount. *)
Definition no_amount_delta : Delta :=
  mkDelta "n2" "user" "world/value" 1 (1, 1)%float [] (PyDict [("op", PyStr "add")]) ∅.

(** A delta with an empty id. *)
Definition anonymous_delta : Delta :=
  mkDelta "" "user" "world/value" 2 (2, 2)%float []
    (PyDict [("op", PyStr "add"); ("amount", PyInt 1)]) ∅.

(** Two deltas less than a millionth apart, the later one with the smaller id. *)
Definition close_deltas : list Delta :=
  [add_delta "a" 1.0000002 1; add_delta "b" 1.0000001 1].

(** Deltas for the kernel of test_full_integration.py: they write a slot. *)
Definition put_delta (id ref : string) (ti : float) (v : PyVal) : Delta :=
  mkDelta id "agent" ref ti (ti, ti) [] v ∅.

Definition put_deltas : list Delta :=
  [put_delta "p1" "narrative/emotion" 1 (PyStr "calm");
   put_delta "p2" "narrative/emotion" 2 (PyStr "angry");
   put_delta "p3" "world/value" 3 (PyInt 7)].

(** A tick state in which [_rollback] may take the fast path: breached at
    step 6, one inverse delta recorded, the current snapshot at value 5. *)
Definition fast_state : @TickState PyVal TestTask TestWorld :=
  mkTickState
    (mkTickContext 2 100 (Some immutable_anchor) None [] [] [] []
       [add_delta "inv_d" 1 (-5)] [] false true (Some 6) true 0 ∅ [])
    (mkRuntime 2 (Some (mkSnapshot "snap_1" 1 {[ "value" := PyInt 5 ]} None "soft"))
       1024 5 10 false (Some 100%float))
    world0.
End TestRuns.

(** ** The log of a tick *)

Section TickLog.
Context {Any Task W : Type}.
Context {clock : WallClock W} {anchor_store : @AnchorStore Any W}
        {zon4d : @ZON4DKernel Any W} {hydration : @Hydration Any W}
        {performer_engine : @PerformerEngine Any Task W}
        {performance_abi : @PerformanceABI Task W}.
Local Abbreviation State := (gmap string Any).
Local Abbreviation Delta := (Delta Any).
Local Abbreviation Snapshot := (Snapshot Any).
Local Abbreviation TickContext := (TickContext Any Task).
Local Abbreviation Runtime := (@Runtime Any).
Local Abbreviation TickState := (@TickState Any Task W).

Definition is_critical (a : Alert) : bool := String.eqb (level a) "CRITICAL".

(** An alert that carries the tick id and the clock reading of the context. *)
Definition stamped (c : TickContext) (a : Alert) : Prop :=
  alert_tick a = tick_id c /\ ts a = wall_clock_ts c.

(** From [c] to [c'] the tick has only appended alerts, all stamped, and
    has flagged a breach exactly when one of them is CRITICAL. *)
Definition logged (c c' : TickContext) : Prop :=
  tick_id c' = tick_id c /\ wall_clock_ts c' = wall_clock_ts c
  /\ exists more,
       alerts c' = alerts c ++ more
       /\ Forall (stamped c) more
       /\ breached c' = breached c || existsb is_critical more.


(** The snapshot that step 6 builds from the mutated state. *)
Definition output_snapshot (tid : Z) (new_state : State) : Snapshot :=
  mkSnapshot (_alloc_snapshot_id tid) tid new_state None "soft".

(** The alerts of steps 1 to 3 on a tick whose continuity check passed. *)
Definition ingest_alerts (max : Z) (tid : Z) (wall : float) (pending : list Delta)
  : list Alert :=
  (if max <? Z.of_nat (length pending)
   then [fence_alert tid wall (Z.of_nat (length pending) - max)] else [])
  ++ map (reject_alert tid wall) (malformed max pending).

(** The alert of step 10 for a failure of the hydration. *)
Definition hydration_alert (tid : Z) (wall : float) (e : PyExn) : Alert :=
  match e with
  | ImportError _ =>
      mkAlert "WARNING" 10
        "domain_views module not available; skipping view generation" tid wall
  | _ => mkAlert "ERROR" 10 ("Domain view generation failed: " ++ exn_str e) tid wall
  end.
(** The context of a tick whose continuity check passed, after step 6. *)
Definition after_step6 (r : Runtime) (wall : float) (dt : option float)
    (pending : list Delta) (views : option State) (s' : State) (invs : list Delta)
  : TickContext :=
  mutated_ctx
    (ingested (max_deltas_per_tick r)
       (set_ctx_timeline_hash_ok (fresh_ctx r wall dt pending views) true)) s' invs.

(** A context whose alerts are all stamped with its tick and whose breach
    flag says whether one of them is CRITICAL. *)
Definition sound_log (c : TickContext) : Prop :=
  Forall (stamped c) (alerts c) /\ breached c = existsb is_critical (alerts c).
End TickLog.

(** ** The views *)

Section ViewsVocabulary.
Import Values DomainViews.

(** [view] is the part of the state under the prefix [p]: nothing when no
    key of the state starts with [p], else a dict with exactly those keys
    and the values the state gives them. *)
Definition is_slice (p : string) (state : gmap string Value) (view : option Value) : Prop :=
  match view with
  | None => forall k, String.prefix p k = true -> state !! k = None
  | Some v =>
      exists items,
        v = VDict items /\ items <> [] /\ NoDup (map fst items)
        /\ forall k x, In (k, x) items <-> String.prefix p k = true /\ state !! k = Some x
  end.

Definition view_names : list string :=
  ["narrative_view"; "audio_view"; "animation_view"; "spatial_view"; "ap_rules_view"].
End ViewsVocabulary.

(** ** The scene *)

Section SceneVocabulary.
Import Values Performer.

(** [start_t < clip.start_time <= end_t] *)
Definition in_window (start_t end_t : float) (c : Clip) : bool :=
  (start_t <? start_time c)%float && (start_time c <=? end_t)%float.

(** The keys of the dict of tracks. *)
Definition track_keys (sc : SceneTrack) : list string := map fst (tracks sc).
End SceneVocabulary.

(** ** Further runs: failing collaborators, views, scenes *)

Module EdgeRuns.
Import TestHarness TestRuns.

(** A run of the test runtime with a hydration and a performer of choice. *)
Abbreviation run_with h p pending views dt r w :=
  (@run_tick PyVal TestTask TestWorld TestClock TestAnchorStore TestZON4DKernel h p
     TestABI pending views dt r w).

(** The Anchor Store of the tests with [current_hash_ok = False]. *)
Definition broken_world : TestWorld := mkTestWorld false 100.

(** A runtime whose Anchor Store handed back no initial snapshot. *)
Definition runtime_without_snapshot : @Runtime PyVal :=
  mkRuntime 0 None 1024 5 10 false None.

(** A runtime with a performer attached. *)
Definition runtime_with_performer : @Runtime PyVal :=
  mkRuntime 0 (Some immutable_anchor) 1024 5 10 true None.

(** A hydration that fails on a value it cannot convert. *)
Definition FailingHydration : @Hydration PyVal TestWorld :=
  {| generate_domain_views_from_state := fun _ _ w =>
       (Raise (OtherException "could not convert string to float: 'soon'"), w) |}.

(** A hydration that derives one view. *)
Definition OneViewHydration : @Hydration PyVal TestWorld :=
  {| generate_domain_views_from_state := fun s _ w =>
       (Ret {[ "spatial_view" := PyDict (map_to_list s) ]}, w) |}.

(** A performer that is down. *)
Definition FailingPerformer : @PerformerEngine PyVal TestTask TestWorld :=
  {| performer_step := fun _ _ _ w => (Raise (RuntimeError "performer is down"), w) |}.

End EdgeRuns.

Module ViewRuns.
Import Values DomainViews.
Import TestHarness.

(** A [float()] that reads no numeral: the runs below convert no string. *)
#[export] Instance NoNumerals : PyFloat :=
  {| float_of_str := fun _ => None;
     float_error := fun _ => "float() argument must be a string or a real number" |}.








Definition speaking_state : gmap string Value :=
  {[ "narrative/active_speaker" := VStr "keen";
     "narrative/active_line" := VStr "intro_001";
     "spatial/keen" := VList [VFloat 1; VFloat 2] ]}.


(** A state with nothing to perform and a duration that is no number. *)
Definition idle_state : gmap string Value :=
  {[ "narrative/duration" := VStr "soon"; "ap/rule" := VBool true ]}.
End ViewRuns.

(** * Properties *)

(** ** Floats *)

Ltac fold_pos :=
  repeat match goal with
  | H : context [PosDef.Pos.compare_cont Eq ?a ?b] |- _ =>
      change (PosDef.Pos.compare_cont Eq a b) with (Pos.compare a b) in H
  | |- context [PosDef.Pos.compare_cont Eq ?a ?b] =>
      change (PosDef.Pos.compare_cont Eq a b) with (Pos.compare a b)
  end.

Ltac sf_cases :=
  repeat match goal with
  | s : bool |- _ => destruct s
  end; simpl in *; try congruence.

Ltac cmp_solve :=
  repeat match goal with
  | H : context [ (?a ?= ?b)%Z ] |- _ => destruct (Z.compare_spec a b); simpl in H
  | |- context [ (?a ?= ?b)%Z ] => destruct (Z.compare_spec a b); simpl
  | H : context [ (?a ?= ?b)%positive ] |- _ => destruct (Pos.compare_spec a b); simpl in H
  | |- context [ (?a ?= ?b)%positive ] => destruct (Pos.compare_spec a b); simpl
  end; subst; try congruence; try lia.

Lemma SFcompare_trans_lt a b c :
  SFcompare a b = Some Lt -> SFcompare b c = Some Lt -> SFcompare a c = Some Lt.
Proof.
  destruct a as [sa|sa| |sa ma ea], b as [sb|sb| |sb mb eb], c as [sc|sc| |sc mc ec];
    simpl; try congruence; sf_cases; intros; fold_pos; f_equal; cmp_solve.
Qed.

Lemma SFcompare_eq_l a b c x :
  SFcompare a b = Some Eq -> SFcompare b c = Some x -> SFcompare a c = Some x.
Proof.
  destruct a as [sa|sa| |sa ma ea], b as [sb|sb| |sb mb eb], c as [sc|sc| |sc mc ec];
    simpl; try congruence; sf_cases; intros; fold_pos; try congruence; cmp_solve.
Qed.

Lemma SFcompare_eq_r a b c x :
  SFcompare a b = Some x -> SFcompare b c = Some Eq -> SFcompare a c = Some x.
Proof.
  destruct a as [sa|sa| |sa ma ea], b as [sb|sb| |sb mb eb], c as [sc|sc| |sc mc ec];
    simpl; try congruence; sf_cases; intros; fold_pos; try congruence; cmp_solve.
Qed.

Lemma SFcompare_antisym a b x :
  SFcompare a b = Some x -> SFcompare b a = Some (CompOpp x).
Proof.
  destruct a as [sa|sa| |sa ma ea], b as [sb|sb| |sb mb eb];
    simpl; try congruence; sf_cases; intros H; inversion H; subst; clear H;
    simpl; try reflexivity; f_equal; fold_pos; cmp_solve; try reflexivity.
Qed.

Lemma SFcompare_refl a : a <> S754_nan -> SFcompare a a = Some Eq.
Proof.
  destruct a as [sa|sa| |sa ma ea]; simpl; try congruence; sf_cases; intros _;
    fold_pos; rewrite Z.compare_refl, Pos.compare_refl; reflexivity.
Qed.

Lemma SFcompare_some a b :
  a <> S754_nan -> b <> S754_nan -> exists x, SFcompare a b = Some x.
Proof. destruct a, b; simpl; try congruence; eauto. Qed.

Lemma SFcompare_nan_l a b x : SFcompare a b = Some x -> a <> S754_nan.
Proof. destruct a; simpl; congruence. Qed.

Lemma is_nan_false x : is_nan x = false <-> Prim2SF x <> S754_nan.
Proof.
  unfold is_nan. rewrite negb_false_iff, FloatAxioms.eqb_spec. unfold SFeqb. split.
  - intros H E. rewrite E in H. discriminate.
  - intros H. rewrite SFcompare_refl by assumption. reflexivity.
Qed.

Lemma float_ltb_iff x y : (x <? y)%float = true <-> SFcompare (Prim2SF x) (Prim2SF y) = Some Lt.
Proof.
  rewrite FloatAxioms.ltb_spec. unfold SFltb.
  destruct (SFcompare (Prim2SF x) (Prim2SF y)) as [[]|]; split; congruence.
Qed.

Lemma float_eqb_iff x y : (x =? y)%float = true <-> SFcompare (Prim2SF x) (Prim2SF y) = Some Eq.
Proof.
  rewrite FloatAxioms.eqb_spec. unfold SFeqb.
  destruct (SFcompare (Prim2SF x) (Prim2SF y)) as [[]|]; split; congruence.
Qed.

Lemma float_strict_total :
  StrictTotal (fun x => is_nan x = false) PrimFloat.eqb PrimFloat.ltb.
Proof.
  split.
  - intros a Ha. apply float_eqb_iff, SFcompare_refl, is_nan_false, Ha.
  - intros a b. rewrite !float_eqb_iff. intros H.
    apply SFcompare_antisym in H. exact H.
  - intros a b c. rewrite !float_eqb_iff. apply SFcompare_eq_l.
  - intros a b c. rewrite !float_ltb_iff. apply SFcompare_trans_lt.
  - intros a b c. rewrite float_eqb_iff, !float_ltb_iff. apply SFcompare_eq_l.
  - intros a b c. rewrite float_eqb_iff, !float_ltb_iff. apply SFcompare_eq_r.
  - intros a b. rewrite float_ltb_iff. intros H.
    destruct (a =? b)%float eqn:E; [|reflexivity].
    apply float_eqb_iff in E. congruence.
  - intros a b. rewrite float_ltb_iff. intros H.
    destruct (b <? a)%float eqn:E; [|reflexivity].
    apply float_ltb_iff in E. apply SFcompare_antisym in H. simpl in H. congruence.
  - intros a b Ha Hb. rewrite !float_ltb_iff, float_eqb_iff.
    apply is_nan_false in Ha, Hb.
    destruct (SFcompare_some _ _ Ha Hb) as [[] Hx]; auto.
    right; right. apply SFcompare_antisym in Hx. exact Hx.
Qed.

(** ** Strings and lengths *)

Lemma ascii_compare_eq a b : Ascii.compare a b = Eq -> a = b.
Proof.
  unfold Ascii.compare. rewrite N.compare_eq_iff. intros H.
  rewrite <- (ascii_N_embedding a), <- (ascii_N_embedding b). congruence.
Qed.

Lemma ascii_compare_refl a : Ascii.compare a a = Eq.
Proof. unfold Ascii.compare. apply N.compare_refl. Qed.

Lemma ascii_compare_lt_trans a b c :
  Ascii.compare a b = Lt -> Ascii.compare b c = Lt -> Ascii.compare a c = Lt.
Proof. unfold Ascii.compare. rewrite !N.compare_lt_iff. lia. Qed.

Lemma string_compare_lt_trans s1 : forall s2 s3,
  String.compare s1 s2 = Lt -> String.compare s2 s3 = Lt -> String.compare s1 s3 = Lt.
Proof.
  induction s1 as [|a s1 IH]; intros [|b s2] [|c s3]; simpl; try congruence.
  destruct (Ascii.compare a b) eqn:Eab; try congruence;
    destruct (Ascii.compare b c) eqn:Ebc; try congruence; intros H1 H2.
  - apply ascii_compare_eq in Eab, Ebc. subst. rewrite ascii_compare_refl. eauto.
  - apply ascii_compare_eq in Eab. subst. rewrite Ebc. reflexivity.
  - apply ascii_compare_eq in Ebc. subst. rewrite Eab. reflexivity.
  - rewrite (ascii_compare_lt_trans _ _ _ Eab Ebc). reflexivity.
Qed.

Lemma string_strict_total : StrictTotal (fun _ => True) String.eqb String.ltb.
Proof.
  assert (Hlt : forall a b, String.ltb a b = true <-> String.compare a b = Lt).
  { intros a b. unfold String.ltb. destruct (String.compare a b); split; congruence. }
  split.
  - intros a _. apply String.eqb_refl.
  - intros a b. rewrite !String.eqb_eq. congruence.
  - intros a b c. rewrite !String.eqb_eq. congruence.
  - intros a b c. rewrite !Hlt. apply string_compare_lt_trans.
  - intros a b c. rewrite String.eqb_eq. congruence.
  - intros a b c H. rewrite String.eqb_eq. congruence.
  - intros a b. rewrite Hlt. intros H. apply String.eqb_neq. intros ->.
    pose proof (String.compare_antisym b b) as HA. rewrite H in HA. discriminate.
  - intros a b. rewrite Hlt. intros H.
    destruct (String.ltb b a) eqn:E; [|reflexivity]. apply Hlt in E.
    rewrite String.compare_antisym, H in E. discriminate.
  - intros a b _ _. rewrite !Hlt, String.eqb_eq.
    destruct (String.compare a b) eqn:E.
    + right; left. apply String.compare_eq_iff, E.
    + left; reflexivity.
    + right; right. rewrite String.compare_antisym, E. reflexivity.
Qed.

Lemma nat_strict_total : StrictTotal (fun _ => True) Nat.eqb Nat.ltb.
Proof.
  split; intros *;
    rewrite ?Nat.eqb_eq, ?Nat.ltb_lt, ?Nat.eqb_neq, ?Nat.ltb_ge; try lia.
Qed.

(** ** Tuples *)

Section Lex.
Context {A B : Type} {domA : A -> Prop} {domB : B -> Prop}.
Context {eqA ltA : A -> A -> bool} {eqB ltB : B -> B -> bool}.
Context (HA : StrictTotal domA eqA ltA) (HB : StrictTotal domB eqB ltB).

Lemma lex_strict_total :
  StrictTotal (fun x => domA (fst x) /\ domB (snd x))
              (lex_eqb eqA eqB) (lex_ltb eqA ltA ltB).
Proof.
  destruct HA as [rA sA etA ltA' elA leA nA aA tA].
  destruct HB as [rB sB etB ltB' elB leB nB aB tB].
  split; unfold lex_eqb, lex_ltb.
  - intros [a b] [Ha Hb]; simpl. rewrite rA, rB; auto.
  - intros [a b] [a' b']; simpl. rewrite !andb_true_iff. intros [? ?]; split; auto.
  - intros [a b] [a' b'] [a'' b'']; simpl. rewrite !andb_true_iff.
    intros [? ?] [? ?]; split; eauto.
  - intros [a1 b1] [a2 b2] [a3 b3]; simpl.
    destruct (eqA a1 a2) eqn:E12, (eqA a2 a3) eqn:E23; simpl; intros H1 H2.
    + rewrite (etA _ _ _ E12 E23). simpl. eauto.
    + assert (L : ltA a1 a3 = true) by eauto. rewrite (nA _ _ L). simpl. exact L.
    + assert (L : ltA a1 a3 = true) by eauto. rewrite (nA _ _ L). simpl. exact L.
    + assert (L : ltA a1 a3 = true) by eauto. rewrite (nA _ _ L). simpl. exact L.
  - intros [a1 b1] [a2 b2] [a3 b3]; simpl. rewrite andb_true_iff. intros [E12 F12].
    destruct (eqA a2 a3) eqn:E23; simpl; intros H2.
    + rewrite (etA _ _ _ E12 E23). simpl. eauto.
    + assert (L : ltA a1 a3 = true) by eauto. rewrite (nA _ _ L). simpl. exact L.
  - intros [a1 b1] [a2 b2] [a3 b3]; simpl. intros H1. rewrite andb_true_iff.
    intros [E23 F23]. destruct (eqA a1 a2) eqn:E12; simpl in H1.
    + rewrite (etA _ _ _ E12 E23). simpl. eauto.
    + assert (L : ltA a1 a3 = true) by eauto. rewrite (nA _ _ L). simpl. exact L.
  - intros [a1 b1] [a2 b2]; simpl. destruct (eqA a1 a2) eqn:E; simpl; intros H.
    + rewrite (nB _ _ H). reflexivity.
    + reflexivity.
  - intros [a1 b1] [a2 b2]; simpl. destruct (eqA a1 a2) eqn:E; simpl; intros H.
    + rewrite (sA _ _ E). simpl. auto.
    + destruct (eqA a2 a1) eqn:E'; simpl; auto.
      apply sA in E'. congruence.
  - intros [a1 b1] [a2 b2] [Ha1 Hb1] [Ha2 Hb2]; simpl in *.
    destruct (tA a1 a2 Ha1 Ha2) as [L | [E | L]].
    + rewrite (nA _ _ L). simpl. auto.
    + rewrite E, (sA _ _ E). simpl. destruct (tB b1 b2 Hb1 Hb2) as [? | [? | ?]]; auto.
    + right; right. destruct (eqA a2 a1) eqn:E'; simpl; auto.
      rewrite (nA _ _ L) in E'. discriminate.
Qed.
End Lex.

Lemma key_ltb_lex (a b : SortKey) :
  key_ltb a b =
  lex_ltb PrimFloat.eqb PrimFloat.ltb
    (lex_ltb Nat.eqb Nat.ltb (lex_ltb String.eqb String.ltb String.ltb))
    (fst (fst (fst a)), (snd (fst (fst a)), (snd (fst a), snd a)))
    (fst (fst (fst b)), (snd (fst (fst b)), (snd (fst b), snd b))).
Proof.
  destruct a as [[[t1 n1] s1] i1], b as [[[t2 n2] s2] i2]. unfold key_ltb, lex_ltb. simpl.
  destruct (t1 =? t2)%float; simpl; auto.
  destruct (n1 =? n2)%nat; simpl; auto.
  destruct (String.eqb s1 s2); simpl; auto.
  destruct (String.eqb i1 i2) eqn:E; simpl; auto.
  apply String.eqb_eq in E. subst.
  destruct (String.ltb i2 i2) eqn:L; auto.
  pose proof (st_lt_neq _ _ _ string_strict_total _ _ L) as N.
  rewrite String.eqb_refl in N. discriminate.
Qed.

Lemma key_eqb_lex (a b : SortKey) :
  key_eqb a b =
  lex_eqb PrimFloat.eqb (lex_eqb Nat.eqb (lex_eqb String.eqb String.eqb))
    (fst (fst (fst a)), (snd (fst (fst a)), (snd (fst a), snd a)))
    (fst (fst (fst b)), (snd (fst (fst b)), (snd (fst b), snd b))).
Proof.
  destruct a as [[[t1 n1] s1] i1], b as [[[t2 n2] s2] i2]. unfold key_eqb, lex_eqb. simpl.
  rewrite !andb_assoc. reflexivity.
Qed.

Lemma key_strict_total : StrictTotal key_ok key_eqb key_ltb.
Proof.
  pose proof (lex_strict_total float_strict_total
    (lex_strict_total nat_strict_total
       (lex_strict_total string_strict_total string_strict_total))) as L.
  destruct L as [r s et lt el le n a t].
  split; intros *; rewrite ?key_ltb_lex, ?key_eqb_lex.
  - intros Ha. apply r. simpl. unfold key_ok in Ha. auto.
  - apply s.
  - apply et.
  - apply lt.
  - apply el.
  - apply le.
  - apply n.
  - apply a.
  - intros Ha Hb. apply t; simpl; auto.
Qed.

(** ** Sorting *)

Section SortedFacts.
Context {A K : Type} {dom : K -> Prop} {eqb ltb : K -> K -> bool}.
Context (HK : StrictTotal dom eqb ltb) (key : A -> K).

Lemma sorted_insert_perm x l : Permutation (sorted_insert ltb key x l) (x :: l).
Proof.
  induction l as [|y l IH]; simpl; [reflexivity|].
  destruct (ltb (key y) (key x)); [|reflexivity].
  rewrite IH. apply perm_swap.
Qed.

Lemma py_sorted_perm l : Permutation (py_sorted ltb key l) l.
Proof.
  induction l as [|x l IH]; simpl; [reflexivity|].
  unfold py_sorted in *. simpl. rewrite sorted_insert_perm. constructor. exact IH.
Qed.

Lemma le_by_trans a b c : (le_by eqb ltb key) a b -> (le_by eqb ltb key) b c -> (le_by eqb ltb key) a c.
Proof using HK.
  unfold le_by. rewrite !orb_true_iff. destruct HK. intros [H1|H1] [H2|H2]; eauto.
Qed.

Lemma not_lt_le_by a b :
  dom (key a) -> dom (key b) -> ltb (key b) (key a) = false -> (le_by eqb ltb key) a b.
Proof using HK.
  intros Ha Hb H. unfold le_by. rewrite orb_true_iff.
  destruct (st_total _ _ _ HK _ _ Ha Hb) as [?|[?|?]]; auto. congruence.
Qed.

Lemma lt_le_by a b : ltb (key a) (key b) = true -> (le_by eqb ltb key) a b.
Proof. intros H. unfold le_by. rewrite H. reflexivity. Qed.

Lemma sorted_insert_sorted x l :
  dom (key x) -> Forall (fun a => dom (key a)) l ->
  StronglySorted (le_by eqb ltb key) l -> StronglySorted (le_by eqb ltb key) (sorted_insert ltb key x l).
Proof using HK.
  intros Hx Hl Hs. induction Hs as [|y l Hs IH Hy]; simpl.
  - repeat constructor.
  - inversion Hl as [|? ? Hdy Hl']; subst.
    destruct (ltb (key y) (key x)) eqn:E.
    + constructor; [apply IH; assumption|].
      eapply Permutation_Forall; [symmetry; apply sorted_insert_perm|].
      constructor; [apply lt_le_by, E | exact Hy].
    + assert (Hxy : (le_by eqb ltb key) x y) by (apply not_lt_le_by; assumption).
      constructor; [constructor; assumption|].
      constructor; [exact Hxy|].
      eapply Forall_impl; [exact Hy|]. intros z Hz. simpl in Hz.
      eapply le_by_trans; eassumption.
Qed.

Lemma py_sorted_sorted l :
  Forall (fun a => dom (key a)) l -> StronglySorted (le_by eqb ltb key) (py_sorted ltb key l).
Proof using HK.
  induction 1 as [|x l Hx Hl IH]; simpl; [constructor|].
  unfold py_sorted in *. simpl. apply sorted_insert_sorted; auto.
  eapply Permutation_Forall; [symmetry; apply py_sorted_perm | exact Hl].
Qed.
End SortedFacts.

Section Pairwise.
Context {A : Type} (R : A -> A -> Prop).

Lemma pairwise_perm l l' :
  (forall a b, R a b -> R b a) -> Permutation l l' -> pairwise R l -> pairwise R l'.
Proof.
  intros Hsym Hp. unfold pairwise. induction Hp as [|x l l' Hp IH|x y l|l l' l'' H1 IH1 H2 IH2];
    intros H; auto.
  - inversion H; subst. constructor; [|auto].
    eapply Permutation_Forall; eassumption.
  - inversion H as [|? ? Hy H']; subst. inversion H' as [|? ? Hx H'']; subst.
    inversion Hy; subst.
    constructor; [constructor; auto|]. constructor; auto.
Qed.

Lemma pairwise_take n l : pairwise R l -> pairwise R (take n l).
Proof.
  intros H. revert n. unfold pairwise. induction H as [|a l Ha H IH]; intros [|n]; simpl;
    try constructor; auto.
  apply Forall_take. exact Ha.
Qed.

Lemma pairwise_filter f l : pairwise R l -> pairwise R (List.filter f l).
Proof.
  unfold pairwise. induction 1 as [|a l Ha H IH]; simpl; [constructor|].
  destruct (f a); auto. constructor; auto.
  rewrite List.Forall_forall in *. intros x Hx. apply Ha.
  apply filter_In in Hx. tauto.
Qed.

Lemma pairwise_both (R1 R2 : A -> A -> Prop) l :
  StronglySorted R1 l -> pairwise R l ->
  (forall a b, R1 a b -> R a b -> R2 a b) -> StronglySorted R2 l.
Proof.
  intros Hs Hp Himp. unfold pairwise in Hp. induction Hs as [|a l Hs IH Ha]; [constructor|].
  inversion Hp; subst. constructor; auto.
  rewrite List.Forall_forall in *. auto.
Qed.
End Pairwise.

Lemma pairwise_map {A B : Type} (f : A -> B) (R : B -> B -> Prop) l :
  pairwise (fun a b => R (f a) (f b)) l -> pairwise R (map f l).
Proof.
  unfold pairwise. induction 1 as [|a l Ha H IH]; simpl; constructor; auto.
  rewrite Forall_map. exact Ha.
Qed.

(** Two lists with the same entries, both strictly increasing, are the same list. *)
Lemma strictly_sorted_perm_eq {A : Type} (R : A -> A -> Prop) :
  (forall a b, R a b -> R b a -> False) ->
  forall l l', StronglySorted R l -> StronglySorted R l' -> Permutation l l' -> l = l'.
Proof.
  intros Hasym l. induction l as [|a l IH]; intros l' Hs Hs' Hp.
  - apply Permutation_nil in Hp. congruence.
  - destruct l' as [|b l']; [apply Permutation_sym, Permutation_nil in Hp; discriminate|].
    apply StronglySorted_inv in Hs as [Hs Ha]. apply StronglySorted_inv in Hs' as [Hs' Hb].
    assert (a = b) as ->.
    { assert (Hin : In a (b :: l')) by (eapply Permutation_in; [exact Hp|left; reflexivity]).
      assert (Hin' : In b (a :: l))
        by (eapply Permutation_in; [symmetry; exact Hp|left; reflexivity]).
      destruct Hin as [->|Hin]; [reflexivity|].
      destruct Hin' as [->|Hin']; [reflexivity|].
      rewrite List.Forall_forall in Ha, Hb. exfalso. eapply Hasym; eauto. }
    f_equal. apply IH; auto. eapply Permutation_cons_inv. exact Hp.
Qed.

Lemma filter_perm {A : Type} (f : A -> bool) l l' :
  Permutation l l' -> Permutation (List.filter f l) (List.filter f l').
Proof.
  induction 1 as [|x l l' Hp IH|x y l|l l' l'' H1 IH1 H2 IH2]; simpl.
  - reflexivity.
  - destruct (f x); auto.
  - destruct (f x), (f y); auto. apply perm_swap.
  - etransitivity; eassumption.
Qed.

(** ** The tick *)

Section TickProperties.
Context {Any Task W : Type}.
Context {clock : WallClock W} {anchor_store : @AnchorStore Any W}
        {zon4d : @ZON4DKernel Any W} {hydration : @Hydration Any W}
        {performer_engine : @PerformerEngine Any Task W}
        {performance_abi : @PerformanceABI Task W}.
Local Abbreviation State := (gmap string Any).
Local Abbreviation Delta := (Delta Any).
Local Abbreviation Snapshot := (Snapshot Any).
Local Abbreviation TickContext := (TickContext Any Task).
Local Abbreviation Runtime := (@Runtime Any).
Local Abbreviation TickState := (@TickState Any Task W).

Lemma ingest_loop_eq (ds : list Delta) : forall (valid : list Delta) (c : TickContext) (r : Runtime) (w : W),
  ingest_loop ds valid (mkTickState c r w) =
  (Ret (valid ++ map _normalized_delta (List.filter _validate_delta_structure ds)),
   mkTickState
     (set_alerts
        (set_deltas_rejected c
           (deltas_rejected c
              ++ List.filter (fun d => negb (_validate_delta_structure d)) ds))
        (alerts c
           ++ map (reject_alert (tick_id c) (wall_clock_ts c))
                (List.filter (fun d => negb (_validate_delta_structure d)) ds)))
     r w).
Proof.
  induction ds as [|d ds IH]; intros valid c r w; simpl.
  - unfold ret. rewrite !app_nil_r. destruct c; reflexivity.
  - destruct (_validate_delta_structure d) eqn:E; simpl.
    + rewrite IH. rewrite <- app_assoc. reflexivity.
    + unfold bind, modify_ctx, _alert. simpl. rewrite IH.
      destruct c; simpl. rewrite <- !app_assoc. reflexivity.
Qed.

Lemma pre_mutation_eq (c : TickContext) (r : Runtime) (w : W) :
  breached c = false ->
  bind _step2_ingest (fun _ => bind _step3_temporal_order (fun _ =>
     modify_ctx (fun c => set_deltas_accepted c (deltas_ordered c))))
    (mkTickState c r w)
  = (Ret tt, mkTickState (ingested (max_deltas_per_tick r) c) r w).
Proof.
  intros Hb. unfold _step2_ingest, _step3_temporal_order, bind, get_ctx, get_rt,
    modify_ctx, ret, _alert. simpl. rewrite Hb. simpl.
  unfold ingested, accepted_of, ingest_valid, malformed, fence.
  destruct (max_deltas_per_tick r <? Z.of_nat (length (deltas_in c))) eqn:E; simpl;
    rewrite ingest_loop_eq; simpl; rewrite Hb; destruct c; simpl in *; subst;
    rewrite ?app_nil_r, <- ?app_assoc; reflexivity.
Qed.

Lemma apply_loop_eq (ds : list Delta) : forall (s : State) (invs : list Delta) (c : TickContext) (r : Runtime) (w : W),
  apply_loop ds s invs (mkTickState c r w) =
  match mutate ds s invs w with
  | Mutated s' invs' w' => (Ret (s', invs'), mkTickState c r w')
  | NoInverse d w' =>
      (Raise (RuntimeError "Inverse Delta computation failed"),
       mkTickState (breach_ctx c 6 ("Cannot compute inverse for Delta " ++ delta_id d)) r w')
  | KernelRaised e w' => (Raise e, mkTickState c r w')
  end.
Proof.
  induction ds as [|d ds IH]; intros s invs c r w; simpl; [reflexivity|].
  unfold bind, call. simpl.
  destruct (compute_inverse_delta s d w) as [[[i|]|e] w1]; simpl; try reflexivity.
  destruct (apply_delta_in_place s d w1) as [[s1|e] w2]; simpl; try reflexivity.
  apply IH.
Qed.

Lemma mutate_applied (ds : list Delta) : forall s invs w s' invs' w',
  mutate ds s invs w = Mutated s' invs' w' ->
  exists new, invs' = invs ++ new /\ applied s w ds new s' w'.
Proof.
  induction ds as [|d ds IH]; intros s invs w s' invs' w'; simpl.
  - intros [= <- <- <-]. exists []. rewrite app_nil_r. split; [reflexivity|constructor].
  - destruct (compute_inverse_delta s d w) as [[[i|]|e] w1] eqn:E1; try discriminate.
    destruct (apply_delta_in_place s d w1) as [[s1|e] w2] eqn:E2; try discriminate.
    intros Hm. apply IH in Hm as (new & -> & Ha).
    exists (i :: new). rewrite <- app_assoc. split; [reflexivity|].
    econstructor; eassumption.
Qed.

Lemma applied_length s w ds invs s' w' :
  applied s w ds invs s' w' -> length invs = length ds.
Proof. induction 1; simpl; congruence. Qed.

Lemma apply_inverses_eq (invs : list Delta) : forall (s : State) (c : TickContext) (r : Runtime) (w : W),
  apply_inverses invs s (mkTickState c r w) =
  let (o, w') := replay invs s w in (o, mkTickState c r w').
Proof.
  induction invs as [|i invs IH]; intros s c r w; simpl; [reflexivity|].
  unfold bind, call. simpl.
  destruct (apply_delta_in_place s i w) as [[s1|e] w1]; simpl; [apply IH|reflexivity].
Qed.

Lemma same_core_refl (c : TickContext) : same_core c c.
Proof. repeat split. Qed.

Lemma step6_eq (c : TickContext) (r : Runtime) (w : W) :
  breached c = false ->
  _step6_apply_deltas (mkTickState c r w) =
  match snapshot_in c with
  | None =>
      (Raise (RuntimeError "Missing snapshot_in"),
       mkTickState (breach_ctx c 6 "No input Snapshot to mutate") r w)
  | Some sin =>
      match mutate (deltas_accepted c) (zon4d_state sin) [] w with
      | Mutated s' invs w1 =>
          match validate_state s' w1 with
          | (Ret true, w2) => (Ret tt, mkTickState (mutated_ctx c s' invs) r w2)
          | (Ret false, w2) =>
              (Raise (RuntimeError "ZON4D validation failed after mutations"),
               mkTickState (breach_ctx c 6 "ZON4D state validation failed") r w2)
          | (Raise e, w2) => (Raise e, mkTickState c r w2)
          end
      | NoInverse d w1 =>
          (Raise (RuntimeError "Inverse Delta computation failed"),
           mkTickState (breach_ctx c 6 ("Cannot compute inverse for Delta " ++ delta_id d)) r w1)
      | KernelRaised e w1 => (Raise e, mkTickState c r w1)
      end
  end.
Proof.
  intros Hb. unfold _step6_apply_deltas. unfold bind at 1. unfold get_ctx. simpl.
  rewrite Hb. destruct (snapshot_in c) as [sin|]; [|reflexivity].
  unfold bind at 1. rewrite apply_loop_eq.
  destruct (mutate (deltas_accepted c) (zon4d_state sin) [] w) as [s' invs w1|d w1|e w1];
    try reflexivity.
  unfold bind, call. simpl.
  destruct (validate_state s' w1) as [[[|]|e] w2]; reflexivity.
Qed.

Lemma tail_frame_refl (st : TickState) : tail_frame st st.
Proof.
  split; [apply same_core_refl|]. split; [reflexivity|].
  exists []. rewrite app_nil_r. split; [reflexivity|constructor].
Qed.

Lemma tail_frame_trans (st1 st2 st3 : TickState) :
  tail_frame st1 st2 -> tail_frame st2 st3 -> tail_frame st1 st3.
Proof.
  intros (C1 & R1 & t1 & A1 & F1) (C2 & R2 & t2 & A2 & F2).
  split; [|split; [congruence|]].
  - unfold same_core in *. intuition congruence.
  - exists (t1 ++ t2). rewrite A2, A1, <- app_assoc. split; [reflexivity|].
    apply Forall_app; split; assumption.
Qed.

Ltac frame_leaf :=
  simpl; split; [repeat split | split; [reflexivity |
    first [ exists []; rewrite app_nil_r; split; [reflexivity | constructor]
          | eexists [_]; split; [reflexivity | constructor; [simpl; auto | constructor] ] ] ] ].

Lemma step10_frame (st : TickState) o st' :
  _step10_generate_domain_views st = (o, st') -> tail_frame st st'.
Proof.
  destruct st as [c r w].
  unfold _step10_generate_domain_views, _alert, bind, get_ctx, call, modify_ctx, ret. simpl.
  destruct (breached c); [intros [= <- <-]; frame_leaf|].
  destruct (snapshot_out c) as [sout|]; [|intros [= <- <-]; frame_leaf].
  simpl.
  destruct (generate_domain_views_from_state (zon4d_state sout) (tick_id c) w)
    as [[views|e] w1]; simpl.
  - destruct (0 <? size views)%nat; simpl; intros [= <- <-]; frame_leaf.
  - destruct e; simpl; intros [= <- <-]; frame_leaf.
Qed.

Lemma step11_frame (st : TickState) o st' :
  _step11_schedule_performance st = (o, st') -> tail_frame st st'.
Proof.
  destruct st as [c r w].
  unfold _step11_schedule_performance, _alert, bind, get_ctx, get_rt, call, modify_ctx, ret.
  simpl.
  destruct (breached c); simpl; [intros [= <- <-]; frame_leaf|].
  destruct (performer_attached r); simpl; [|intros [= <- <-]; frame_leaf].
  destruct (performer_step (tick_id c) (delta_time c) (domain_views c) w)
    as [[tasks|e] w1]; simpl; [|intros [= <- <-]; frame_leaf].
  destruct (schedule_performance (tick_id c) tasks w1) as [[u|e] w2]; simpl;
    intros [= <- <-]; frame_leaf.
Qed.

(** Steps 10 and 11 and the commit, after a mutation that went through. *)
Lemma tail_steps_frame (st : TickState) (sout : Snapshot) (o : outcome unit) (st' : TickState) :
  breached (ctx st) = false -> snapshot_out (ctx st) = Some sout ->
  tail_steps st = (o, st') ->
  same_core (ctx st) (ctx st')
  /\ (exists tail, alerts (ctx st') = alerts (ctx st) ++ tail
                   /\ Forall (fun a => step a = 10 \/ step a = 11) tail)
  /\ match o with
     | Ret _ => rt st' = set_current_snapshot (rt st) (Some sout)
     | Raise _ => rt st' = rt st
     end.
Proof.
  intros Hb Hs. unfold tail_steps. unfold bind at 1.
  destruct (_step10_generate_domain_views st) as [[u|e] st1] eqn:E10.
  2:{ intros [= <- <-]. apply step10_frame in E10 as (C & R & T). auto. }
  apply step10_frame in E10 as F10.
  unfold bind at 1.
  destruct (_step11_schedule_performance st1) as [[u2|e] st2] eqn:E11.
  2:{ intros [= <- <-]. apply step11_frame in E11 as F11.
      destruct (tail_frame_trans _ _ _ F10 F11) as (C & R & T). auto. }
  apply step11_frame in E11 as F11.
  destruct (tail_frame_trans _ _ _ F10 F11) as (C & R & T).
  unfold bind, get_ctx, modify_rt, ret. simpl.
  assert (Hs2 : snapshot_out (ctx st2) = Some sout) by (unfold same_core in C; intuition congruence).
  assert (Hb2 : breached (ctx st2) = false) by (unfold same_core in C; intuition congruence).
  rewrite Hs2, Hb2. simpl. intros [= <- <-]. simpl.
  split; [assumption|]. split; [assumption|]. congruence.
Qed.

Lemma step1_eq pending views dt (r : Runtime) (w : W) :
  (_step1_init pending views dt r w : outcome TickContext * Runtime * W) =
  let (wall, w1) := time_time w in
  match timeline_hash_ok w1 with
  | (Ret ok, w2) =>
      (Ret (checked_ctx (fresh_ctx r wall dt pending views) ok), started r wall, w2)
  | (Raise e, w2) => (Raise e, started r wall, w2)
  end.
Proof.
  unfold _step1_init. destruct (time_time w) as [wall w1].
  unfold bind, call, modify_ctx, _breach, _alert, ret. simpl.
  destruct (timeline_hash_ok w1) as [[[|]|e] w2]; reflexivity.
Qed.

Lemma mark_breach_eq msg (c : TickContext) (r : Runtime) (w : W) :
  _mark_breach msg (mkTickState c r w) =
  (Ret tt,
   mkTickState
     (set_alerts (set_breached c true)
        (alerts c ++ [mkAlert "CRITICAL" (breach_step_or c) ("Runtime breach: " ++ msg)
                        (tick_id c) (wall_clock_ts c)]))
     r w).
Proof. reflexivity. Qed.

Lemma ineligible_no_fast (c : TickContext) (ok : bool) :
  fast_ineligible c -> use_fast_path (set_ctx_timeline_hash_ok c ok) = false.
Proof.
  unfold fast_ineligible, use_fast_path, breach_step_or. destruct c; simpl.
  intros [Hw | Hn].
  - rewrite Hw. destruct ok; reflexivity.
  - subst. simpl. rewrite andb_false_r. reflexivity.
Qed.

Lemma rollback_slow (st : TickState) :
  fast_ineligible (ctx st) -> _rollback st = slow_rollback st.
Proof.
  destruct st as [c r w]. intros Hin.
  unfold _rollback, slow_rollback, _alert, bind, get_ctx, get_rt, call, modify_ctx,
    modify_rt, ret. simpl.
  destruct (timeline_hash_ok w) as [[ok|e] w1]; simpl; [|reflexivity].
  rewrite (ineligible_no_fast c ok Hin). simpl.
  destruct (load_last_immutable_anchor w1) as [[a|e] w2]; reflexivity.
Qed.

Lemma tick_try_breached (c : TickContext) (r : Runtime) (w : W) :
  breached c = true ->
  tick_try (mkTickState c r w) =
  (Ret tt, mkTickState (set_deltas_accepted c (deltas_ordered c)) r w).
Proof.
  intros Hb. unfold tick_try, _step2_ingest, _step3_temporal_order, _step6_apply_deltas,
    _step10_generate_domain_views, _step11_schedule_performance,
    bind, get_ctx, modify_ctx, ret. simpl. repeat (rewrite Hb; simpl).
  destruct (snapshot_out c); reflexivity.
Qed.

Lemma tick_try_unbreached (c : TickContext) (r : Runtime) (w : W) :
  breached c = false ->
  tick_try (mkTickState c r w) =
  bind _step6_apply_deltas (fun _ => tail_steps)
    (mkTickState (ingested (max_deltas_per_tick r) c) r w).
Proof.
  intros Hb. pose proof (pre_mutation_eq c r w Hb) as E.
  unfold tick_try, tail_steps. unfold bind at 1 2 3. unfold bind at 1 2 in E.
  destruct (_step2_ingest (mkTickState c r w)) as [[u|e] st2]; [|discriminate].
  destruct (_step3_temporal_order st2) as [[u'|e] st3]; [|discriminate].
  rewrite E. reflexivity.
Qed.

Lemma same_core_queues (c c' : TickContext) : same_core c c' -> same_queues c c'.
Proof. unfold same_core, same_queues. intuition. Qed.

Lemma same_queues_trans (c1 c2 c3 : TickContext) :
  same_queues c1 c2 -> same_queues c2 c3 -> same_queues c1 c3.
Proof. unfold same_queues. intuition congruence. Qed.

Lemma tick_try_ret (c : TickContext) (r : Runtime) (w : W) u st1 :
  breached c = false ->
  tick_try (mkTickState c r w) = (Ret u, st1) ->
  let c1 := ingested (max_deltas_per_tick r) c in
  exists sin s' invs w1 w2 tail,
    snapshot_in c = Some sin
    /\ mutate (deltas_accepted c1) (zon4d_state sin) [] w = Mutated s' invs w1
    /\ validate_state s' w1 = (Ret true, w2)
    /\ same_core (mutated_ctx c1 s' invs) (ctx st1)
    /\ alerts (ctx st1) = alerts c1 ++ tail
    /\ Forall (fun a => step a = 10 \/ step a = 11) tail
    /\ rt st1 = set_current_snapshot r (snapshot_out (mutated_ctx c1 s' invs)).
Proof.
  intros Hb. rewrite (tick_try_unbreached c r w Hb). unfold bind.
  rewrite step6_eq by exact Hb. simpl.
  destruct (snapshot_in c) as [sin|]; [|discriminate].
  destruct (mutate _ (zon4d_state sin) [] w) as [s' invs w1|d w1|e w1] eqn:Em;
    try discriminate.
  destruct (validate_state s' w1) as [[[|]|e] w2] eqn:Ev; try discriminate.
  intros Ht.
  eapply tail_steps_frame in Ht as (C & (tail & A & F) & R); [|exact Hb|reflexivity].
  exists sin, s', invs, w1, w2, tail. simpl in *. repeat split; try assumption; try reflexivity;
    unfold same_core in C; simpl in C; intuition.
Qed.

Lemma tick_try_raise (c : TickContext) (r : Runtime) (w : W) e st1 :
  breached c = false ->
  tick_try (mkTickState c r w) = (Raise e, st1) ->
  let c1 := ingested (max_deltas_per_tick r) c in
  same_queues c1 (ctx st1) /\ rt st1 = r
  /\ ((is_runtime_error e = true /\ breached (ctx st1) = true
       /\ breach_step (ctx st1) = Some 6 /\ inverse_deltas (ctx st1) = inverse_deltas c)
      \/ (breached (ctx st1) = false /\ breach_step (ctx st1) = breach_step c)).
Proof.
  intros Hb. rewrite (tick_try_unbreached c r w Hb). unfold bind.
  rewrite step6_eq by exact Hb. simpl.
  destruct (snapshot_in c) as [sin|].
  2:{ intros [= <- <-]. simpl. split; [repeat split|]. split; [reflexivity|]. left. auto. }
  destruct (mutate _ (zon4d_state sin) [] w) as [s' invs w1|d w1|e' w1] eqn:Em.
  - destruct (validate_state s' w1) as [[[|]|e'] w2] eqn:Ev.
    + intros Ht.
      eapply tail_steps_frame in Ht as (C & _ & R); [|exact Hb|reflexivity].
      simpl in *. split; [|split; [exact R|]].
      * apply same_core_queues in C. unfold same_queues in *. simpl in *. intuition.
      * right. unfold same_core in C. simpl in C. intuition congruence.
    + intros [= <- <-]. simpl. split; [repeat split|]. split; [reflexivity|]. left. auto.
    + intros [= <- <-]. simpl. split; [repeat split|]. split; [reflexivity|]. right. auto.
  - intros [= <- <-]. simpl. split; [repeat split|]. split; [reflexivity|]. left. auto.
  - intros [= <- <-]. simpl. split; [repeat split|]. split; [reflexivity|]. right. auto.
Qed.

Lemma checked_ctx_started (c : TickContext) ok :
  inverse_deltas c = [] -> deltas_ordered c = [] -> breached c = false ->
  breach_step c = None ->
  just_started (checked_ctx c ok) /\ breached (checked_ctx c ok) = negb ok.
Proof.
  intros Hi Ho Hb Hs. unfold just_started, checked_ctx.
  destruct ok; simpl; rewrite ?Hb; repeat split; auto.
Qed.

Lemma rollback_entry_inv (c : TickContext) (r : Runtime) (w : W) st :
  just_started c ->
  rollback_entry (mkTickState c r w) = Some st ->
  breached (ctx st) = true /\ fast_ineligible (ctx st) /\ rt st = r
  /\ same_queues (if breached c then set_deltas_accepted c []
                  else ingested (max_deltas_per_tick r) c) (ctx st)
  /\ (breach_step (ctx st) = Some 1 <-> breached c = true).
Proof.
  intros (Hi & Ho & Hs). unfold rollback_entry.
  destruct (breached c) eqn:Hb.
  - rewrite (tick_try_breached c r w Hb). simpl. rewrite Hb.
    intros [= <-]. simpl. rewrite Ho. split; [exact Hb|]. split.
    { left. unfold breach_step_or. simpl. rewrite Hs. reflexivity. }
    split; [reflexivity|]. split; [repeat split|]. rewrite Hs. tauto.
  - destruct (tick_try (mkTickState c r w)) as [[u|e] st1] eqn:Et.
    + apply tick_try_ret in Et as (sin & s' & invs & w1 & w2 & tail & _ & _ & _ & C & _);
        [|exact Hb].
      assert (Hb1 : breached (ctx st1) = false)
        by (unfold same_core in C; simpl in C; intuition congruence).
      rewrite Hb1. discriminate.
    + apply tick_try_raise in Et as (Q & R & Hcase); [|exact Hb].
      destruct e as [msg| | |]; try discriminate.
      destruct st1 as [c1 r1 w1]. rewrite mark_breach_eq. intros [= <-]. simpl in *.
      split; [reflexivity|]. split.
      { destruct Hcase as [(_ & _ & H6 & Hinv) | (_ & Hbs)].
        - right. simpl. congruence.
        - left. unfold breach_step_or. simpl. rewrite Hbs, Hs. reflexivity. }
      split; [exact R|]. split; [exact Q|].
      destruct Hcase as [(_ & _ & H6 & Hinv) | (_ & Hbs)].
      * rewrite H6. split; discriminate.
      * rewrite Hbs, Hs. split; discriminate.
Qed.

Lemma slow_rollback_ret (st : TickState) u st' :
  slow_rollback st = (Ret u, st') ->
  same_queues (ctx st) (ctx st')
  /\ breached (ctx st') = breached (ctx st)
  /\ breach_step (ctx st') = breach_step (ctx st)
  /\ snapshot_out (ctx st') = snapshot_out (ctx st)
  /\ inverse_deltas (ctx st') = inverse_deltas (ctx st)
  /\ exists ok w1,
       timeline_hash_ok (world st) = (Ret ok, w1)
       /\ load_last_immutable_anchor w1 = (Ret (current_snapshot (rt st')), world st')
       /\ rt st' = set_current_snapshot (rt st) (current_snapshot (rt st'))
       /\ alerts (ctx st') =
            alerts (ctx st)
              ++ [mkAlert "INFO" (breach_step_or (ctx st))
                    "Slow-path rollback: restored last immutable anchor"
                    (tick_id (ctx st)) (wall_clock_ts (ctx st))].
Proof.
  destruct st as [c r w]. unfold slow_rollback. simpl.
  destruct (timeline_hash_ok w) as [[ok|e] w1]; [|discriminate].
  destruct (load_last_immutable_anchor w1) as [[a|e] w2] eqn:E; [|discriminate].
  intros [= <- <-]. simpl. repeat split. exists ok, w1. auto.
Qed.

Lemma tick_guarded_eq (st0 : TickState) :
  just_started (ctx st0) ->
  tick_guarded st0 =
  match rollback_entry st0 with
  | Some st => slow_rollback st
  | None =>
      match tick_try st0 with
      | (Ret _, st1) => (Ret tt, st1)
      | (Raise e, st1) => (Raise e, st1)
      end
  end.
Proof.
  intros Hj. destruct st0 as [c r w]. simpl in Hj.
  destruct (rollback_entry (mkTickState c r w)) as [st|] eqn:Ee.
  - pose proof (rollback_entry_inv c r w st Hj Ee) as (_ & Hin & _).
    rewrite <- (rollback_slow st Hin).
    unfold rollback_entry in Ee. unfold tick_guarded.
    destruct (tick_try (mkTickState c r w)) as [[u|e] st1].
    + destruct (breached (ctx st1)); congruence.
    + destruct e; try discriminate. destruct st1 as [c1 r1 w1].
      unfold bind. rewrite mark_breach_eq in *. congruence.
  - unfold rollback_entry in Ee. unfold tick_guarded.
    destruct (tick_try (mkTickState c r w)) as [[u|e] st1].
    + destruct (breached (ctx st1)); [discriminate|reflexivity].
    + destruct e; try reflexivity. destruct st1 as [c1 r1 w1].
      rewrite mark_breach_eq in Ee. discriminate.
Qed.

Lemma fresh_started (r : Runtime) wall dt pending views ok :
  just_started (checked_ctx (Task:=Task) (fresh_ctx r wall dt pending views) ok)
  /\ breached (checked_ctx (Task:=Task) (fresh_ctx r wall dt pending views) ok) = negb ok.
Proof. apply checked_ctx_started; reflexivity. Qed.

Lemma run_tick_eq pending views dt (r : Runtime) (w : W) :
  (run_tick pending views dt r w : outcome TickContext * Runtime * W) =
  let (wall, w1) := time_time w in
  match timeline_hash_ok w1 with
  | (Raise e, w2) => (Raise e, started r wall, w2)
  | (Ret ok, w2) =>
      let st0 := mkTickState (checked_ctx (fresh_ctx r wall dt pending views) ok)
                             (started r wall) w2 in
      finish (match rollback_entry st0 with
              | Some st => slow_rollback st
              | None => tick_try st0
              end)
  end.
Proof.
  unfold run_tick. rewrite step1_eq.
  destruct (time_time w) as [wall w1].
  destruct (timeline_hash_ok w1) as [[ok|e] w2]; [|reflexivity].
  rewrite tick_guarded_eq by apply fresh_started.
  destruct (rollback_entry _) as [st|].
  - unfold finish. destruct (slow_rollback st) as [[u|e] st']; reflexivity.
  - unfold finish. destruct (tick_try _) as [[u|e] st']; reflexivity.
Qed.

Lemma run_entry_eq pending views dt (r : Runtime) (w : W) :
  run_tick_rollback_entry pending views dt r w =
  let (wall, w1) := time_time w in
  match timeline_hash_ok w1 with
  | (Raise e, w2) => None
  | (Ret ok, w2) =>
      rollback_entry (mkTickState (checked_ctx (fresh_ctx r wall dt pending views) ok)
                                  (started r wall) w2)
  end.
Proof.
  unfold run_tick_rollback_entry. rewrite step1_eq.
  destruct (time_time w) as [wall w1].
  destruct (timeline_hash_ok w1) as [[ok|e] w2]; reflexivity.
Qed.

(** A tick that returns unbreached went through every step. *)
Lemma run_tick_unbreached pending views dt (r : Runtime) (w : W) cF rF wF :
  run_tick pending views dt r w = (Ret cF, rF, wF) ->
  breached cF = false ->
  exists wall w1 w2 sin s' invs w3 w4 tail,
    let c1 := ingested (max_deltas_per_tick r)
                (set_ctx_timeline_hash_ok (fresh_ctx r wall dt pending views) true) in
    time_time w = (wall, w1)
    /\ timeline_hash_ok w1 = (Ret true, w2)
    /\ current_snapshot r = Some sin
    /\ mutate (accepted_of (max_deltas_per_tick r) pending) (zon4d_state sin) [] w2
       = Mutated s' invs w3
    /\ validate_state s' w3 = (Ret true, w4)
    /\ same_core (mutated_ctx c1 s' invs) cF
    /\ alerts cF = alerts c1 ++ tail
    /\ Forall (fun a => step a = 10 \/ step a = 11) tail
    /\ rF = set_current_snapshot (started r wall) (snapshot_out (mutated_ctx c1 s' invs)).
Proof.
  rewrite run_tick_eq. destruct (time_time w) as [wall w1] eqn:Ec.
  destruct (timeline_hash_ok w1) as [[ok|e] w2] eqn:Eh; [|discriminate].
  cbv zeta. set (c0 := checked_ctx (fresh_ctx r wall dt pending views) ok).
  destruct (fresh_started r wall dt pending views ok) as [Hj Hb0]. fold c0 in Hj, Hb0.
  destruct (rollback_entry _) as [st|] eqn:Ee.
  - pose proof (rollback_entry_inv _ _ _ _ Hj Ee) as (Hb & _).
    unfold finish. destruct (slow_rollback st) as [[u|e] st'] eqn:Es; [|discriminate].
    simpl. intros [= <- <- <-] HbF.
    apply slow_rollback_ret in Es as (_ & Hb' & _). congruence.
  - unfold finish.
    destruct (tick_try _) as [[u|e] st1] eqn:Et; [|discriminate].
    simpl. intros [= <- <- <-] HbF.
    destruct ok.
    + apply tick_try_ret in Et; [|reflexivity].
      destruct Et as (sin & s' & invs & w3 & w4 & tail & G1 & G2 & G3 & G4 & G5 & G6 & G7).
      exists wall, w1, w2, sin, s', invs, w3, w4, tail.
      split; [reflexivity|]. split; [exact Eh|]. split; [exact G1|].
      split; [exact G2|]. split; [exact G3|]. split; [exact G4|].
      split; [exact G5|]. split; [exact G6|exact G7].
    + exfalso. unfold c0 in Et. simpl in Et.
      rewrite tick_try_breached in Et by reflexivity. injection Et as <-.
      discriminate.
Qed.

(** A tick that returns breached went through the slow path of rollback. *)
Lemma run_tick_breached pending views dt (r : Runtime) (w : W) cF rF wF :
  run_tick pending views dt r w = (Ret cF, rF, wF) ->
  breached cF = true ->
  exists st, run_tick_rollback_entry pending views dt r w = Some st
             /\ slow_rollback st = (Ret tt, mkTickState cF rF wF).
Proof.
  rewrite run_tick_eq, run_entry_eq. destruct (time_time w) as [wall w1].
  destruct (timeline_hash_ok w1) as [[ok|e] w2]; [|discriminate].
  cbv zeta. set (c0 := checked_ctx (fresh_ctx r wall dt pending views) ok).
  destruct (fresh_started r wall dt pending views ok) as [Hj Hb0]. fold c0 in Hj, Hb0.
  destruct (rollback_entry _) as [st|] eqn:Ee.
  - unfold finish. destruct (slow_rollback st) as [[[]|e] [c' r' w']] eqn:Es; [|discriminate].
    simpl. intros [= <- <- <-] _. exists st. auto.
  - unfold finish. destruct (tick_try _) as [[u|e] st1] eqn:Et; [|discriminate].
    simpl. intros [= <- <- <-] HbF. exfalso.
    unfold rollback_entry in Ee. rewrite Et, HbF in Ee. discriminate.
Qed.

(** The queues and the clock readings of a tick that returns, breached or not. *)
Lemma run_tick_queues pending views dt (r : Runtime) (w : W) cF rF wF :
  run_tick pending views dt r w = (Ret cF, rF, wF) ->
  exists wall w1 ok w2,
    time_time w = (wall, w1)
    /\ timeline_hash_ok w1 = (Ret ok, w2)
    /\ same_queues
         (if ok
          then ingested (max_deltas_per_tick r)
                 (set_ctx_timeline_hash_ok (fresh_ctx r wall dt pending views) true)
          else fresh_ctx r wall dt pending views) cF
    /\ (breach_step cF = Some 1 <-> ok = false).
Proof.
  intros Hrun. destruct (breached cF) eqn:HbF.
  - destruct (run_tick_breached _ _ _ _ _ _ _ _ Hrun HbF) as (st & Ee & Es).
    rewrite run_entry_eq in Ee.
    destruct (time_time w) as [wall w1] eqn:Ec.
    destruct (timeline_hash_ok w1) as [[ok|e] w2] eqn:Eh; [|discriminate].
    destruct (fresh_started r wall dt pending views ok) as [Hj Hb0].
    pose proof (rollback_entry_inv _ _ _ _ Hj Ee) as (_ & _ & _ & Q & S1).
    apply slow_rollback_ret in Es as (Q' & _ & S' & _). simpl in Q', S'.
    exists wall, w1, ok, w2. split; [reflexivity|]. split; [exact Eh|].
    rewrite Hb0 in Q. rewrite S', S1, Hb0. split.
    + eapply same_queues_trans; [|exact Q']. destruct ok; simpl in *; exact Q.
    + destruct ok; simpl; split; congruence.
  - destruct (run_tick_unbreached _ _ _ _ _ _ _ _ Hrun HbF)
      as (wall & w1 & w2 & sin & s' & invs & w3 & w4 & tail & Ec & Eh & _ & _ & _ & C & _).
    exists wall, w1, true, w2. split; [exact Ec|]. split; [exact Eh|]. split.
    + apply same_core_queues in C. exact C.
    + unfold same_core in C. simpl in C. split; [|discriminate].
      intros E. destruct C as (_ & _ & _ & _ & _ & _ & _ & _ & _ & _ & _ & C & _).
      rewrite E in C. discriminate.
Qed.

(** The queues, the fence flag and the alerts of a tick that returns unbreached. *)
Lemma unbreached_queues pending views dt (r : Runtime) (w : W) cF rF wF :
  run_tick pending views dt r w = (Ret cF, rF, wF) ->
  breached cF = false ->
  let max := max_deltas_per_tick r in
  let n := Z.of_nat (length pending) in
  deltas_in cF = ingest_valid max pending
  /\ deltas_ordered cF = accepted_of max pending
  /\ deltas_accepted cF = accepted_of max pending
  /\ deltas_rejected cF = malformed max pending
  /\ fenced cF = (max <? n)
  /\ exists tail,
       alerts cF =
         (if max <? n then [fence_alert (tick_id cF) (wall_clock_ts cF) (n - max)] else [])
         ++ map (reject_alert (tick_id cF) (wall_clock_ts cF)) (malformed max pending)
         ++ tail
       /\ Forall (fun a => step a = 10 \/ step a = 11) tail.
Proof.
  intros Hrun HbF.
  destruct (run_tick_unbreached _ _ _ _ _ _ _ _ Hrun HbF)
    as (wall & w1 & w2 & sin & s' & invs & w3 & w4 & tail & Ec & Eh & _ & _ & _ & C & A & F & _).
  unfold same_core in C. simpl in C, A.
  destruct C as (T & Wc & _ & _ & Di & Do & Da & Dr & _ & Fe & _).
  rewrite T, Wc, Di, Do, Da, Dr, Fe. repeat split.
  - destruct (max_deltas_per_tick r <? Z.of_nat (length pending)); reflexivity.
  - exists tail. split; [|exact F]. rewrite A, <- app_assoc. reflexivity.
Qed.

(** *** Step 1 *)





(** *** Step 2 *)

Lemma validate_false_iff (d : Delta) :
  _validate_delta_structure d = false <->
  (delta_id d = "" \/ source_id d = "" \/ entity_ref d = ""
   \/ (snd (temporal_scope d) <? fst (temporal_scope d))%float = true
   \/ (64 < length (parent_ids d))%nat).
Proof.
  unfold _validate_delta_structure.
  destruct (String.eqb_spec (delta_id d) ""), (String.eqb_spec (source_id d) ""),
    (String.eqb_spec (entity_ref d) ""); simpl; try tauto.
  destruct (snd (temporal_scope d) <? fst (temporal_scope d))%float; [tauto|].
  destruct (Nat.ltb_spec 64 (length (parent_ids d))); split; try tauto; try discriminate.
  intros [?|[?|[?|[?|?]]]]; try contradiction; try discriminate. lia.
Qed.

Lemma normalized_validate (d : Delta) :
  _validate_delta_structure (_normalized_delta d) = _validate_delta_structure d.
Proof. reflexivity. Qed.

(** C9. On a tick that returns unbreached, a delta that survived the
    fence is in the rejected queue exactly when its id, source_id or
    entity_ref is empty, or the start of its temporal scope exceeds the end,
    or it names more than 64 parents; a rejected delta has its WARNING
    alert of step 2 and does not reach ordering; every other delta is
    ordered, normalized. *)
Theorem structural_rejection pending views dt (r : Runtime) (w : W)
    (c : TickContext) r' w' :
  run_tick pending views dt r w = (Ret c, r', w') ->
  breached c = false ->
  forall d, In d (fence (max_deltas_per_tick r) pending) ->
    (In d (deltas_rejected c) <->
       (delta_id d = "" \/ source_id d = "" \/ entity_ref d = ""
        \/ (snd (temporal_scope d) <? fst (temporal_scope d))%float = true
        \/ (64 < length (parent_ids d))%nat))
    /\ (In d (deltas_rejected c) ->
          In (mkAlert "WARNING" 2 ("Rejected malformed Delta " ++ delta_id d)
                (tick_id c) (wall_clock_ts c)) (alerts c)
          /\ ~ In d (deltas_ordered c)
          /\ ~ In (_normalized_delta d) (deltas_ordered c))
    /\ (~ In d (deltas_rejected c) -> In (_normalized_delta d) (deltas_ordered c)).
Proof.
  intros Hrun Hb d Hd.
  destruct (unbreached_queues _ _ _ _ _ _ _ _ Hrun Hb)
    as (_ & Ho & _ & Hr & _ & tail & Ha & _).
  assert (Hrej : In d (deltas_rejected c) <-> _validate_delta_structure d = false).
  { rewrite Hr. unfold malformed. rewrite filter_In, negb_true_iff. tauto. }
  assert (Hord : forall x, In x (deltas_ordered c) -> _validate_delta_structure x = true).
  { intros x Hx. rewrite Ho in Hx. unfold accepted_of in Hx.
    eapply Permutation_in in Hx; [|apply py_sorted_perm].
    unfold ingest_valid in Hx. apply in_map_iff in Hx as (y & <- & Hy).
    apply filter_In in Hy. rewrite normalized_validate. tauto. }
  split; [|split].
  - rewrite Hrej. apply validate_false_iff.
  - intros Hin. split; [|split].
    + rewrite Ha. apply in_or_app. right. apply in_or_app. left.
      apply in_map_iff. exists d. split; [reflexivity|]. rewrite <- Hr. exact Hin.
    + intros Hx. apply Hord in Hx. apply Hrej in Hin. congruence.
    + intros Hx. apply Hord in Hx. rewrite normalized_validate in Hx.
      apply Hrej in Hin. congruence.
  - intros Hnot. rewrite Ho. unfold accepted_of.
    eapply Permutation_in; [symmetry; apply py_sorted_perm|].
    unfold ingest_valid. apply in_map. apply filter_In. split; [exact Hd|].
    destruct (_validate_delta_structure d) eqn:E; [reflexivity|].
    exfalso. apply Hnot, Hrej. reflexivity.
Qed.








(** *** Step 3 *)

Lemma fence_incl max (pending : list Delta) d : In d (fence max pending) -> In d pending.
Proof.
  unfold fence, py_slice_to. intros Hd.
  destruct (max <? Z.of_nat (length pending)); [|exact Hd].
  destruct (0 <=? max); apply list_elem_of_In in Hd; apply list_elem_of_In;
    eapply subseteq_take; exact Hd.
Qed.

Lemma fence_pairwise (R : Delta -> Delta -> Prop) max pending :
  pairwise R pending -> pairwise R (fence max pending).
Proof.
  intros Hp. unfold fence, py_slice_to.
  destruct (max <? Z.of_nat (length pending)); [|exact Hp].
  destruct (0 <=? max); apply pairwise_take; exact Hp.
Qed.

Lemma fence_all max (pending : list Delta) :
  Z.of_nat (length pending) <= max -> fence max pending = pending.
Proof.
  intros Hle. unfold fence. destruct (Z.ltb_spec max (Z.of_nat (length pending))); [lia|].
  reflexivity.
Qed.

Lemma ingest_valid_keys_ok max (pending : list Delta) :
  Forall index_ok pending ->
  Forall (fun d => key_ok (sort_key d)) (ingest_valid max pending).
Proof.
  intros Hall. unfold ingest_valid. apply Forall_map. apply List.Forall_forall.
  intros d Hd. apply filter_In in Hd as [Hd _]. apply fence_incl in Hd.
  rewrite List.Forall_forall in Hall. apply Hall in Hd. exact Hd.
Qed.

Lemma ingest_valid_distinct max (pending : list Delta) :
  pairwise distinct_index pending ->
  pairwise (fun a b => (temporal_index a =? temporal_index b)%float = false)
           (ingest_valid max pending).
Proof.
  intros Hp. unfold ingest_valid. apply pairwise_map. simpl.
  apply pairwise_filter, fence_pairwise. exact Hp.
Qed.

Lemma float_neq_sym (a b : float) : (a =? b)%float = false -> (b =? a)%float = false.
Proof.
  intros Hn. destruct (b =? a)%float eqn:E; [|reflexivity].
  apply (st_sym _ _ _ float_strict_total) in E. congruence.
Qed.

Lemma key_le_distinct_lt (a b : Delta) :
  key_le a b -> (temporal_index a =? temporal_index b)%float = false -> index_lt a b.
Proof.
  unfold key_le, index_lt, key_leb, key_ltb, key_eqb, sort_key. intros Hle Hne.
  rewrite Hne in Hle. simpl in Hle. rewrite orb_false_r in Hle. exact Hle.
Qed.

Lemma accepted_of_sorted max (pending : list Delta) :
  Forall index_ok pending -> StronglySorted key_le (accepted_of max pending).
Proof.
  intros Hall. unfold accepted_of.
  apply (py_sorted_sorted key_strict_total sort_key).
  apply ingest_valid_keys_ok. exact Hall.
Qed.

Lemma accepted_of_ascending max (pending : list Delta) :
  Forall index_ok pending -> pairwise distinct_index pending ->
  StronglySorted index_lt (accepted_of max pending).
Proof.
  intros Hall Hp.
  eapply pairwise_both; [apply accepted_of_sorted; exact Hall| |apply key_le_distinct_lt].
  eapply pairwise_perm; [|symmetry; apply py_sorted_perm|apply ingest_valid_distinct; exact Hp].
  intros a b. apply float_neq_sym.
Qed.

Lemma accepted_of_order_free max (pending pending2 : list Delta) :
  Forall index_ok pending -> pairwise distinct_index pending ->
  Permutation pending pending2 -> Z.of_nat (length pending) <= max ->
  accepted_of max pending2 = accepted_of max pending.
Proof.
  intros Hall Hp Hperm Hlen.
  assert (Hall2 : Forall index_ok pending2) by (eapply Permutation_Forall; eassumption).
  assert (Hp2 : pairwise distinct_index pending2).
  { eapply pairwise_perm; [|exact Hperm|exact Hp]. intros a b. apply float_neq_sym. }
  apply (strictly_sorted_perm_eq index_lt).
  - intros a b Hab Hba. unfold index_lt in *.
    rewrite (st_asym _ _ _ float_strict_total _ _ Hab) in Hba. discriminate.
  - apply accepted_of_ascending; assumption.
  - apply accepted_of_ascending; assumption.
  - unfold accepted_of. rewrite !py_sorted_perm. unfold ingest_valid.
    rewrite !fence_all by (rewrite <- ?(Permutation_length Hperm); exact Hlen).
    apply Permutation_map, filter_perm. symmetry. exact Hperm.
Qed.

Lemma run_tick_accepted pending views dt (r : Runtime) (w : W) (c : TickContext) r' w' :
  run_tick pending views dt r w = (Ret c, r', w') ->
  breach_step c <> Some 1 ->
  deltas_accepted c = accepted_of (max_deltas_per_tick r) pending.
Proof.
  intros Hrun Hbs.
  destruct (run_tick_queues _ _ _ _ _ _ _ _ Hrun) as (wall & w1 & ok & w2 & _ & _ & Q & S).
  destruct ok; [|exfalso; apply Hbs, S; reflexivity].
  unfold same_queues in Q. simpl in Q. intuition.
Qed.

(** C7 (amended). On a tick that returns and was not breached at its
    start, with normalized temporal indices that are numbers: the accepted
    deltas are the well-formed, normalized deltas that passed the fence, in
    ascending order of the key (temporal_index, len(parent_ids), source_id,
    id); when the normalized temporal indices of the pending deltas are
    pairwise different, the accepted deltas are in strictly ascending order
    of temporal_index, and any tick given the same deltas in another order,
    none of them fenced off, accepts the same sequence. *)
Theorem accepted_sorted_by_key pending views dt (r : Runtime) (w : W)
    (c : TickContext) r' w' :
  run_tick pending views dt r w = (Ret c, r', w') ->
  breach_step c <> Some 1 ->
  Forall index_ok pending ->
  let max := max_deltas_per_tick r in
  Permutation (deltas_accepted c)
    (map _normalized_delta (List.filter _validate_delta_structure (fence max pending)))
  /\ StronglySorted key_le (deltas_accepted c)
  /\ (pairwise distinct_index pending ->
        StronglySorted index_lt (deltas_accepted c)
        /\ forall pending2 views2 dt2 (r2 : Runtime) (w2 : W) (c2 : TickContext) r2' w2',
             Permutation pending pending2 ->
             max_deltas_per_tick r2 = max ->
             Z.of_nat (length pending) <= max ->
             run_tick pending2 views2 dt2 r2 w2 = (Ret c2, r2', w2') ->
             breach_step c2 <> Some 1 ->
             deltas_accepted c2 = deltas_accepted c).
Proof.
  intros Hrun Hbs Hall. cbv zeta.
  rewrite (run_tick_accepted _ _ _ _ _ _ _ _ Hrun Hbs).
  split; [apply py_sorted_perm|]. split; [apply accepted_of_sorted; exact Hall|].
  intros Hp. split; [apply accepted_of_ascending; assumption|].
  intros pending2 views2 dt2 r2 w2 c2 r2' w2' Hperm Hmax Hlen Hrun2 Hbs2.
  rewrite (run_tick_accepted _ _ _ _ _ _ _ _ Hrun2 Hbs2), Hmax.
  apply accepted_of_order_free; assumption.
Qed.

(** *** Rollback *)

Lemma run_tick_at_entry pending views dt (r : Runtime) (w : W) st :
  run_tick_rollback_entry pending views dt r w = Some st ->
  fast_ineligible (ctx st)
  /\ run_tick pending views dt r w = finish (slow_rollback st).
Proof.
  rewrite run_entry_eq, run_tick_eq. destruct (time_time w) as [wall w1].
  destruct (timeline_hash_ok w1) as [[ok|e] w2]; [|discriminate].
  intros Ee. cbv zeta. rewrite Ee.
  destruct (fresh_started r wall dt pending views ok) as [Hj _].
  pose proof (rollback_entry_inv _ _ _ _ Hj Ee) as (_ & Hin & _).
  split; [exact Hin|reflexivity].
Qed.

(** C3. Whenever [run_tick] calls [_rollback], the breach step it
    recorded is outside 2..7 or no inverse delta is recorded on the
    context; so, whatever the Anchor Store then says of the timeline, the
    fast path is not taken: the rollback is the slow path, [run_tick]
    returns what the slow path leaves, and a rollback that returns has set
    [current_snapshot] to the anchor that [load_last_immutable_anchor] gave. *)
Theorem rollback_never_takes_fast_path pending views dt (r : Runtime) (w : W)
    (st : TickState) :
  run_tick_rollback_entry pending views dt r w = Some st ->
  ((2 <=? breach_step_or (ctx st)) && (breach_step_or (ctx st) <=? 7) = false
   \/ inverse_deltas (ctx st) = [])
  /\ (forall ok, use_fast_path (set_ctx_timeline_hash_ok (ctx st) ok) = false)
  /\ _rollback st = slow_rollback st
  /\ run_tick pending views dt r w = finish (_rollback st)
  /\ (forall u st', _rollback st = (Ret u, st') ->
        exists ok w1,
          timeline_hash_ok (world st) = (Ret ok, w1)
          /\ load_last_immutable_anchor w1 = (Ret (current_snapshot (rt st')), world st')).
Proof.
  intros Ee. destruct (run_tick_at_entry _ _ _ _ _ _ Ee) as [Hin Hrun].
  split; [exact Hin|]. split; [intros ok; apply ineligible_no_fast, Hin|].
  rewrite (rollback_slow st Hin). split; [reflexivity|]. split; [exact Hrun|].
  intros u st' Hs. apply slow_rollback_ret in Hs as (_ & _ & _ & _ & _ & ok & w1 & E1 & E2 & _).
  exists ok, w1. auto.
Qed.

(** C4. [_rollback] asks the Anchor Store whether the timeline hash is
    intact, and then: unless that holds and the breach step is within 2..7
    and an inverse delta is recorded, it goes straight to the slow path,
    which sets [current_snapshot] to the last immutable anchor, with no call
    to the kernel; otherwise it applies the recorded inverse deltas in
    reverse order to a copy of the state of the current snapshot and has the
    kernel validate the result: a valid result becomes the state of
    [current_snapshot], an invalid one is logged as CRITICAL and the slow
    path restores the anchor. *)
Theorem rollback_decision_rule (st : TickState) ok w1 :
  timeline_hash_ok (world st) = (Ret ok, w1) ->
  let c := ctx st in
  let eligible :=
    ok && ((2 <=? breach_step_or c) && (breach_step_or c <=? 7))
       && negb (Nat.eqb (length (inverse_deltas c)) 0) in
  (eligible = false ->
     forall anchor w2, load_last_immutable_anchor w1 = (Ret anchor, w2) ->
     exists c', _rollback st = (Ret tt, mkTickState c' (set_current_snapshot (rt st) anchor) w2))
  /\ (eligible = true ->
      forall cur state w2,
        current_snapshot (rt st) = Some cur ->
        replay (rev (inverse_deltas c)) (zon4d_state cur) w1 = (Ret state, w2) ->
        (forall w3, validate_state state w2 = (Ret true, w3) ->
           exists c',
             _rollback st =
             (Ret tt, mkTickState c'
                        (set_current_snapshot (rt st)
                           (Some (mkSnapshot (snap_id cur) (tick cur) state
                                             (hash32 cur) (anchor_type cur)))) w3))
        /\ (forall w3 anchor w4,
              validate_state state w2 = (Ret false, w3) ->
              load_last_immutable_anchor w3 = (Ret anchor, w4) ->
              exists c',
                _rollback st =
                (Ret tt, mkTickState c' (set_current_snapshot (rt st) anchor) w4)
                /\ In (fast_failed_alert c) (alerts c'))).
Proof.
  destruct st as [c r w]. simpl. intros Eh.
  assert (Hu : forall b, use_fast_path (set_ctx_timeline_hash_ok c b)
               = b && ((2 <=? breach_step_or c) && (breach_step_or c <=? 7))
                   && negb (Nat.eqb (length (inverse_deltas c)) 0)).
  { intros b. unfold use_fast_path, breach_step_or. destruct c; simpl.
    destruct inverse_deltas0; reflexivity. }
  unfold _rollback, _alert, bind, get_ctx, get_rt, call, modify_ctx, modify_rt, ret. simpl.
  rewrite Eh. simpl. rewrite Hu. split.
  - intros ->. simpl. intros anchor w2 ->. simpl. eexists. reflexivity.
  - intros ->. simpl. intros cur state w2 -> Hr. rewrite apply_inverses_eq, Hr. simpl.
    split.
    + intros w3 ->. simpl. eexists. reflexivity.
    + intros w3 anchor w4 -> . simpl. intros ->. simpl. eexists. split; [reflexivity|].
      simpl. apply in_or_app. left. apply in_or_app. right. left. reflexivity.
Qed.

(** C5. When the kernel inverts and applies every accepted delta and then
    finds the resulting state invalid, [run_tick] returns a context that
    is breached at step 6 and holds no output snapshot, and leaves
    [current_snapshot] at what [load_last_immutable_anchor] returned,
    whatever state the mutation had computed. *)
Theorem validation_failure_restores_anchor pending views dt (r : Runtime) (w : W)
    wall w1 w2 sin s' invs w3 w4 ok w5 anchor w6 :
  time_time w = (wall, w1) ->
  timeline_hash_ok w1 = (Ret true, w2) ->
  current_snapshot r = Some sin ->
  mutate (accepted_of (max_deltas_per_tick r) pending) (zon4d_state sin) [] w2
    = Mutated s' invs w3 ->
  validate_state s' w3 = (Ret false, w4) ->
  timeline_hash_ok w4 = (Ret ok, w5) ->
  load_last_immutable_anchor w5 = (Ret anchor, w6) ->
  exists (c : TickContext) r',
    run_tick pending views dt r w = (Ret c, r', w6)
    /\ breached c = true /\ breach_step c = Some 6
    /\ snapshot_out c = None
    /\ current_snapshot r' = anchor.
Proof.
  intros Ec Eh Hs Hm Hv Eh2 Ea.
  unfold run_tick. rewrite step1_eq, Ec, Eh. cbv zeta. simpl checked_ctx.
  unfold tick_guarded. rewrite tick_try_unbreached by reflexivity.
  unfold bind at 1. rewrite step6_eq by reflexivity.
  simpl snapshot_in. rewrite Hs. simpl deltas_accepted. simpl max_deltas_per_tick.
  rewrite Hm, Hv. unfold bind. rewrite mark_breach_eq.
  rewrite rollback_slow by (right; reflexivity).
  unfold slow_rollback. simpl. rewrite Eh2, Ea. simpl.
  eexists _, _. split; [reflexivity|]. simpl. auto.
Qed.

(** *** Inverse deltas *)

Lemma replay_app (l1 l2 : list Delta) : forall (s : State) (w : W),
  replay (l1 ++ l2) s w =
  match replay l1 s w with
  | (Ret s1, w1) => replay l2 s1 w1
  | (Raise e, w1) => (Raise e, w1)
  end.
Proof.
  induction l1 as [|i l1 IH]; intros s w; simpl; [reflexivity|].
  destruct (apply_delta_in_place s i w) as [[s1|e] w1]; [apply IH|reflexivity].
Qed.

Lemma applied_replay {V : Type} (obs : State -> string -> V) s w ds invs s' w' :
  compensating obs ->
  applied s w ds invs s' w' ->
  forall t w0, (forall k, obs t k = obs s' k) ->
  exists t' w0', replay (rev invs) t w0 = (Ret t', w0')
                 /\ forall k, obs t' k = obs s k.
Proof.
  intros Hc Ha. induction Ha as [s w|s w d ds inv invs w1 s1 w2 s' w' Ei Ea Ha IH];
    intros t w0 Ht.
  - exists t, w0. split; [reflexivity|exact Ht].
  - destruct (IH t w0 Ht) as (t1 & w01 & Er & Ht1).
    destruct (Hc _ _ _ _ _ _ _ Ei Ea t1 w01 Ht1) as (t' & w0' & Eap & Ht').
    exists t', w0'. split; [|exact Ht'].
    simpl. rewrite replay_app, Er. simpl. rewrite Eap. reflexivity.
Qed.

(** C6. On a tick that returns unbreached, the kernel inverted and
    applied the accepted deltas one after the other from the state of the
    input snapshot to the state of the output snapshot, each recorded
    inverse being the one it computed for the accepted delta of the same
    rank on the state that delta was then applied to; there are as many
    inverses as accepted deltas; and if the kernel's inverses compensate
    (as far as an observation [obs] of the state goes), replaying the
    recorded inverses in reverse order on the output state gives back what
    [obs] saw in the input state, at every entity_ref. *)
Theorem inverse_deltas_compensate pending views dt (r : Runtime) (w : W)
    (c : TickContext) r' w' :
  run_tick pending views dt r w = (Ret c, r', w') ->
  breached c = false ->
  exists sin sout wa wb,
    snapshot_in c = Some sin /\ snapshot_out c = Some sout
    /\ length (inverse_deltas c) = length (deltas_accepted c)
    /\ applied (zon4d_state sin) wa (deltas_accepted c) (inverse_deltas c)
               (zon4d_state sout) wb
    /\ forall (V : Type) (obs : State -> string -> V),
         compensating obs ->
         forall w0, exists t w0',
           replay (rev (inverse_deltas c)) (zon4d_state sout) w0 = (Ret t, w0')
           /\ forall k, obs t k = obs (zon4d_state sin) k.
Proof.
  intros Hrun Hb.
  destruct (run_tick_unbreached _ _ _ _ _ _ _ _ Hrun Hb)
    as (wall & w1 & w2 & sin & s' & invs & w3 & w4 & tail & _ & _ & Hs & Hm & _ & C & _).
  apply mutate_applied in Hm as (new & -> & Ha). simpl in Ha.
  unfold same_core in C. simpl in C.
  destruct C as (_ & _ & Si & So & _ & _ & Da & _ & Inv & _).
  rewrite Si, So, Da, Inv. eexists sin, _, w2, w3. simpl.
  split; [exact Hs|]. split; [reflexivity|].
  split; [eapply applied_length; exact Ha|]. split; [exact Ha|].
  intros V obs Hc w0. eapply applied_replay; eauto.
Qed.

(** C2 (amended). When [run_tick] returns: if the context is not
    breached, it holds the output snapshot of the tick, and that snapshot is
    now [current_snapshot]; if it is breached, [current_snapshot] is what
    the Anchor Store's [load_last_immutable_anchor] returned during
    rollback, the last collaborator call of the tick. *)
Theorem commit_or_anchor pending views dt (r : Runtime) (w : W)
    (c : TickContext) r' w' :
  run_tick pending views dt r w = (Ret c, r', w') ->
  (breached c = false ->
     exists sout, snapshot_out c = Some sout /\ current_snapshot r' = Some sout
                  /\ tick sout = tick_id c)
  /\ (breached c = true ->
        exists w1 ok w2,
          timeline_hash_ok w1 = (Ret ok, w2)
          /\ load_last_immutable_anchor w2 = (Ret (current_snapshot r'), w')).
Proof.
  intros Hrun. split; intros Hb.
  - destruct (run_tick_unbreached _ _ _ _ _ _ _ _ Hrun Hb)
      as (wall & w1 & w2 & sin & s' & invs & w3 & w4 & tail & _ & _ & _ & _ & _ & C & _ & _ & R).
    unfold same_core in C. simpl in C, R.
    destruct C as (T & _ & _ & So & _). eexists. rewrite So, R, T. simpl. auto.
  - destruct (run_tick_breached _ _ _ _ _ _ _ _ Hrun Hb) as (st & _ & Es).
    apply slow_rollback_ret in Es as (_ & _ & _ & _ & _ & ok & w1 & E1 & E2 & _).
    simpl in *. exists (world st), ok, w1. auto.
Qed.

(** *** Failures *)






End TickProperties.

(** ** The properties on the runs of the tests *)

Module Witnesses.
Import TestHarness TestRuns.

(** Reads a field of the context that a concrete run returned. *)
Ltac ctx_fact E f c H :=
  pose proof (f_equal (fun x => match x with
                                | (Ret c', _, _) => Some (f c')
                                | _ => None
                                end) E) as H;
  vm_compute in H; injection H as H; symmetry in H;
  match type of H with _ = ?v => change (f c = v) in H end; cbv beta in H.


Lemma structural_rejection_witness :
  exists c r' w',
    run TestZON4DKernel [anonymous_delta; bad_delta] None (runtime_with None) world0
    = (Ret c, r', w')
    /\ In anonymous_delta (deltas_rejected c)
    /\ In (mkAlert "WARNING" 2 "Rejected malformed Delta " (tick_id c) (wall_clock_ts c))
          (alerts c)
    /\ In (_normalized_delta bad_delta) (deltas_ordered c).
Proof.
  destruct (run TestZON4DKernel [anonymous_delta; bad_delta] None (runtime_with None) world0)
    as [[[c|e] r'] w'] eqn:E; [|vm_compute in E; discriminate].
  exists c, r', w'. split; [reflexivity|].
  ctx_fact E (@breached PyVal TestTask) c Hb.
  destruct (structural_rejection _ _ _ _ _ _ _ _ E Hb anonymous_delta)
    as (Hiff & Hrej & _); [left; reflexivity|].
  destruct (structural_rejection _ _ _ _ _ _ _ _ E Hb bad_delta)
    as (Hiff' & _ & Hacc); [right; left; reflexivity|].
  assert (Ha : In anonymous_delta (deltas_rejected c))
    by (apply Hiff; left; reflexivity).
  split; [exact Ha|]. split; [apply Hrej, Ha|].
  apply Hacc. intros Hin. apply Hiff' in Hin.
  destruct Hin as [Hx|[Hx|[Hx|[Hx|Hx]]]]; try discriminate Hx.
  simpl in Hx. lia.
Defined.


Lemma accepted_sorted_by_key_witness :
  exists c r' w',
    run TestZON4DKernel ordering_deltas None (runtime_with None) world0 = (Ret c, r', w')
    /\ StronglySorted key_le (deltas_accepted c)
    /\ StronglySorted index_lt (deltas_accepted c).
Proof.
  destruct (run TestZON4DKernel ordering_deltas None (runtime_with None) world0)
    as [[[c|e] r'] w'] eqn:E; [|vm_compute in E; discriminate].
  exists c, r', w'. split; [reflexivity|].
  ctx_fact E (@breach_step PyVal TestTask) c Hs.
  assert (Hne : breach_step c <> Some 1) by (rewrite Hs; discriminate).
  assert (Hok : Forall index_ok ordering_deltas)
    by (repeat (constructor; [vm_compute; reflexivity|]); constructor).
  destruct (accepted_sorted_by_key _ _ _ _ _ _ _ _ E Hne Hok) as (_ & Hsorted & Hasc).
  split; [exact Hsorted|]. apply Hasc.
  repeat (constructor; [repeat (constructor; [vm_compute; reflexivity|]); constructor|]).
  constructor.
Defined.

(** With two temporal indices that differ by less than a millionth, the
    accepted deltas are not in strictly ascending order of temporal_index:
    both are normalized to 1.0, and the ids decide. *)
Lemma close_indices_not_strictly_ascending :
  exists c r' w',
    run TestZON4DKernel close_deltas None (runtime_with None) world0 = (Ret c, r', w')
    /\ breached c = false
    /\ pairwise (fun a b => (temporal_index a =? temporal_index b)%float = false) close_deltas
    /\ map delta_id (deltas_accepted c) = ["a"; "b"]
    /\ map temporal_index (deltas_accepted c) = [1%float; 1%float]
    /\ ~ StronglySorted index_lt (deltas_accepted c).
Proof.
  destruct (run TestZON4DKernel close_deltas None (runtime_with None) world0)
    as [[[c|e] r'] w'] eqn:E; [|vm_compute in E; discriminate].
  exists c, r', w'. split; [reflexivity|].
  ctx_fact E (@breached PyVal TestTask) c Hb.
  ctx_fact E (fun c : TickContext PyVal TestTask => map delta_id (deltas_accepted c)) c Hid.
  ctx_fact E (fun c : TickContext PyVal TestTask => map temporal_index (deltas_accepted c)) c Hti.
  split; [exact Hb|]. split.
  { repeat (constructor; [repeat (constructor; [vm_compute; reflexivity|]); constructor|]).
    constructor. }
  split; [exact Hid|]. split; [exact Hti|].
  intros Hs. destruct (deltas_accepted c) as [|a [|b [|x l]]]; try discriminate Hti.
  simpl in Hti. injection Hti as Ha Hb'. apply StronglySorted_inv in Hs as [_ Hf].
  inversion Hf as [|? ? Hab _]; subst. unfold index_lt in Hab.
  rewrite Ha, Hb' in Hab. vm_compute in Hab. discriminate.
Defined.


(** That kernel's inverses compensate, as far as [state.get] can tell. *)
Lemma integration_compensating :
  @compensating PyVal TestWorld IntegrationKernel PyVal state_get.
Proof.
  intros s d inv s1 w w1 w2 Hi Ha t w3 Ht. simpl in *.
  injection Hi as <- <-. injection Ha as <- <-.
  eexists _, _. split; [reflexivity|]. intros k. simpl.
  unfold state_get in *. destruct (decide (k = entity_ref d)) as [->|Hne].
  - rewrite lookup_insert_eq. reflexivity.
  - rewrite lookup_insert_ne by congruence. rewrite Ht.
    rewrite lookup_insert_ne by congruence. reflexivity.
Qed.



Lemma commit_or_anchor_witness :
  exists c r' w',
    run BreachKernel [bad_delta] None (runtime_with None) world0 = (Ret c, r', w')
    /\ breached c = true
    /\ current_snapshot r' = Some immutable_anchor.
Proof.
  destruct (run BreachKernel [bad_delta] None (runtime_with None) world0)
    as [[[c|e] r'] w'] eqn:E; [|vm_compute in E; discriminate].
  exists c, r', w'. split; [reflexivity|].
  ctx_fact E (@breached PyVal TestTask) c Hb. split; [exact Hb|].
  destruct (commit_or_anchor _ _ _ _ _ _ _ _ E) as [_ Hbr].
  destruct (Hbr Hb) as (w1 & ok & w2 & _ & Ea). simpl in Ea.
  injection Ea as Ea _. symmetry. exact Ea.
Defined.

(** A tick commits value 15; the next one breaches at step 6 and leaves
    [current_snapshot] on the anchor, not on what it was before the tick. *)
Lemma breached_tick_changes_current_snapshot :
  exists c1 r1 w1 c2 r2 w2,
    run TestZON4DKernel [add_delta "add15" 1 15] None (runtime_with None) world0
    = (Ret c1, r1, w1)
    /\ run TestZON4DKernel [no_amount_delta] None r1 w1 = (Ret c2, r2, w2)
    /\ breached c2 = true
    /\ fmap (fun s => zon4d_state s !! "value") (current_snapshot r1) = Some (Some (PyInt 15))
    /\ fmap (fun s => zon4d_state s !! "value") (current_snapshot r2) = Some (Some (PyInt 0))
    /\ current_snapshot r2 <> current_snapshot r1.
Proof.
  eexists _, _, _, _, _, _.
  split; [vm_compute; reflexivity|]. split; [vm_compute; reflexivity|].
  split; [reflexivity|]. split; [vm_compute; reflexivity|].
  split; [vm_compute; reflexivity|].
  intros Heq.
  apply (f_equal (fmap (fun s : Snapshot PyVal => tick s))) in Heq.
  vm_compute in Heq. discriminate.
Qed.

Lemma rollback_never_takes_fast_path_witness :
  exists st,
    run_entry BreachKernel [bad_delta] None (runtime_with None) world0 = Some st
    /\ @_rollback PyVal TestTask TestWorld TestAnchorStore BreachKernel st
       = @slow_rollback PyVal TestTask TestWorld TestAnchorStore st.
Proof.
  destruct (run_entry BreachKernel [bad_delta] None (runtime_with None) world0)
    as [st|] eqn:E; [|vm_compute in E; discriminate].
  exists st. split; [reflexivity|].
  destruct (rollback_never_takes_fast_path _ _ _ _ _ _ E) as (_ & _ & Hs & _).
  exact Hs.
Defined.

Lemma rollback_decision_rule_witness :
  exists c',
    @_rollback PyVal TestTask TestWorld TestAnchorStore TestZON4DKernel fast_state
    = (Ret tt,
       mkTickState c'
         (set_current_snapshot (rt fast_state)
            (Some (mkSnapshot "snap_1" 1 {[ "value" := PyInt 0 ]} None "soft")))
         world0).
Proof.
  assert (Eh : @timeline_hash_ok PyVal TestWorld TestAnchorStore (world fast_state)
               = (Ret true, world0)) by reflexivity.
  destruct (rollback_decision_rule (zon4d:=TestZON4DKernel) fast_state true world0 Eh)
    as [_ Hfast].
  assert (Er : @replay PyVal TestWorld TestZON4DKernel
                 (rev (inverse_deltas (ctx fast_state))) {[ "value" := PyInt 5 ]} world0
               = (Ret {[ "value" := PyInt 0 ]}, world0)) by (vm_compute; reflexivity).
  destruct (Hfast eq_refl (mkSnapshot "snap_1" 1 {[ "value" := PyInt 5 ]} None "soft")
              {[ "value" := PyInt 0 ]} world0 eq_refl Er) as [Hvalid _].
  destruct (Hvalid world0 eq_refl) as (c' & Hc). exists c'. exact Hc.
Defined.

Lemma validation_failure_restores_anchor_witness :
  exists c r' w',
    run BreachKernel [bad_delta] None (runtime_with None) world0 = (Ret c, r', w')
    /\ breached c = true /\ breach_step c = Some 6
    /\ current_snapshot r' = Some immutable_anchor.
Proof.
  edestruct (validation_failure_restores_anchor (zon4d:=BreachKernel)
               [bad_delta] None None (runtime_with None) world0)
    as (c & r' & Hrun & Hb & Hs & _ & Hcur).
  - reflexivity.
  - reflexivity.
  - reflexivity.
  - vm_compute. reflexivity.
  - reflexivity.
  - reflexivity.
  - reflexivity.
  - exists c, r'. eexists. split; [exact Hrun|]. auto.
Defined.

Lemma inverse_deltas_compensate_witness :
  exists c r' w',
    run IntegrationKernel put_deltas None (runtime_with None) world0 = (Ret c, r', w')
    /\ length (inverse_deltas c) = length (deltas_accepted c)
    /\ exists sin sout t w0,
         snapshot_in c = Some sin /\ snapshot_out c = Some sout
         /\ @replay PyVal TestWorld IntegrationKernel (rev (inverse_deltas c))
              (zon4d_state sout) world0 = (Ret t, w0)
         /\ forall k, state_get t k = state_get (zon4d_state sin) k.
Proof.
  destruct (run IntegrationKernel put_deltas None (runtime_with None) world0)
    as [[[c|e] r'] w'] eqn:E; [|vm_compute in E; discriminate].
  exists c, r', w'. split; [reflexivity|].
  ctx_fact E (@breached PyVal TestTask) c Hb.
  destruct (inverse_deltas_compensate _ _ _ _ _ _ _ _ E Hb)
    as (sin & sout & wa & wb & Hsi & Hso & Hlen & _ & Hcomp).
  split; [exact Hlen|].
  destruct (Hcomp PyVal state_get integration_compensating world0) as (t & w0 & Hr & Ht).
  exists sin, sout, t, w0. auto.
Defined.
End Witnesses.

(** * Further properties *)

(** ** Stability of the sort *)

Section SortStable.
Context {A K : Type} {dom : K -> Prop} {eqb ltb : K -> K -> bool}.
Context (HK : StrictTotal dom eqb ltb) (key : A -> K).


End SortStable.

Lemma filter_split {A : Type} (f : A -> bool) (l : list A) :
  Permutation l (List.filter f l ++ List.filter (fun a => negb (f a)) l).
Proof.
  induction l as [|x l IH]; [reflexivity|]. simpl.
  destruct (f x); simpl.
  - constructor. exact IH.
  - apply Permutation_cons_app. exact IH.
Qed.

(** ** Further properties of the tick *)

Section TickFrame.
Context {Any Task W : Type}.
Context {clock : WallClock W} {anchor_store : @AnchorStore Any W}
        {zon4d : @ZON4DKernel Any W} {hydration : @Hydration Any W}
        {performer_engine : @PerformerEngine Any Task W}
        {performance_abi : @PerformanceABI Task W}.
Local Abbreviation State := (gmap string Any).
Local Abbreviation Delta := (Delta Any).
Local Abbreviation Snapshot := (Snapshot Any).
Local Abbreviation TickContext := (TickContext Any Task).
Local Abbreviation Runtime := (@Runtime Any).
Local Abbreviation TickState := (@TickState Any Task W).

(** *** What a tick writes on the runtime *)




(** *** The ways a tick breaches *)

(** When the Anchor Store denies the continuity of the timeline at the
    start of a tick, the tick is breached at step 1 and none of its steps
    runs: the pending deltas stay in [deltas_in] unfenced and unchecked,
    nothing is ordered, accepted or rejected, the kernel, the hydration and
    the performer are not called (the world goes from the first check
    straight to the rollback), and the rollback restores the anchor. *)
Theorem timeline_mismatch_skips_the_pipeline pending views dt (r : Runtime) (w : W)
    wall w1 w2 ok w3 anchor w4 :
  time_time w = (wall, w1) ->
  timeline_hash_ok w1 = (Ret false, w2) ->
  timeline_hash_ok w2 = (Ret ok, w3) ->
  load_last_immutable_anchor w3 = (Ret anchor, w4) ->
  exists (c : TickContext) r',
    run_tick pending views dt r w = (Ret c, r', w4)
    /\ breached c = true /\ breach_step c = Some 1
    /\ deltas_in c = pending /\ fenced c = false
    /\ deltas_ordered c = [] /\ deltas_accepted c = [] /\ deltas_rejected c = []
    /\ inverse_deltas c = [] /\ snapshot_out c = None
    /\ ctx_timeline_hash_ok c = ok
    /\ alerts c =
         [mkAlert "CRITICAL" 1 "Timeline hash mismatch at Tick init" (tick_id c) wall;
          mkAlert "INFO" 1 "Slow-path rollback: restored last immutable anchor"
            (tick_id c) wall]
    /\ current_snapshot r' = anchor.
Proof.
  intros Ec Eh Eh2 Ea.
  unfold run_tick. rewrite step1_eq, Ec, Eh. cbv zeta. simpl checked_ctx.
  unfold tick_guarded. rewrite tick_try_breached by reflexivity. simpl.
  rewrite rollback_slow by (left; reflexivity).
  unfold slow_rollback. simpl. rewrite Eh2, Ea. simpl.
  eexists _, _. split; [reflexivity|]. simpl. repeat split.
Qed.

(** A runtime with no current snapshot (the Anchor Store handed back
    [None]) cannot mutate: the tick ingests and orders its deltas, then
    breaches at step 6 without a call to the kernel, and the rollback
    installs the anchor. *)
Theorem missing_snapshot_breaches_at_step6 pending views dt (r : Runtime) (w : W)
    wall w1 w2 ok w3 anchor w4 :
  time_time w = (wall, w1) ->
  timeline_hash_ok w1 = (Ret true, w2) ->
  current_snapshot r = None ->
  timeline_hash_ok w2 = (Ret ok, w3) ->
  load_last_immutable_anchor w3 = (Ret anchor, w4) ->
  exists (c : TickContext) r',
    run_tick pending views dt r w = (Ret c, r', w4)
    /\ breached c = true /\ breach_step c = Some 6
    /\ deltas_accepted c = accepted_of (max_deltas_per_tick r) pending
    /\ inverse_deltas c = [] /\ snapshot_out c = None
    /\ alerts c =
         ingest_alerts (max_deltas_per_tick r) (tick_id c) wall pending
         ++ [mkAlert "CRITICAL" 6 "No input Snapshot to mutate" (tick_id c) wall;
             mkAlert "CRITICAL" 6 "Runtime breach: Missing snapshot_in" (tick_id c) wall;
             mkAlert "INFO" 6 "Slow-path rollback: restored last immutable anchor"
               (tick_id c) wall]
    /\ current_snapshot r' = anchor.
Proof.
  intros Ec Eh Hs Eh2 Ea.
  unfold run_tick. rewrite step1_eq, Ec, Eh. cbv zeta. simpl checked_ctx.
  unfold tick_guarded. rewrite tick_try_unbreached by reflexivity.
  unfold bind at 1. rewrite step6_eq by reflexivity.
  simpl snapshot_in. rewrite Hs. unfold bind. rewrite mark_breach_eq.
  rewrite rollback_slow by (right; reflexivity).
  unfold slow_rollback. simpl. rewrite Eh2, Ea. simpl.
  eexists _, _. split; [reflexivity|]. simpl. unfold ingest_alerts.
  rewrite <- !app_assoc. repeat split.
Qed.

(** When the kernel has no inverse for an accepted delta, the tick
    breaches at step 6 on that delta: the deltas after it are neither
    inverted nor applied, the inverses computed before it are not recorded,
    no output snapshot is built, and the rollback installs the anchor. *)
Theorem missing_inverse_breaches_at_step6 pending views dt (r : Runtime) (w : W)
    wall w1 w2 sin d w3 ok w4 anchor w5 :
  time_time w = (wall, w1) ->
  timeline_hash_ok w1 = (Ret true, w2) ->
  current_snapshot r = Some sin ->
  mutate (accepted_of (max_deltas_per_tick r) pending) (zon4d_state sin) [] w2
    = NoInverse d w3 ->
  timeline_hash_ok w3 = (Ret ok, w4) ->
  load_last_immutable_anchor w4 = (Ret anchor, w5) ->
  exists (c : TickContext) r',
    run_tick pending views dt r w = (Ret c, r', w5)
    /\ breached c = true /\ breach_step c = Some 6
    /\ inverse_deltas c = [] /\ snapshot_out c = None
    /\ alerts c =
         ingest_alerts (max_deltas_per_tick r) (tick_id c) wall pending
         ++ [mkAlert "CRITICAL" 6 ("Cannot compute inverse for Delta " ++ delta_id d)
               (tick_id c) wall;
             mkAlert "CRITICAL" 6 "Runtime breach: Inverse Delta computation failed"
               (tick_id c) wall;
             mkAlert "INFO" 6 "Slow-path rollback: restored last immutable anchor"
               (tick_id c) wall]
    /\ current_snapshot r' = anchor.
Proof.
  intros Ec Eh Hs Hm Eh2 Ea.
  unfold run_tick. rewrite step1_eq, Ec, Eh. cbv zeta. simpl checked_ctx.
  unfold tick_guarded. rewrite tick_try_unbreached by reflexivity.
  unfold bind at 1. rewrite step6_eq by reflexivity.
  simpl snapshot_in. rewrite Hs. simpl deltas_accepted. simpl max_deltas_per_tick.
  rewrite Hm. unfold bind. rewrite mark_breach_eq.
  rewrite rollback_slow by (right; reflexivity).
  unfold slow_rollback. simpl. rewrite Eh2, Ea. simpl.
  eexists _, _. split; [reflexivity|]. simpl. unfold ingest_alerts.
  rewrite <- !app_assoc. repeat split.
Qed.

(** A failure of the kernel that is no RuntimeError, raised while the
    deltas are inverted and applied, leaves [run_tick] as it is: the
    context is lost to the caller, no rollback runs, the Anchor Store is not
    asked again, and the runtime keeps the snapshot it had, with the tick
    counted. *)
Theorem kernel_failure_escapes_without_rollback pending views dt (r : Runtime) (w : W)
    wall w1 w2 sin e w3 :
  time_time w = (wall, w1) ->
  timeline_hash_ok w1 = (Ret true, w2) ->
  current_snapshot r = Some sin ->
  mutate (accepted_of (max_deltas_per_tick r) pending) (zon4d_state sin) [] w2
    = KernelRaised e w3 ->
  is_runtime_error e = false ->
  (run_tick pending views dt r w : outcome TickContext * Runtime * W)
  = (Raise e, started r wall, w3)
  /\ run_tick_rollback_entry (Task:=Task) pending views dt r w = None.
Proof.
  intros Ec Eh Hs Hm He.
  set (c0 := set_ctx_timeline_hash_ok (fresh_ctx (Task:=Task) r wall dt pending views) true).
  assert (Et : tick_try (mkTickState c0 (started r wall) w2)
               = (Raise e, mkTickState (ingested (max_deltas_per_tick r) c0)
                             (started r wall) w3)).
  { rewrite tick_try_unbreached by reflexivity.
    unfold bind at 1. rewrite step6_eq by reflexivity.
    simpl snapshot_in. rewrite Hs. simpl deltas_accepted. simpl max_deltas_per_tick.
    rewrite Hm. reflexivity. }
  unfold run_tick_rollback_entry, rollback_entry, run_tick.
  rewrite step1_eq, Ec, Eh. cbv zeta. simpl checked_ctx.
  unfold tick_guarded. fold c0. rewrite Et.
  destruct e; try discriminate; split; reflexivity.
Qed.

(** *** Steps 10 and 11 *)

(** [dict.update] with an empty dict changes nothing. *)
Lemma update_views (v views : State) :
  (if (0 <? size v)%nat then v ∪ views else views) = v ∪ views.
Proof.
  destruct (0 <? size v)%nat eqn:E; [reflexivity|].
  apply Nat.ltb_ge in E. assert (Hv : v = ∅) by (apply map_size_empty_iff; lia).
  rewrite Hv. symmetry. apply (left_id ∅ (∪)).
Qed.

(** Step 10 on a tick that holds an output snapshot. *)
Lemma step10_eq (c : TickContext) (r : Runtime) (w : W) sout :
  breached c = false -> snapshot_out c = Some sout ->
  _step10_generate_domain_views (mkTickState c r w) =
  match generate_domain_views_from_state (zon4d_state sout) (tick_id c) w with
  | (Ret v, w') => (Ret tt, mkTickState (set_domain_views c (v ∪ domain_views c)) r w')
  | (Raise e, w') =>
      if is_exception e
      then (Ret tt,
            mkTickState
              (set_alerts c (alerts c ++ [hydration_alert (tick_id c) (wall_clock_ts c) e]))
              r w')
      else (Raise e, mkTickState c r w')
  end.
Proof.
  intros Hb Hs.
  unfold _step10_generate_domain_views, _alert, bind, get_ctx, call, modify_ctx, ret.
  simpl. rewrite Hb, Hs. simpl.
  destruct (generate_domain_views_from_state (zon4d_state sout) (tick_id c) w)
    as [[v|e] w1]; simpl.
  - rewrite <- (update_views v (domain_views c)).
    destruct (0 <? size v)%nat; simpl; [reflexivity|]. destruct c; reflexivity.
  - destruct e; reflexivity.
Qed.

(** Step 11 on a tick that is not breached. *)
Lemma step11_eq (c : TickContext) (r : Runtime) (w : W) :
  breached c = false ->
  _step11_schedule_performance (mkTickState c r w) =
  if performer_attached r then
    match performer_step (tick_id c) (delta_time c) (domain_views c) w with
    | (Raise e, w1) => (Raise e, mkTickState c r w1)
    | (Ret tasks, w1) =>
        match schedule_performance (tick_id c) tasks w1 with
        | (Raise e, w2) => (Raise e, mkTickState (set_performance_tasks c tasks) r w2)
        | (Ret _, w2) =>
            (Ret tt,
             mkTickState
               (set_alerts (set_performance_tasks c tasks)
                  (alerts c
                     ++ [mkAlert "INFO" 11
                           ("Tick complete (Performer scheduled "
                              ++ string_of_Z (Z.of_nat (length tasks)) ++ " tasks)")
                           (tick_id c) (wall_clock_ts c)]))
               r w2)
        end
    end
  else
    (Ret tt,
     mkTickState
       (set_alerts c
          (alerts c
             ++ [mkAlert "INFO" 11
                   "Tick complete (PerformerEngine not attached; performance no-op)"
                   (tick_id c) (wall_clock_ts c)]))
       r w).
Proof.
  intros Hb.
  unfold _step11_schedule_performance, _alert, bind, get_ctx, get_rt, call, modify_ctx, ret.
  simpl. rewrite Hb. simpl.
  destruct (performer_attached r); simpl; [|reflexivity].
  destruct (performer_step (tick_id c) (delta_time c) (domain_views c) w)
    as [[tasks|e] w1]; simpl; [|reflexivity].
  destruct (schedule_performance (tick_id c) tasks w1) as [[u|e] w2]; reflexivity.
Qed.

(** The commit that closes the [try]. *)
Lemma commit_eq (c : TickContext) (r : Runtime) (w : W) sout :
  breached c = false -> snapshot_out c = Some sout ->
  bind get_ctx (fun c =>
    match snapshot_out c with
    | Some sout =>
        if negb (breached c)
        then modify_rt (fun r => set_current_snapshot r (Some sout))
        else ret tt
    | None => ret tt
    end) (mkTickState c r w)
  = (Ret tt, mkTickState c (set_current_snapshot r (Some sout)) w).
Proof.
  intros Hb Hs. unfold bind, get_ctx, modify_rt, ret. simpl. rewrite Hs, Hb. reflexivity.
Qed.

(** The state in which step 10 starts on a tick whose mutation went through. *)
Lemma tick_try_mutated (c0 : TickContext) (r0 : Runtime) (w2 : W) sin s' invs w3 w4 :
  breached c0 = false ->
  snapshot_in c0 = Some sin ->
  mutate (accepted_of (max_deltas_per_tick r0) (deltas_in c0)) (zon4d_state sin) [] w2
    = Mutated s' invs w3 ->
  validate_state s' w3 = (Ret true, w4) ->
  tick_try (mkTickState c0 r0 w2)
  = tail_steps (mkTickState (mutated_ctx (ingested (max_deltas_per_tick r0) c0) s' invs)
                            r0 w4).
Proof.
  intros Hb Hs Hm Hv. rewrite tick_try_unbreached by exact Hb.
  unfold bind at 1. rewrite step6_eq by exact Hb.
  simpl snapshot_in. rewrite Hs. simpl deltas_accepted. rewrite Hm, Hv. reflexivity.
Qed.

Lemma run_tick_mutated pending views dt (r : Runtime) (w : W)
    wall w1 w2 sin s' invs w3 w4 :
  time_time w = (wall, w1) ->
  timeline_hash_ok w1 = (Ret true, w2) ->
  current_snapshot r = Some sin ->
  mutate (accepted_of (max_deltas_per_tick r) pending) (zon4d_state sin) [] w2
    = Mutated s' invs w3 ->
  validate_state s' w3 = (Ret true, w4) ->
  (run_tick pending views dt r w : outcome TickContext * Runtime * W)
  = finish (match tail_steps (mkTickState (after_step6 r wall dt pending views s' invs)
                                (started r wall) w4) with
            | (Raise (RuntimeError msg), st1) => bind (_mark_breach msg) (fun _ => _rollback) st1
            | (Raise e, st1) => (Raise e, st1)
            | (Ret _, st1) => if breached (ctx st1) then _rollback st1 else (Ret tt, st1)
            end).
Proof.
  intros Ec Eh Hs Hm Hv.
  unfold run_tick. rewrite step1_eq, Ec, Eh. cbv zeta. simpl checked_ctx.
  unfold tick_guarded.
  rewrite (tick_try_mutated _ _ _ sin s' invs w3 w4); try reflexivity; try assumption.
  unfold after_step6, finish.
  destruct (tail_steps _) as [[u|e] st1]; [|destruct e];
    match goal with |- context [if ?b then _ else _] => destruct b | _ => idtac end;
    try reflexivity;
    match goal with |- (let (_, _) := ?x in _) = _ => destruct x as [[?|?] ?] end;
    reflexivity.
Qed.

Lemma after_step6_fields (r : Runtime) wall dt pending views (s' : State) invs :
  let c := after_step6 (Task:=Task) r wall dt pending views s' invs in
  breached c = false /\ breach_step c = None
  /\ snapshot_out c = Some (output_snapshot (tick_counter r + 1) s')
  /\ tick_id c = tick_counter r + 1 /\ wall_clock_ts c = wall
  /\ delta_time c = tick_dt dt (_last_wall_clock_ts r) wall
  /\ domain_views c = default ∅ views
  /\ inverse_deltas c = invs /\ performance_tasks c = []
  /\ alerts c = ingest_alerts (max_deltas_per_tick r) (tick_counter r + 1) wall pending.
Proof. repeat split. Qed.

(** A hydration that fails with an Exception costs the tick its generated
    views and nothing else: step 10 logs the failure (a WARNING for an
    ImportError, an ERROR otherwise), the views stay those of the caller,
    and the tick, here with no performer attached, commits its output
    snapshot unbreached. *)
Theorem hydration_failure_is_not_a_breach pending views dt (r : Runtime) (w : W)
    wall w1 w2 sin s' invs w3 w4 e w5 :
  time_time w = (wall, w1) ->
  timeline_hash_ok w1 = (Ret true, w2) ->
  current_snapshot r = Some sin ->
  mutate (accepted_of (max_deltas_per_tick r) pending) (zon4d_state sin) [] w2
    = Mutated s' invs w3 ->
  validate_state s' w3 = (Ret true, w4) ->
  generate_domain_views_from_state s' (tick_counter r + 1) w4 = (Raise e, w5) ->
  is_exception e = true ->
  performer_attached r = false ->
  let tid := tick_counter r + 1 in
  exists (c : TickContext),
    run_tick pending views dt r w
    = (Ret c, set_current_snapshot (started r wall) (Some (output_snapshot tid s')), w5)
    /\ breached c = false /\ breach_step c = None
    /\ snapshot_out c = Some (output_snapshot tid s')
    /\ inverse_deltas c = invs
    /\ domain_views c = default ∅ views
    /\ performance_tasks c = []
    /\ alerts c =
         ingest_alerts (max_deltas_per_tick r) tid wall pending
         ++ [hydration_alert tid wall e;
             mkAlert "INFO" 11
               "Tick complete (PerformerEngine not attached; performance no-op)" tid wall].
Proof.
  intros Ec Eh Hs Hm Hv Hg He Hp tid. subst tid.
  rewrite (run_tick_mutated _ _ _ _ _ _ _ _ _ _ _ _ _ Ec Eh Hs Hm Hv).
  destruct (after_step6_fields r wall dt pending views s' invs)
    as (Hb & Hbs & Hso & Ht & Hw & Hd & Hdv & Hi & Hpt & Ha).
  set (c6 := after_step6 r wall dt pending views s' invs) in *. clearbody c6.
  unfold tail_steps. unfold bind at 1.
  rewrite (step10_eq c6 _ _ _ Hb Hso). simpl zon4d_state. rewrite Ht, Hg, He.
  unfold bind at 1. rewrite step11_eq by exact Hb. simpl performer_attached. rewrite Hp.
  rewrite (commit_eq _ _ _ (output_snapshot (tick_counter r + 1) s'))
    by (simpl; assumption).
  simpl. rewrite Hb. unfold finish. simpl.
  eexists. split; [reflexivity|]. simpl. rewrite ?Ht, Hw, Ha, <- app_assoc. auto 10.
Qed.

(** The performer of a tick is stepped on the views of the new state:
    what the hydration derived from the mutated state, laid over the views
    of the caller, with the tick id and the delta time of the tick; the
    tasks it returns are stored on the context and handed to the
    performance sink, and the tick commits. *)
Theorem performer_steps_on_views_of_new_state pending views dt (r : Runtime) (w : W)
    wall w1 w2 sin s' invs w3 w4 v w5 tasks w6 w7 :
  time_time w = (wall, w1) ->
  timeline_hash_ok w1 = (Ret true, w2) ->
  current_snapshot r = Some sin ->
  mutate (accepted_of (max_deltas_per_tick r) pending) (zon4d_state sin) [] w2
    = Mutated s' invs w3 ->
  validate_state s' w3 = (Ret true, w4) ->
  generate_domain_views_from_state s' (tick_counter r + 1) w4 = (Ret v, w5) ->
  performer_attached r = true ->
  performer_step (tick_counter r + 1) (tick_dt dt (_last_wall_clock_ts r) wall)
    (v ∪ default ∅ views) w5 = (Ret tasks, w6) ->
  schedule_performance (tick_counter r + 1) tasks w6 = (Ret tt, w7) ->
  let tid := tick_counter r + 1 in
  exists (c : TickContext),
    run_tick pending views dt r w
    = (Ret c, set_current_snapshot (started r wall) (Some (output_snapshot tid s')), w7)
    /\ breached c = false
    /\ snapshot_out c = Some (output_snapshot tid s')
    /\ inverse_deltas c = invs
    /\ domain_views c = v ∪ default ∅ views
    /\ performance_tasks c = tasks
    /\ alerts c =
         ingest_alerts (max_deltas_per_tick r) tid wall pending
         ++ [mkAlert "INFO" 11
               ("Tick complete (Performer scheduled "
                  ++ string_of_Z (Z.of_nat (length tasks)) ++ " tasks)") tid wall].
Proof.
  intros Ec Eh Hs Hm Hv Hg Hp Hps Hsch tid. subst tid.
  rewrite (run_tick_mutated _ _ _ _ _ _ _ _ _ _ _ _ _ Ec Eh Hs Hm Hv).
  destruct (after_step6_fields r wall dt pending views s' invs)
    as (Hb & Hbs & Hso & Ht & Hw & Hd & Hdv & Hi & Hpt & Ha).
  set (c6 := after_step6 r wall dt pending views s' invs) in *. clearbody c6.
  unfold tail_steps. unfold bind at 1.
  rewrite (step10_eq c6 _ _ _ Hb Hso). simpl zon4d_state. rewrite Ht, Hg.
  unfold bind at 1. rewrite step11_eq by exact Hb. simpl performer_attached. rewrite Hp.
  simpl tick_id. simpl delta_time. simpl domain_views. rewrite Ht, Hd, Hdv, Hps, Hsch.
  rewrite (commit_eq _ _ _ (output_snapshot (tick_counter r + 1) s'))
    by (simpl; assumption).
  simpl. rewrite Hb. unfold finish. simpl.
  eexists. split; [reflexivity|]. simpl. rewrite ?Ht, Hw, Ha. auto 10.
Qed.

(** A RuntimeError of the performer breaches a tick whose mutation is
    done: the context comes back breached with no breach step (the alert
    of the breach is filed under step -1), still holding the output snapshot
    and the inverse deltas of step 6, while the runtime is rolled back to the
    anchor by the slow path. *)
Theorem performer_failure_breaches_without_step pending views dt (r : Runtime) (w : W)
    wall w1 w2 sin s' invs w3 w4 v w5 msg w6 ok w7 anchor w8 :
  time_time w = (wall, w1) ->
  timeline_hash_ok w1 = (Ret true, w2) ->
  current_snapshot r = Some sin ->
  mutate (accepted_of (max_deltas_per_tick r) pending) (zon4d_state sin) [] w2
    = Mutated s' invs w3 ->
  validate_state s' w3 = (Ret true, w4) ->
  generate_domain_views_from_state s' (tick_counter r + 1) w4 = (Ret v, w5) ->
  performer_attached r = true ->
  performer_step (tick_counter r + 1) (tick_dt dt (_last_wall_clock_ts r) wall)
    (v ∪ default ∅ views) w5 = (Raise (RuntimeError msg), w6) ->
  timeline_hash_ok w6 = (Ret ok, w7) ->
  load_last_immutable_anchor w7 = (Ret anchor, w8) ->
  let tid := tick_counter r + 1 in
  exists (c : TickContext) r',
    run_tick pending views dt r w = (Ret c, r', w8)
    /\ breached c = true /\ breach_step c = None
    /\ snapshot_out c = Some (output_snapshot tid s')
    /\ inverse_deltas c = invs
    /\ performance_tasks c = []
    /\ current_snapshot r' = anchor
    /\ alerts c =
         ingest_alerts (max_deltas_per_tick r) tid wall pending
         ++ [mkAlert "CRITICAL" (-1) ("Runtime breach: " ++ msg) tid wall;
             mkAlert "INFO" (-1) "Slow-path rollback: restored last immutable anchor"
               tid wall].
Proof.
  intros Ec Eh Hs Hm Hv Hg Hp Hps Eh2 Ea tid. subst tid.
  rewrite (run_tick_mutated _ _ _ _ _ _ _ _ _ _ _ _ _ Ec Eh Hs Hm Hv).
  destruct (after_step6_fields r wall dt pending views s' invs)
    as (Hb & Hbs & Hso & Ht & Hw & Hd & Hdv & Hi & Hpt & Ha).
  set (c6 := after_step6 r wall dt pending views s' invs) in *. clearbody c6.
  unfold tail_steps. unfold bind at 1.
  rewrite (step10_eq c6 _ _ _ Hb Hso). simpl zon4d_state. rewrite Ht, Hg.
  unfold bind at 1. rewrite step11_eq by exact Hb. simpl performer_attached. rewrite Hp.
  simpl tick_id. simpl delta_time. simpl domain_views. rewrite Ht, Hd, Hdv, Hps.
  unfold bind. rewrite mark_breach_eq.
  rewrite rollback_slow
    by (left; unfold breach_step_or; simpl breach_step; rewrite Hbs; reflexivity).
  unfold slow_rollback. simpl world. rewrite Eh2, Ea. unfold finish. simpl.
  unfold breach_step_or. simpl. rewrite Hbs, Ht, Hw, Ha, <- app_assoc.
  eexists _, _. split; [reflexivity|]. simpl. auto 10.
Qed.

(** *** The log of a tick *)

Lemma logged_quiet (c c' : TickContext) :
  tick_id c' = tick_id c -> wall_clock_ts c' = wall_clock_ts c ->
  alerts c' = alerts c -> breached c' = breached c -> logged c c'.
Proof.
  intros Ht Hw Ha Hb. split; [exact Ht|]. split; [exact Hw|].
  exists []. rewrite app_nil_r, orb_false_r. auto.
Qed.

Lemma logged_refl (c : TickContext) : logged c c.
Proof. apply logged_quiet; reflexivity. Qed.

Lemma logged_trans (c1 c2 c3 : TickContext) :
  logged c1 c2 -> logged c2 c3 -> logged c1 c3.
Proof.
  intros (T1 & W1 & m1 & A1 & F1 & B1) (T2 & W2 & m2 & A2 & F2 & B2).
  split; [congruence|]. split; [congruence|].
  exists (m1 ++ m2). rewrite A2, A1, <- app_assoc. split; [reflexivity|]. split.
  - apply Forall_app. split; [exact F1|].
    eapply List.Forall_impl; [|exact F2]. unfold stamped. intros a [Ha1 Ha2].
    split; congruence.
  - rewrite B2, B1, existsb_app, orb_assoc. reflexivity.
Qed.

(** One alert that is not CRITICAL. *)
Lemma logged_alert (c : TickContext) lvl stp msg :
  String.eqb lvl "CRITICAL" = false ->
  logged c (set_alerts c (alerts c ++ [mkAlert lvl stp msg (tick_id c) (wall_clock_ts c)])).
Proof.
  intros Hl. split; [reflexivity|]. split; [reflexivity|].
  eexists [_]. split; [reflexivity|]. split.
  - constructor; [split; reflexivity|constructor].
  - simpl. unfold is_critical. simpl. rewrite Hl, orb_false_r. reflexivity.
Qed.

(** A breach with its CRITICAL alert. *)
Lemma logged_breach (c : TickContext) stp msg : logged c (breach_ctx c stp msg).
Proof.
  split; [reflexivity|]. split; [reflexivity|].
  eexists [_]. split; [reflexivity|]. split.
  - constructor; [split; reflexivity|constructor].
  - simpl. rewrite orb_true_r. reflexivity.
Qed.

Lemma logged_ingested (max : Z) (c : TickContext) : logged c (ingested max c).
Proof.
  split; [reflexivity|]. split; [reflexivity|].
  eexists. split; [reflexivity|]. split.
  - apply Forall_app. split.
    + destruct (max <? Z.of_nat (length (deltas_in c))); constructor;
        [split; reflexivity|constructor].
    + apply List.Forall_forall. intros a Ha. apply in_map_iff in Ha as (d & <- & _).
      split; reflexivity.
  - simpl. rewrite existsb_app.
    assert (H1 : existsb is_critical
                   (if max <? Z.of_nat (length (deltas_in c))
                    then [fence_alert (tick_id c) (wall_clock_ts c)
                            (Z.of_nat (length (deltas_in c)) - max)]
                    else []) = false)
      by (destruct (max <? Z.of_nat (length (deltas_in c))); reflexivity).
    assert (H2 : existsb is_critical
                   (map (reject_alert (tick_id c) (wall_clock_ts c))
                      (malformed max (deltas_in c))) = false).
    { induction (malformed max (deltas_in c)) as [|d l IH]; [reflexivity|exact IH]. }
    rewrite H1, H2, orb_false_r. reflexivity.
Qed.

Ltac logged_leaf :=
  intros [= <- <-]; simpl;
  first [ apply logged_refl
        | apply logged_alert; reflexivity
        | apply logged_breach
        | apply logged_quiet; reflexivity
        | eapply logged_trans; [|apply logged_alert; reflexivity];
          apply logged_quiet; reflexivity ].

Lemma step6_logged (st : TickState) o st' :
  breached (ctx st) = false ->
  _step6_apply_deltas st = (o, st') -> logged (ctx st) (ctx st').
Proof.
  destruct st as [c r w]. simpl. intros Hb. rewrite step6_eq by exact Hb.
  destruct (snapshot_in c) as [sin|]; [|logged_leaf].
  destruct (mutate _ (zon4d_state sin) [] w) as [s' invs w1|d w1|e w1]; try logged_leaf.
  destruct (validate_state s' w1) as [[[|]|e] w2]; logged_leaf.
Qed.

Lemma step10_logged (st : TickState) o st' :
  _step10_generate_domain_views st = (o, st') -> logged (ctx st) (ctx st').
Proof.
  destruct st as [c r w].
  unfold _step10_generate_domain_views, _alert, bind, get_ctx, call, modify_ctx, ret. simpl.
  destruct (breached c); [logged_leaf|].
  destruct (snapshot_out c) as [sout|]; [|logged_leaf].
  simpl.
  destruct (generate_domain_views_from_state (zon4d_state sout) (tick_id c) w)
    as [[views|e] w1]; simpl.
  - destruct (0 <? size views)%nat; simpl; logged_leaf.
  - destruct e; simpl; logged_leaf.
Qed.

Lemma step11_logged (st : TickState) o st' :
  _step11_schedule_performance st = (o, st') -> logged (ctx st) (ctx st').
Proof.
  destruct st as [c r w].
  unfold _step11_schedule_performance, _alert, bind, get_ctx, get_rt, call, modify_ctx, ret.
  simpl.
  destruct (breached c); simpl; [logged_leaf|].
  destruct (performer_attached r); simpl; [|logged_leaf].
  destruct (performer_step (tick_id c) (delta_time c) (domain_views c) w)
    as [[tasks|e] w1]; simpl; [|logged_leaf].
  destruct (schedule_performance (tick_id c) tasks w1) as [[u|e] w2]; simpl.
  - intros [= <- <-]; simpl.
    apply (logged_trans _ (set_performance_tasks c tasks));
      [apply logged_quiet; reflexivity|].
    apply (logged_alert (set_performance_tasks c tasks)); reflexivity.
  - logged_leaf.
Qed.

Lemma tail_steps_logged (st : TickState) o st' :
  tail_steps st = (o, st') -> logged (ctx st) (ctx st').
Proof.
  unfold tail_steps. unfold bind at 1.
  destruct (_step10_generate_domain_views st) as [[u|e] st1] eqn:E10;
    apply step10_logged in E10.
  2:{ intros [= <- <-]. exact E10. }
  unfold bind at 1.
  destruct (_step11_schedule_performance st1) as [[u2|e] st2] eqn:E11;
    apply step11_logged in E11.
  2:{ intros [= <- <-]. eapply logged_trans; eassumption. }
  unfold bind, get_ctx, modify_rt, ret. simpl.
  intros E. eapply logged_trans; [exact E10|]. eapply logged_trans; [exact E11|].
  destruct (snapshot_out (ctx st2)); [destruct (negb (breached (ctx st2)))|];
    injection E as <- <-; apply logged_refl.
Qed.

Lemma tick_try_logged (st : TickState) o st' :
  tick_try st = (o, st') -> logged (ctx st) (ctx st').
Proof.
  destruct st as [c r w]. simpl. destruct (breached c) eqn:Hb.
  - rewrite tick_try_breached by exact Hb. logged_leaf.
  - rewrite tick_try_unbreached by exact Hb. unfold bind.
    destruct (_step6_apply_deltas _) as [[u|e] st1] eqn:E6;
      apply step6_logged in E6; try exact Hb; simpl in E6.
    + intros Et. apply tail_steps_logged in Et.
      eapply logged_trans; [apply logged_ingested|].
      eapply logged_trans; eassumption.
    + intros [= <- <-]. eapply logged_trans; [apply logged_ingested|exact E6].
Qed.

Lemma rollback_entry_logged (st0 st : TickState) :
  rollback_entry st0 = Some st -> logged (ctx st0) (ctx st).
Proof.
  unfold rollback_entry.
  destruct (tick_try st0) as [[u|e] st1] eqn:Et; apply tick_try_logged in Et.
  - destruct (breached (ctx st1)); [|discriminate]. intros [= <-]. exact Et.
  - destruct e as [msg| | |]; try discriminate.
    destruct st1 as [c1 r1 w1]. rewrite mark_breach_eq. intros [= <-].
    eapply logged_trans; [exact Et|]. simpl.
    change (set_alerts (set_breached c1 true)
              (alerts c1 ++ [mkAlert "CRITICAL" (breach_step_or c1)
                               ("Runtime breach: " ++ msg) (tick_id c1) (wall_clock_ts c1)]))
      with (set_breach_step (breach_ctx c1 (breach_step_or c1) ("Runtime breach: " ++ msg))
              (breach_step c1)).
    eapply logged_trans; [apply logged_breach|]. apply logged_quiet; reflexivity.
Qed.

Lemma slow_rollback_logged (st : TickState) o st' :
  slow_rollback st = (o, st') -> logged (ctx st) (ctx st').
Proof.
  destruct st as [c r w]. unfold slow_rollback. simpl.
  destruct (timeline_hash_ok w) as [[ok|e] w1]; [|logged_leaf].
  destruct (load_last_immutable_anchor w1) as [[a|e] w2]; [|logged_leaf].
  intros [= <- <-]. simpl.
  eapply logged_trans;
    [|apply (logged_alert (set_ctx_timeline_hash_ok c ok) "INFO" (breach_step_or c)
               "Slow-path rollback: restored last immutable anchor"); reflexivity].
  apply logged_quiet; reflexivity.
Qed.

Lemma sound_log_logged (c c' : TickContext) : sound_log c -> logged c c' -> sound_log c'.
Proof.
  intros [F B] (T & Wc & more & A & Fm & Bm). unfold sound_log.
  rewrite A, existsb_app, Bm, B. split; [|reflexivity].
  apply Forall_app. split; (eapply List.Forall_impl; [|eassumption]);
    unfold stamped; intros a [H1 H2]; split; congruence.
Qed.

(** The context that [run_tick] returns has a sound log. *)
Lemma run_tick_sound_log pending views dt (r : Runtime) (w : W) (c : TickContext) r' w' :
  run_tick pending views dt r w = (Ret c, r', w') -> sound_log c.
Proof.
  rewrite run_tick_eq. destruct (time_time w) as [wall w1].
  destruct (timeline_hash_ok w1) as [[ok|e] w2]; [|discriminate].
  cbv zeta.
  set (c0 := checked_ctx (fresh_ctx r wall dt pending views) ok).
  assert (H0 : sound_log c0).
  { subst c0. destruct ok; split; simpl; repeat constructor. }
  destruct (rollback_entry (mkTickState c0 (started r wall) w2)) as [st|] eqn:Ee.
  - apply rollback_entry_logged in Ee. simpl in Ee.
    destruct (slow_rollback st) as [o st'] eqn:Es. apply slow_rollback_logged in Es.
    unfold finish. simpl. destruct o; [|discriminate]. intros [= <- _ _].
    eapply sound_log_logged; [exact H0|]. eapply logged_trans; eassumption.
  - destruct (tick_try (mkTickState c0 (started r wall) w2)) as [o st'] eqn:Et.
    apply tick_try_logged in Et. simpl in Et.
    unfold finish. simpl. destruct o; [|discriminate]. intros [= <- _ _].
    eapply sound_log_logged; eassumption.
Qed.

(** A returned tick is breached exactly when its alerts hold a CRITICAL
    one: every breach is logged as CRITICAL, and nothing else is. *)
Theorem breached_iff_critical_alert pending views dt (r : Runtime) (w : W)
    (c : TickContext) r' w' :
  run_tick pending views dt r w = (Ret c, r', w') ->
  breached c = existsb is_critical (alerts c).
Proof. intros Hrun. apply (run_tick_sound_log _ _ _ _ _ _ _ _ Hrun). Qed.

(** Every alert of a returned context was filed by this tick: it carries
    the tick id of the context and the clock reading taken at step 1. *)
Theorem alerts_carry_the_tick_stamp pending views dt (r : Runtime) (w : W)
    (c : TickContext) r' w' :
  run_tick pending views dt r w = (Ret c, r', w') ->
  Forall (fun a => alert_tick a = tick_id c /\ ts a = wall_clock_ts c) (alerts c).
Proof. intros Hrun. apply (run_tick_sound_log _ _ _ _ _ _ _ _ Hrun). Qed.

(** *** The queues of a tick *)

Lemma run_tick_queues_past_step1 pending views dt (r : Runtime) (w : W)
    (c : TickContext) r' w' :
  run_tick pending views dt r w = (Ret c, r', w') ->
  breach_step c <> Some 1 ->
  deltas_accepted c = accepted_of (max_deltas_per_tick r) pending
  /\ deltas_rejected c = malformed (max_deltas_per_tick r) pending.
Proof.
  intros Hrun Hbs.
  destruct (run_tick_queues _ _ _ _ _ _ _ _ Hrun) as (wall & w1 & ok & w2 & _ & _ & Q & S).
  destruct ok; [|exfalso; apply Hbs, S; reflexivity].
  unfold same_queues in Q. simpl in Q. intuition.
Qed.

(** Ingestion loses no delta and invents none: on a tick that got past
    step 1, every delta that the fence let through is in exactly one of
    the accepted and the rejected queue, as the ids show. *)
Theorem ingestion_conserves_deltas pending views dt (r : Runtime) (w : W)
    (c : TickContext) r' w' :
  run_tick pending views dt r w = (Ret c, r', w') ->
  breach_step c <> Some 1 ->
  let kept := fence (max_deltas_per_tick r) pending in
  Permutation (map delta_id kept)
              (map delta_id (deltas_accepted c) ++ map delta_id (deltas_rejected c))
  /\ (length (deltas_accepted c) + length (deltas_rejected c))%nat = length kept.
Proof.
  intros Hrun Hbs kept.
  destruct (run_tick_queues_past_step1 _ _ _ _ _ _ _ _ Hrun Hbs) as [-> ->].
  assert (Hp : Permutation (map delta_id kept)
                 (map delta_id (accepted_of (max_deltas_per_tick r) pending)
                  ++ map delta_id (malformed (max_deltas_per_tick r) pending))).
  { unfold accepted_of, malformed, ingest_valid. fold kept.
    rewrite (filter_split _validate_delta_structure kept) at 1.
    rewrite map_app. apply Permutation_app; [|reflexivity].
    rewrite (Permutation_map delta_id (py_sorted_perm sort_key _)).
    rewrite map_map. reflexivity. }
  split; [exact Hp|].
  apply Permutation_length in Hp. rewrite length_app, !length_map in Hp. lia.
Qed.


(** A negative [max_deltas_per_tick] fences every tick, even one with no
    pending delta: the slice [deltas_in[:max]] then drops the last [-max]
    deltas (all of them when there are no more than that), and the alert
    gives [n - max] as the overflow. *)
Theorem negative_limit_fences_every_tick pending views dt (r : Runtime) (w : W)
    (c : TickContext) r' w' :
  run_tick pending views dt r w = (Ret c, r', w') ->
  breached c = false ->
  max_deltas_per_tick r < 0 ->
  let max := max_deltas_per_tick r in
  let n := Z.of_nat (length pending) in
  fenced c = true
  /\ In (fence_alert (tick_id c) (wall_clock_ts c) (n - max)) (alerts c)
  /\ deltas_in c =
       map _normalized_delta
         (List.filter _validate_delta_structure (take (Z.to_nat (n + max)) pending))
  /\ (n <= - max -> deltas_accepted c = [] /\ deltas_rejected c = []).
Proof.
  intros Hrun Hb Hneg max n.
  destruct (unbreached_queues _ _ _ _ _ _ _ _ Hrun Hb)
    as (Hin & _ & Hacc & Hrej & Hf & tail & Ha & _).
  fold max n in Hin, Hacc, Hrej, Hf, Ha.
  assert (Hlt : (max <? n) = true) by (apply Z.ltb_lt; lia).
  assert (Hfence : fence max pending = take (Z.to_nat (n + max)) pending).
  { unfold fence, py_slice_to. fold n. rewrite Hlt.
    destruct (Z.leb_spec 0 max); [lia|reflexivity]. }
  rewrite Hlt in Ha.
  split; [congruence|]. split; [rewrite Ha; left; reflexivity|].
  split; [rewrite Hin; unfold ingest_valid; rewrite Hfence; reflexivity|].
  intros Hle. rewrite Hacc, Hrej. unfold accepted_of, malformed, ingest_valid.
  rewrite Hfence. replace (Z.to_nat (n + max)) with 0%nat by lia. split; reflexivity.
Qed.

(** *** The committed snapshot *)

(** The snapshot that an unbreached tick commits is the one on its
    context: named "snap_" and the tick id, at that tick, soft and without
    a hash, over the state that the kernel reached from the state of the
    snapshot the tick started on. *)
Theorem committed_snapshot_is_soft_and_unhashed pending views dt (r : Runtime) (w : W)
    (c : TickContext) r' w' :
  run_tick pending views dt r w = (Ret c, r', w') ->
  breached c = false ->
  exists sout sin invs w2 w3,
    current_snapshot r' = Some sout /\ snapshot_out c = Some sout
    /\ snap_id sout = ("snap_" ++ string_of_Z (tick_id c))%string
    /\ tick sout = tick_id c /\ tick_id c = tick_counter r + 1
    /\ hash32 sout = None /\ anchor_type sout = "soft"%string
    /\ current_snapshot r = Some sin
    /\ mutate (accepted_of (max_deltas_per_tick r) pending) (zon4d_state sin) [] w2
       = Mutated (zon4d_state sout) invs w3
    /\ inverse_deltas c = invs.
Proof.
  intros Hrun Hb.
  destruct (run_tick_unbreached _ _ _ _ _ _ _ _ Hrun Hb)
    as (wall & w1 & w2 & sin & s' & invs & w3 & w4 & tail
        & _ & _ & Hs & Hm & _ & C & _ & _ & R).
  unfold same_core in C. simpl in C, R.
  destruct C as (T & _ & _ & So & _ & _ & _ & _ & Hi & _).
  eexists _, sin, invs, w2, w3. rewrite R, So, T, Hi. simpl.
  repeat split; try reflexivity; assumption.
Qed.
End TickFrame.

(** ** Domain views *)

Section DomainViewsProperties.
Import Values DomainViews.
Context `{PyFloat}.
Local Abbreviation State := (gmap string Value).

Lemma lookup_put (k k' : string) (v : option Value) (views : State) :
  put k v views !! k' =
  if String.eqb k k' then match v with Some x => Some x | None => views !! k' end
  else views !! k'.
Proof.
  destruct (String.eqb_spec k k') as [->|Hne]; destruct v as [x|]; simpl; try reflexivity.
  - apply lookup_insert_eq.
  - apply lookup_insert_ne. exact Hne.
Qed.

(** The function as the sequence of its blocks. *)
Lemma generate_eq (state : State) tick_id :
  generate_domain_views_from_state state tick_id =
  obind (narrative_view state) (fun n =>
  obind (audio_view state) (fun a =>
  obind (animation_view state) (fun m =>
    Ret (put "ap_rules_view" (slice_view "ap/" state)
           (put "spatial_view" (slice_view "spatial/" state)
              (put "animation_view" m
                 (put "audio_view" a (put "narrative_view" n ∅)))))))).
Proof. reflexivity. Qed.

(** What the function returns when its three blocks return. *)
Lemma generate_returns (state : State) tick_id n a m :
  narrative_view state = Ret n -> audio_view state = Ret a ->
  animation_view state = Ret m ->
  generate_domain_views_from_state state tick_id
  = Ret (put "ap_rules_view" (slice_view "ap/" state)
           (put "spatial_view" (slice_view "spatial/" state)
              (put "animation_view" m
                 (put "audio_view" a (put "narrative_view" n ∅))))).
Proof. intros En Ea Em. rewrite generate_eq, En, Ea, Em. reflexivity. Qed.

Lemma py_float_raises (v : Value) e : py_float v = Raise e -> is_exception e = true.
Proof.
  destruct v; simpl; try (intros [= <-]; reflexivity); try discriminate.
  - destruct (is_infinity _); [intros [= <-]; reflexivity|discriminate].
  - destruct (float_of_str s); [discriminate|intros [= <-]; reflexivity].
Qed.

Lemma narrative_view_spec (state : State) :
  match narrative_view state with
  | Ret n =>
      is_Some n <->
      truthy (get state "narrative/active_speaker")
      && truthy (get state "narrative/active_line") = true
  | Raise e => is_exception e = true
  end.
Proof.
  unfold narrative_view.
  destruct (truthy (get state "narrative/active_speaker")
            && truthy (get state "narrative/active_line")); simpl.
  2:{ split; [intros [x Hx]; discriminate|discriminate]. }
  destruct (truthy (get state "narrative/intensity")); simpl.
  - destruct (py_float (get state "narrative/intensity")) eqn:E1; simpl;
      [|eapply py_float_raises; eassumption].
    destruct (py_float (get_or state "narrative/duration" (VFloat 2.5))) eqn:E2; simpl;
      [|eapply py_float_raises; eassumption].
    split; [reflexivity|eauto].
  - destruct (py_float (get_or state "narrative/duration" (VFloat 2.5))) eqn:E2; simpl;
      [|eapply py_float_raises; eassumption].
    split; [reflexivity|eauto].
Qed.

Lemma audio_view_spec (state : State) :
  match audio_view state with
  | Ret n =>
      is_Some n <->
      truthy (get state "audio/music") || truthy (get state "audio/sfx") = true
  | Raise e => is_exception e = true
  end.
Proof.
  unfold audio_view.
  destruct (truthy (get state "audio/music")); simpl.
  - destruct (py_float (get_or state "audio/music_duration" (VFloat 10))) eqn:E1; simpl;
      [|eapply py_float_raises; eassumption].
    destruct (py_float (get_or state "audio/music_volume" (VFloat 0))) eqn:E2; simpl;
      [|eapply py_float_raises; eassumption].
    destruct (truthy (get state "audio/sfx")); simpl.
    + destruct (py_float (get_or state "audio/sfx_duration" (VFloat 1))) eqn:E3; simpl;
        [|eapply py_float_raises; eassumption].
      destruct (py_float (get_or state "audio/sfx_volume" (VFloat 0))) eqn:E4; simpl;
        [|eapply py_float_raises; eassumption].
      split; [reflexivity|eauto].
    + split; [reflexivity|eauto].
  - destruct (truthy (get state "audio/sfx")); simpl.
    + destruct (py_float (get_or state "audio/sfx_duration" (VFloat 1))) eqn:E3; simpl;
        [|eapply py_float_raises; eassumption].
      destruct (py_float (get_or state "audio/sfx_volume" (VFloat 0))) eqn:E4; simpl;
        [|eapply py_float_raises; eassumption].
      split; [reflexivity|eauto].
    + split; [intros [x Hx]; discriminate|discriminate].
Qed.

Lemma animation_view_spec (state : State) :
  match animation_view state with
  | Ret n =>
      is_Some n <->
      truthy (get state "animation/rig")
      && (truthy (get state "animation/pose")
          || truthy (get state "animation/viseme_curve")) = true
  | Raise e => is_exception e = true
  end.
Proof.
  unfold animation_view.
  destruct (truthy (get state "animation/rig")); simpl.
  2:{ split; [intros [x Hx]; discriminate|discriminate]. }
  destruct (truthy (get state "animation/pose")); simpl.
  - destruct (py_float (get_or state "animation/duration" (VFloat 2))) eqn:E1; simpl;
      [|eapply py_float_raises; eassumption].
    destruct (py_float (get_or state "animation/blend_in" (VFloat 0.1))) eqn:E2; simpl;
      [|eapply py_float_raises; eassumption].
    destruct (py_float (get_or state "animation/blend_out" (VFloat 0.1))) eqn:E3; simpl;
      [|eapply py_float_raises; eassumption].
    destruct (truthy (get state "animation/viseme_curve")); simpl.
    + destruct (py_float (get_or state "animation/viseme_duration" (VFloat 2))) eqn:E4;
        simpl; [|eapply py_float_raises; eassumption].
      destruct (py_float (get_or state "animation/viseme_offset" (VFloat 0))) eqn:E5;
        simpl; [|eapply py_float_raises; eassumption].
      split; [reflexivity|eauto].
    + split; [reflexivity|eauto].
  - destruct (truthy (get state "animation/viseme_curve")); simpl.
    + destruct (py_float (get_or state "animation/viseme_duration" (VFloat 2))) eqn:E4;
        simpl; [|eapply py_float_raises; eassumption].
      destruct (py_float (get_or state "animation/viseme_offset" (VFloat 0))) eqn:E5;
        simpl; [|eapply py_float_raises; eassumption].
      split; [reflexivity|eauto].
    + split; [intros [x Hx]; discriminate|discriminate].
Qed.


Lemma slice_view_is_slice (p : string) (state : State) :
  is_slice p state (slice_view p state).
Proof.
  unfold slice_view.
  set (m := filter (fun kv => String.prefix p (fst kv) = true) state).
  assert (Hin : forall k x, In (k, x) (map_to_list m)
                            <-> String.prefix p k = true /\ state !! k = Some x).
  { intros k x. rewrite <- list_elem_of_In, elem_of_map_to_list.
    subst m. rewrite map_lookup_filter_Some. simpl. tauto. }
  destruct (map_to_list m) as [|kv l] eqn:El; simpl.
  - intros k Hp. destruct (state !! k) as [x|] eqn:Ek; [|reflexivity].
    exfalso. apply (proj2 (Hin k x)). auto.
  - exists (kv :: l). split; [reflexivity|]. split; [discriminate|].
    split; [rewrite <- El; exact (NoDup_fst_map_to_list m)|exact Hin].
Qed.

(** *** What the views show *)

(** When the function returns, each of the three event views is there
    exactly when the state names what it is about: a speaker and a line; a
    music or an effect asset; a rig with a pose or a viseme curve.  And it
    returns no other view than the five it knows. *)
Theorem views_present_iff_state_names_them (state : State) tick_id views :
  generate_domain_views_from_state state tick_id = Ret views ->
  let named k := truthy (get state k) in
  (is_Some (views !! "narrative_view")
     <-> named "narrative/active_speaker" && named "narrative/active_line" = true)
  /\ (is_Some (views !! "audio_view")
        <-> named "audio/music" || named "audio/sfx" = true)
  /\ (is_Some (views !! "animation_view")
        <-> named "animation/rig"
            && (named "animation/pose" || named "animation/viseme_curve") = true)
  /\ (forall k, is_Some (views !! k) -> In k view_names).
Proof.
  rewrite generate_eq.
  pose proof (narrative_view_spec state) as Hn.
  pose proof (audio_view_spec state) as Ha.
  pose proof (animation_view_spec state) as Hm.
  destruct (narrative_view state) as [n|e1]; simpl; [|discriminate].
  destruct (audio_view state) as [a|e1]; simpl; [|discriminate].
  destruct (animation_view state) as [m|e1]; simpl; [|discriminate].
  intros [= <-]. cbv zeta.
  repeat split.
  - rewrite !lookup_put. simpl. destruct n; [intros _; apply Hn; eauto|].
    rewrite lookup_empty. intros [x Hx]. discriminate.
  - intros Hc. rewrite !lookup_put. simpl. apply Hn in Hc as [x ->]. eauto.
  - rewrite !lookup_put. simpl. destruct a; [intros _; apply Ha; eauto|].
    rewrite lookup_empty. intros [x Hx]. discriminate.
  - intros Hc. rewrite !lookup_put. simpl. apply Ha in Hc as [x ->]. eauto.
  - rewrite !lookup_put. simpl. destruct m; [intros _; apply Hm; eauto|].
    rewrite lookup_empty. intros [x Hx]. discriminate.
  - intros Hc. rewrite !lookup_put. simpl. apply Hm in Hc as [x ->]. eauto.
  - intros k. rewrite !lookup_put, lookup_empty. unfold view_names.
    repeat match goal with
    | |- context [String.eqb ?a k] =>
        destruct (String.eqb_spec a k) as [<-|?]; [intros _; simpl; auto 10|]
    end.
    intros [x Hx]. discriminate.
Qed.

(** The spatial view and the AP rules view are the parts of the state
    under "spatial/" and "ap/": the same keys, prefix included, with the
    same values, and no view at all when the state has no such key. *)
Theorem spatial_and_ap_views_are_slices (state : State) tick_id views :
  generate_domain_views_from_state state tick_id = Ret views ->
  is_slice "spatial/" state (views !! "spatial_view")
  /\ is_slice "ap/" state (views !! "ap_rules_view").
Proof.
  rewrite generate_eq.
  destruct (narrative_view state) as [n|e1]; simpl; [|discriminate].
  destruct (audio_view state) as [a|e1]; simpl; [|discriminate].
  destruct (animation_view state) as [m|e1]; simpl; [|discriminate].
  intros [= <-]. rewrite !lookup_put, lookup_empty. simpl.
  pose proof (slice_view_is_slice "spatial/" state) as Hs.
  pose proof (slice_view_is_slice "ap/" state) as Hp.
  destruct (slice_view "spatial/" state), (slice_view "ap/" state); auto.
Qed.

(** The conversions to float are made only for a view that is built: on
    a state that names no speaker with a line, no music, no effect and no
    rig, the function returns the spatial and AP slices, whatever the
    durations, volumes and offsets of the state are. *)
Theorem idle_state_converts_nothing (state : State) tick_id :
  truthy (get state "narrative/active_speaker")
    && truthy (get state "narrative/active_line") = false ->
  truthy (get state "audio/music") = false ->
  truthy (get state "audio/sfx") = false ->
  truthy (get state "animation/rig") = false ->
  generate_domain_views_from_state state tick_id
  = Ret (put "ap_rules_view" (slice_view "ap/" state)
           (put "spatial_view" (slice_view "spatial/" state) ∅)).
Proof.
  intros Hn Hm Hs Hr. rewrite generate_eq.
  unfold narrative_view, audio_view, animation_view.
  rewrite Hn, Hm, Hs, Hr. reflexivity.
Qed.
End DomainViewsProperties.

(** *** The tick on the views of the repository *)

Section TickWithRepoViews.
Import Values.
Context `{PyFloat}.
Context {Task W : Type}.
Context {clock : WallClock W} {anchor_store : @AnchorStore Value W}
        {zon4d : @ZON4DKernel Value W}
        {performer_engine : @PerformerEngine Value Task W}
        {performance_abi : @PerformanceABI Task W}.

End TickWithRepoViews.

(** ** The scene track *)

Section SceneTrackProperties.
Import Values Performer.

(** *** Clip types *)

(** A clip becomes a task of the type of the same name: the mapping keeps
    the value of the enum, so it sends different clip types to different
    task types and never yields RENDER. *)
Theorem clip_type_maps_to_its_namesake (ct : ClipType.t) :
  PerformanceTaskType.value (_map_clip_type_to_task_type ct) = ClipType.value ct
  /\ _map_clip_type_to_task_type ct <> PerformanceTaskType.RENDER
  /\ forall ct', _map_clip_type_to_task_type ct' = _map_clip_type_to_task_type ct -> ct' = ct.
Proof.
  split; [destruct ct; reflexivity|]. split; [destruct ct; discriminate|].
  intros ct'. destruct ct, ct'; simpl; congruence.
Qed.

(** *** Tracks *)


Lemma new_clips_loop_spec (cs : list Clip) : forall triggered s e l tr,
  new_clips_loop cs triggered s e = (l, tr) ->
  tr = (list_to_set (map clip_id l) ∪ triggered)
  /\ NoDup (map clip_id l)
  /\ Forall (fun c => In c cs /\ (clip_id c ∉ triggered) /\ in_window s e c = true) l
  /\ (forall c, In c cs -> in_window s e c = true -> clip_id c ∈ tr).
Proof.
  induction cs as [|c cs IH]; intros triggered s e l tr; simpl.
  - intros [= <- <-]. simpl. split; [symmetry; apply (left_id_L ∅ (∪))|].
    split; [constructor|].
    split; [constructor|]. intros c [].
  - destruct (bool_decide (clip_id c ∈ triggered)) eqn:Hd.
    + apply bool_decide_eq_true in Hd. intros E.
      destruct (IH _ _ _ _ _ E) as (Htr & Hnd & Hall & Hin).
      split; [exact Htr|]. split; [exact Hnd|]. split.
      * eapply List.Forall_impl; [|exact Hall]. simpl. intros a (Ha & Hb & Hc). auto.
      * intros c' [<-|Hc'] Hw; [rewrite Htr; apply elem_of_union_r, Hd|auto].
    + apply bool_decide_eq_false in Hd. fold (in_window s e c).
      destruct (in_window s e c) eqn:Hw.
      * destruct (new_clips_loop cs ({[clip_id c]} ∪ triggered) s e) as [l1 tr1] eqn:E.
        intros [= <- <-].
        destruct (IH _ _ _ _ _ E) as (Htr & Hnd & Hall & Hin).
        split.
        { rewrite Htr. simpl. rewrite (assoc_L (∪)). f_equal.
          apply (comm_L (∪)). }
        split.
        { simpl. constructor; [|exact Hnd]. intros Hi. apply list_elem_of_In in Hi.
          apply in_map_iff in Hi as (c' & Hid & Hc').
          rewrite List.Forall_forall in Hall. apply Hall in Hc' as (_ & Hnot & _).
          apply Hnot. rewrite Hid. apply elem_of_union_l, elem_of_singleton. reflexivity. }
        split.
        { constructor; [simpl; auto|].
          eapply List.Forall_impl; [|exact Hall]. simpl. intros a (Ha & Hb & Hc).
          split; [auto|]. split; [|exact Hc].
          intros Hi. apply Hb, elem_of_union_r, Hi. }
        intros c' [<-|Hc'] Hw'; [|auto].
        rewrite Htr. apply elem_of_union_r, elem_of_union_l, elem_of_singleton.
        reflexivity.
      * intros E. destruct (IH _ _ _ _ _ E) as (Htr & Hnd & Hall & Hin).
        split; [exact Htr|]. split; [exact Hnd|]. split.
        { eapply List.Forall_impl; [|exact Hall]. simpl. intros a (Ha & Hb & Hc). auto. }
        intros c' [<-|Hc'] Hw'; [congruence|auto].
Qed.

Lemma new_clips_loop_none (cs : list Clip) triggered s e :
  (forall c, In c cs -> in_window s e c = true -> clip_id c ∈ triggered) ->
  new_clips_loop cs triggered s e = ([], triggered).
Proof.
  induction cs as [|c cs IH]; intros Hall; simpl; [reflexivity|].
  destruct (bool_decide (clip_id c ∈ triggered)) eqn:Hd.
  - apply IH. intros c' Hc'. apply Hall. right. exact Hc'.
  - apply bool_decide_eq_false in Hd. fold (in_window s e c).
    destruct (in_window s e c) eqn:Hw.
    + exfalso. apply Hd, Hall; [left; reflexivity|exact Hw].
    + apply IH. intros c' Hc'. apply Hall. right. exact Hc'.
Qed.

(** A clip is handed out at most once: [get_new_clips_in_window] returns
    clips of the track that start in the window [(start_t, end_t]] and whose
    id was not triggered, no two with the same id; it marks their ids and
    leaves the clips of the track alone; asked again for the same window,
    the track returns nothing, and for any window none of these ids. *)
Theorem clips_trigger_at_most_once (t : Track) (start_t end_t : float) :
  let new := fst (Track_get_new_clips_in_window t start_t end_t) in
  let t' := snd (Track_get_new_clips_in_window t start_t end_t) in
  NoDup (map clip_id new)
  /\ Forall (fun c => In c (clips t) /\ (clip_id c ∉ _triggered_clips t)
                      /\ (start_t <? start_time c)%float = true
                      /\ (start_time c <=? end_t)%float = true) new
  /\ clips t' = clips t
  /\ _triggered_clips t' = (list_to_set (map clip_id new) ∪ _triggered_clips t)
  /\ fst (Track_get_new_clips_in_window t' start_t end_t) = []
  /\ forall s2 e2,
       Forall (fun c => ~ In (clip_id c) (map clip_id new))
              (fst (Track_get_new_clips_in_window t' s2 e2)).
Proof.
  unfold Track_get_new_clips_in_window.
  destruct (new_clips_loop (clips t) (_triggered_clips t) start_t end_t) as [l tr] eqn:E.
  destruct (new_clips_loop_spec _ _ _ _ _ _ E) as (Htr & Hnd & Hall & Hin).
  cbv zeta. simpl. split; [exact Hnd|]. split.
  { eapply List.Forall_impl; [|exact Hall]. simpl. unfold in_window.
    intros a (Ha & Hb & Hc). apply andb_true_iff in Hc. tauto. }
  split; [reflexivity|]. split; [exact Htr|]. split.
  { rewrite (new_clips_loop_none _ _ _ _ Hin). reflexivity. }
  intros s2 e2.
  destruct (new_clips_loop (clips t) tr s2 e2) as [l2 tr2] eqn:E2. simpl.
  destruct (new_clips_loop_spec _ _ _ _ _ _ E2) as (_ & _ & Hall2 & _).
  eapply List.Forall_impl; [|exact Hall2]. simpl. intros a (_ & Hnot & _) Hi.
  apply Hnot. rewrite Htr. apply elem_of_union_l, elem_of_list_to_set, list_elem_of_In.
  exact Hi.
Qed.

(** *** The scene *)

Lemma tracks_get_set (ts : list (string * Track)) k t k' :
  tracks_get (tracks_set ts k t) k' = if String.eqb k k' then Some t else tracks_get ts k'.
Proof.
  induction ts as [|[k0 t0] ts IH]; simpl.
  - destruct (String.eqb k k'); reflexivity.
  - destruct (String.eqb_spec k0 k) as [E0|Hne]; simpl.
    + subst k0. destruct (String.eqb k k'); reflexivity.
    + rewrite IH. destruct (String.eqb_spec k k') as [E1|Hne2]; [|reflexivity].
      subst k'. destruct (String.eqb_spec k0 k); [contradiction|reflexivity].
Qed.

Lemma tracks_set_keys (ts : list (string * Track)) k t :
  map fst (tracks_set ts k t)
  = map fst ts ++ match tracks_get ts k with Some _ => [] | None => [k] end.
Proof.
  induction ts as [|[k0 t0] ts IH]; simpl; [reflexivity|].
  destruct (String.eqb_spec k0 k) as [->|Hne]; simpl.
  - rewrite app_nil_r. reflexivity.
  - rewrite IH. reflexivity.
Qed.

Lemma tracks_get_None (ts : list (string * Track)) k :
  tracks_get ts k = None -> ~ In k (map fst ts).
Proof.
  induction ts as [|[k0 t0] ts IH]; simpl; [tauto|].
  destruct (String.eqb_spec k0 k) as [->|Hne]; [discriminate|].
  intros Hn [He|Hi]; [contradiction|]. exact (IH Hn Hi).
Qed.

(** [SceneTrack.add_clip] puts the clip on the track of the given id and
    on no other.  A track that exists keeps its priority and layering mode,
    whatever the call passes: the two arguments count for the first clip of
    a track only, which creates it behind the tracks there are.  The ids of
    the tracks stay distinct. *)
Theorem add_clip_creates_a_track_once (sc : SceneTrack) (id : string) (clip : Clip)
    (priority : Z) (mode : string) :
  let sc' := SceneTrack_add_clip sc id clip priority mode in
  tracks_get (tracks sc') id
    = Some (Track_add_clip (default (mkTrack id priority mode [] ∅)
                                    (tracks_get (tracks sc) id)) clip)
  /\ (forall k, k <> id -> tracks_get (tracks sc') k = tracks_get (tracks sc) k)
  /\ track_keys sc'
     = track_keys sc ++ match tracks_get (tracks sc) id with Some _ => [] | None => [id] end
  /\ (List.NoDup (track_keys sc) -> List.NoDup (track_keys sc'))
  /\ scene_time sc' = scene_time sc /\ active sc' = active sc.
Proof.
  cbv zeta. unfold SceneTrack_add_clip, get_or_create_track, track_keys.
  destruct (tracks_get (tracks sc) id) as [t|] eqn:Eg; simpl.
  - split; [rewrite tracks_get_set, String.eqb_refl; reflexivity|]. split.
    { intros k Hk. rewrite tracks_get_set.
      destruct (String.eqb_spec id k); [congruence|reflexivity]. }
    rewrite tracks_set_keys, Eg, app_nil_r. auto.
  - split; [rewrite !tracks_get_set, String.eqb_refl; reflexivity|]. split.
    { intros k Hk. rewrite !tracks_get_set.
      destruct (String.eqb_spec id k); [congruence|reflexivity]. }
    rewrite !tracks_set_keys, Eg, tracks_get_set, String.eqb_refl, app_nil_r.
    split; [reflexivity|]. split; [|auto].
    intros Hnd. eapply Permutation_NoDup; [apply Permutation_cons_append|].
    constructor; [apply tracks_get_None, Eg|exact Hnd].
Qed.

Lemma gather_loop_spec (ts : list (string * Track)) tick_id ws we :
  let tasks := fst (gather_loop ts tick_id ws we) in
  let ts' := snd (gather_loop ts tick_id ws we) in
  Forall (fun t =>
            exists k track clip,
              In (k, track) ts /\ In clip (clips track)
              /\ (clip_id clip ∉ _triggered_clips track)
              /\ in_window ws we clip = true
              /\ t = task_of_clip track tick_id clip) tasks
  /\ map fst ts' = map fst ts
  /\ forall tick2, gather_loop ts' tick2 ws we = ([], ts').
Proof.
  induction ts as [|[k track] ts IH]; cbv zeta; simpl.
  - split; [constructor|]. split; reflexivity.
  - unfold Track_get_new_clips_in_window.
    destruct (new_clips_loop (clips track) (_triggered_clips track) ws we)
      as [l tr] eqn:E.
    destruct (new_clips_loop_spec _ _ _ _ _ _ E) as (Htr & Hnd & Hall & Hin).
    destruct (gather_loop ts tick_id ws we) as [tasks ts'] eqn:Eg.
    cbv zeta in IH. simpl in IH. destruct IH as (IH1 & IH2 & IH3). simpl.
    split.
    { apply Forall_app. split.
      - apply List.Forall_forall. intros t Ht.
        apply in_map_iff in Ht as (clip & <- & Hc).
        rewrite List.Forall_forall in Hall. destruct (Hall _ Hc) as (H1 & H2 & H3).
        exists k, track, clip. auto 10.
      - eapply List.Forall_impl; [|exact IH1]. simpl.
        intros t (k0 & track0 & clip & H1 & H2). exists k0, track0, clip. auto. }
    split; [simpl; f_equal; exact IH2|].
    intros tick2. unfold Track_get_new_clips_in_window. simpl.
    rewrite (new_clips_loop_none _ _ _ _ Hin), IH3. reflexivity.
Qed.

(** The tasks that [gather_new_tasks_for_window] returns are those of the
    clips that start in the window [(window_start, window_end]] and were not
    yet triggered: each carries the tick id it was gathered at, the start
    time of its clip as scene time, the priority of its track and the task
    type of its clip type.  The scene keeps its tracks, and a second pass
    over the same window, at whatever tick, gathers nothing. *)
Theorem gathered_tasks_start_in_the_window (sc : SceneTrack) (tick_id : Z)
    (window_start window_end : float) :
  let tasks := fst (gather_new_tasks_for_window sc tick_id window_start window_end) in
  let sc' := snd (gather_new_tasks_for_window sc tick_id window_start window_end) in
  Forall (fun t =>
            task_tick_id t = tick_id
            /\ (window_start <? task_scene_time t)%float = true
            /\ (task_scene_time t <=? window_end)%float = true
            /\ task_type t <> PerformanceTaskType.RENDER
            /\ exists k track clip,
                 In (k, track) (tracks sc) /\ In clip (clips track)
                 /\ task_id t = (clip_id clip ++ "@" ++ string_of_Z tick_id)%string
                 /\ task_scene_time t = start_time clip
                 /\ task_priority t = track_priority track
                 /\ task_type t = _map_clip_type_to_task_type (clip_type clip)) tasks
  /\ track_keys sc' = track_keys sc
  /\ scene_time sc' = scene_time sc
  /\ forall tick2,
       fst (gather_new_tasks_for_window sc' tick2 window_start window_end) = [].
Proof.
  cbv zeta. unfold gather_new_tasks_for_window, track_keys.
  destruct (gather_loop_spec (tracks sc) tick_id window_start window_end)
    as (H1 & H2 & H3). cbv zeta in H1, H2, H3.
  destruct (gather_loop (tracks sc) tick_id window_start window_end) as [tasks ts'].
  simpl in *. split.
  { eapply List.Forall_impl; [|exact H1]. simpl.
    intros t (k & track & clip & Hk & Hc & _ & Hw & ->). simpl.
    unfold in_window in Hw. apply andb_true_iff in Hw as [Hw1 Hw2].
    split; [reflexivity|]. split; [exact Hw1|]. split; [exact Hw2|].
    split; [destruct (clip_type clip); discriminate|].
    exists k, track, clip. auto 10. }
  split; [exact H2|]. split; [reflexivity|].
  intros tick2. rewrite H3. reflexivity.
Qed.

Lemma float_leb_iff x y :
  (x <=? y)%float = true
  <-> SFcompare (Prim2SF x) (Prim2SF y) = Some Lt
      \/ SFcompare (Prim2SF x) (Prim2SF y) = Some Eq.
Proof.
  rewrite FloatAxioms.leb_spec. unfold SFleb.
  destruct (SFcompare (Prim2SF x) (Prim2SF y)) as [[| |]|]; split;
    intros; try discriminate; auto; intuition discriminate.
Qed.

(** The windows of two ticks in a row share their border and nothing
    else: the second starts at the scene time at which the first ended, a
    clip never starts in both, and a clip that starts between the start of
    the first and the end of the second starts in one of them. *)
Theorem consecutive_windows_tile (sc : SceneTrack) (dt1 dt2 : float) (t1 t2 : Z)
    (c : Clip) :
  let '(prev1, new1, sc1) := advance_time sc dt1 t1 in
  let '(prev2, new2, sc2) := advance_time sc1 dt2 t2 in
  prev1 = scene_time sc /\ prev2 = new1 /\ new2 = scene_time sc2
  /\ tick_to_scene_time sc2 !! t2 = Some new2
  /\ (in_window prev1 new1 c = true -> in_window prev2 new2 c = false)
  /\ (is_nan new1 = false -> is_nan (start_time c) = false ->
      in_window prev1 new2 c = true ->
      in_window prev1 new1 c || in_window prev2 new2 c = true).
Proof.
  unfold advance_time. simpl.
  set (n1 := (scene_time sc + py_max dt1 0)%float).
  set (n2 := (n1 + py_max dt2 0)%float).
  split; [reflexivity|]. split; [reflexivity|]. split; [reflexivity|].
  split; [apply lookup_insert_eq|].
  unfold in_window. split.
  - intros Hw. apply andb_true_iff in Hw as [_ Hle].
    destruct (n1 <? start_time c)%float eqn:Hlt; [|reflexivity]. exfalso.
    apply float_ltb_iff in Hlt. apply SFcompare_antisym in Hlt. simpl in Hlt.
    apply float_leb_iff in Hle as [Hle|Hle]; congruence.
  - intros Hn Hc Hw. apply andb_true_iff in Hw as [H1 H2]. rewrite H1, H2. simpl.
    apply is_nan_false in Hn, Hc.
    destruct (SFcompare_some _ _ Hc Hn) as [x Hx].
    destruct x.
    + assert (Hle : (start_time c <=? n1)%float = true)
        by (apply float_leb_iff; auto).
      rewrite Hle. reflexivity.
    + assert (Hle : (start_time c <=? n1)%float = true)
        by (apply float_leb_iff; auto).
      rewrite Hle. reflexivity.
    + apply SFcompare_antisym in Hx. simpl in Hx. apply float_ltb_iff in Hx.
      rewrite Hx, andb_true_r. apply orb_true_r.
Qed.
End SceneTrackProperties.

(** ** The kernel of test_runtime_loop.py *)

Section TestKernelProperties.
Import TestHarness.

(** The inverse that the test kernel computes for a delta undoes it: on
    the state the delta produced, the inverse puts "value" back to what it
    was (to 0 where the state had no "value") and touches no other key. *)
Theorem test_kernel_inverse_undoes_delta (s : gmap string PyVal) (d inv : Delta PyVal)
    (s1 : gmap string PyVal) :
  test_compute_inverse_delta s d = Ret (Some inv) ->
  test_apply_delta_in_place s d = Ret s1 ->
  exists s2,
    test_apply_delta_in_place s1 inv = Ret s2
    /\ s2 !! "value" = Some (default (PyInt 0) (s !! "value"))
    /\ forall k, k <> "value" -> s2 !! k = s !! k.
Proof.
  unfold test_compute_inverse_delta, test_apply_delta_in_place.
  destruct (payload_get (payload d) "amount") as [[[| amt | |]|]|e]; try discriminate.
  intros [= <-]. simpl.
  destruct (default (PyInt 0) (s !! "value")) as [| v | |] eqn:Ev; try discriminate.
  intros [= <-]. rewrite lookup_insert_eq. simpl.
  eexists. split; [reflexivity|]. split.
  - rewrite lookup_insert_eq. do 2 f_equal. lia.
  - intros k Hk. rewrite !lookup_insert_ne by congruence. reflexivity.
Qed.
End TestKernelProperties.

(** ** The further properties on concrete runs *)

Module EdgeWitnesses.
Import TestHarness TestRuns EdgeRuns.

(** Reads a field of the context that a concrete run returned. *)
Ltac run_fact E f c H :=
  pose proof (f_equal (fun x => match x with
                                | (Ret c', _, _) => Some (f c')
                                | _ => None
                                end) E) as H;
  vm_compute in H; injection H as H; symmetry in H;
  match type of H with _ = ?v => change (f c = v) in H end; cbv beta in H.

Lemma timeline_mismatch_witness :
  exists c r',
    run TestZON4DKernel ordering_deltas None (runtime_with None) broken_world
    = (Ret c, r', mkTestWorld false 101)
    /\ breached c = true /\ breach_step c = Some 1
    /\ deltas_in c = ordering_deltas /\ deltas_accepted c = []
    /\ current_snapshot r' = Some immutable_anchor.
Proof.
  destruct (timeline_mismatch_skips_the_pipeline
              (clock := TestClock) (anchor_store := TestAnchorStore)
              (zon4d := TestZON4DKernel) (hydration := TestHydration)
              (performer_engine := NoPerformer) (performance_abi := TestABI)
              ordering_deltas None None (runtime_with None) broken_world
              100%float (mkTestWorld false 101) (mkTestWorld false 101) false
              (mkTestWorld false 101) (Some immutable_anchor) (mkTestWorld false 101)
              eq_refl eq_refl eq_refl eq_refl)
    as (c & r' & E & Hb & Hs & Hin & _ & _ & Hacc & _ & _ & _ & _ & _ & Hcur).
  exists c, r'. auto 10.
Defined.

Lemma missing_snapshot_witness :
  exists c r',
    run TestZON4DKernel ordering_deltas None runtime_without_snapshot world0
    = (Ret c, r', mkTestWorld true 101)
    /\ breached c = true /\ breach_step c = Some 6
    /\ current_snapshot r' = Some immutable_anchor.
Proof.
  edestruct (missing_snapshot_breaches_at_step6
               (clock := TestClock) (anchor_store := TestAnchorStore)
               (zon4d := TestZON4DKernel) (hydration := TestHydration)
               (performer_engine := NoPerformer) (performance_abi := TestABI)
               ordering_deltas None None runtime_without_snapshot world0)
    as (c & r' & E & Hb & Hs & _ & _ & _ & _ & Hcur); [reflexivity..|].
  exists c, r'. auto.
Defined.

Lemma missing_inverse_witness :
  exists c r',
    run TestZON4DKernel [no_amount_delta; add_delta "a" 1 5] None (runtime_with None) world0
    = (Ret c, r', mkTestWorld true 101)
    /\ breached c = true /\ breach_step c = Some 6 /\ inverse_deltas c = []
    /\ current_snapshot r' = Some immutable_anchor.
Proof.
  edestruct (missing_inverse_breaches_at_step6
               (clock := TestClock) (anchor_store := TestAnchorStore)
               (zon4d := TestZON4DKernel) (hydration := TestHydration)
               (performer_engine := NoPerformer) (performance_abi := TestABI)
               [no_amount_delta; add_delta "a" 1 5] None None (runtime_with None) world0)
    as (c & r' & E & Hb & Hs & Hi & _ & _ & Hcur);
    [reflexivity|reflexivity|reflexivity|vm_compute; reflexivity|reflexivity..|].
  exists c, r'. auto 10.
Defined.

Lemma kernel_failure_escapes_witness :
  run TestZON4DKernel [none_delta] None (runtime_with None) world0
  = (Raise (OtherException "'NoneType' object has no attribute 'get'"),
     started (runtime_with None) 100, mkTestWorld true 101)
  /\ run_entry TestZON4DKernel [none_delta] None (runtime_with None) world0 = None.
Proof.
  eapply (kernel_failure_escapes_without_rollback
            (clock := TestClock) (anchor_store := TestAnchorStore)
            (zon4d := TestZON4DKernel) (hydration := TestHydration)
            (performer_engine := NoPerformer) (performance_abi := TestABI));
    [reflexivity|reflexivity|reflexivity|vm_compute; reflexivity|reflexivity].
Defined.

Lemma hydration_failure_witness :
  exists c r' w',
    run_with FailingHydration NoPerformer ordering_deltas None None (runtime_with None) world0
    = (Ret c, r', w')
    /\ breached c = false /\ domain_views c = ∅
    /\ current_snapshot r' = snapshot_out c.
Proof.
  edestruct (hydration_failure_is_not_a_breach
               (clock := TestClock) (anchor_store := TestAnchorStore)
               (zon4d := TestZON4DKernel) (hydration := FailingHydration)
               (performer_engine := NoPerformer) (performance_abi := TestABI)
               ordering_deltas None None (runtime_with None) world0)
    as (c & E & Hb & _ & Hso & _ & Hdv & _);
    [reflexivity|reflexivity|reflexivity|vm_compute; reflexivity|reflexivity..|].
  eexists c, _, _. split; [exact E|]. split; [exact Hb|]. split; [exact Hdv|].
  rewrite Hso. reflexivity.
Defined.

Lemma performer_steps_witness :
  exists c r' w',
    run_with OneViewHydration NoPerformer ordering_deltas (Some {[ "hud" := PyInt 1 ]}) None
      runtime_with_performer world0
    = (Ret c, r', w')
    /\ breached c = false
    /\ domain_views c
       = {[ "spatial_view" := PyDict [("value", PyInt 8)] ]} ∪ {[ "hud" := PyInt 1 ]}
    /\ performance_tasks c = [].
Proof.
  edestruct (performer_steps_on_views_of_new_state
               (clock := TestClock) (anchor_store := TestAnchorStore)
               (zon4d := TestZON4DKernel) (hydration := OneViewHydration)
               (performer_engine := NoPerformer) (performance_abi := TestABI)
               ordering_deltas (Some {[ "hud" := PyInt 1 ]}) None
               runtime_with_performer world0)
    as (c & E & Hb & _ & _ & Hdv & Hpt & _);
    [reflexivity|reflexivity|reflexivity|vm_compute; reflexivity|reflexivity..|].
  eexists c, _, _. split; [exact E|]. split; [exact Hb|]. split; [|exact Hpt].
  rewrite Hdv. reflexivity.
Defined.

Lemma performer_failure_witness :
  exists c r' w',
    run_with TestHydration FailingPerformer ordering_deltas None None
      runtime_with_performer world0
    = (Ret c, r', w')
    /\ breached c = true /\ breach_step c = None
    /\ (exists sout, snapshot_out c = Some sout)
    /\ current_snapshot r' = Some immutable_anchor.
Proof.
  edestruct (performer_failure_breaches_without_step
               (clock := TestClock) (anchor_store := TestAnchorStore)
               (zon4d := TestZON4DKernel) (hydration := TestHydration)
               (performer_engine := FailingPerformer) (performance_abi := TestABI)
               ordering_deltas None None runtime_with_performer world0)
    as (c & r' & E & Hb & Hs & Hso & _ & _ & Hcur & _);
    [reflexivity|reflexivity|reflexivity|vm_compute; reflexivity|reflexivity..|].
  eexists c, r', _. split; [exact E|]. split; [exact Hb|]. split; [exact Hs|].
  split; [eexists; exact Hso|exact Hcur].
Defined.

Lemma breached_iff_critical_alert_witness :
  exists c r' w',
    run BreachKernel [bad_delta] None (runtime_with None) world0 = (Ret c, r', w')
    /\ breached c = true /\ existsb is_critical (alerts c) = true.
Proof.
  destruct (run BreachKernel [bad_delta] None (runtime_with None) world0)
    as [[[c|e] r'] w'] eqn:E; [|vm_compute in E; discriminate].
  exists c, r', w'. split; [reflexivity|].
  run_fact E (@breached PyVal TestTask) c Hb.
  pose proof (breached_iff_critical_alert _ _ _ _ _ _ _ _ E) as H.
  split; [exact Hb|]. rewrite <- H. exact Hb.
Defined.

Lemma alerts_carry_the_tick_stamp_witness :
  exists c r' w',
    run TestZON4DKernel [anonymous_delta; bad_delta] None (runtime_with None) world0
    = (Ret c, r', w')
    /\ Forall (fun a => alert_tick a = tick_id c /\ ts a = wall_clock_ts c) (alerts c).
Proof.
  destruct (run TestZON4DKernel [anonymous_delta; bad_delta] None (runtime_with None) world0)
    as [[[c|e] r'] w'] eqn:E; [|vm_compute in E; discriminate].
  exists c, r', w'. split; [reflexivity|].
  exact (alerts_carry_the_tick_stamp _ _ _ _ _ _ _ _ E).
Defined.

Lemma ingestion_conserves_deltas_witness :
  exists c r' w',
    run TestZON4DKernel [anonymous_delta; bad_delta] None (runtime_with None) world0
    = (Ret c, r', w')
    /\ (length (deltas_accepted c) + length (deltas_rejected c))%nat = 2%nat.
Proof.
  destruct (run TestZON4DKernel [anonymous_delta; bad_delta] None (runtime_with None) world0)
    as [[[c|e] r'] w'] eqn:E; [|vm_compute in E; discriminate].
  exists c, r', w'. split; [reflexivity|].
  run_fact E (@breach_step PyVal TestTask) c Hs.
  assert (Hne : breach_step c <> Some 1) by (rewrite Hs; discriminate).
  destruct (ingestion_conserves_deltas _ _ _ _ _ _ _ _ E Hne) as [_ Hlen].
  exact Hlen.
Defined.


Lemma negative_limit_witness :
  exists c r' w',
    run TestZON4DKernel ordering_deltas None (runtime_with (Some (-2))) world0
    = (Ret c, r', w')
    /\ fenced c = true
    /\ In (fence_alert (tick_id c) (wall_clock_ts c) 5) (alerts c)
    /\ length (deltas_in c) = 1%nat.
Proof.
  destruct (run TestZON4DKernel ordering_deltas None (runtime_with (Some (-2))) world0)
    as [[[c|e] r'] w'] eqn:E; [|vm_compute in E; discriminate].
  exists c, r', w'. split; [reflexivity|].
  run_fact E (@breached PyVal TestTask) c Hb.
  destruct (negative_limit_fences_every_tick _ _ _ _ _ _ _ _ E Hb)
    as (Hf & Ha & Hin & _); [simpl; lia|].
  split; [exact Hf|]. split; [exact Ha|]. rewrite Hin. reflexivity.
Defined.

Lemma committed_snapshot_witness :
  exists c r' w' sout,
    run TestZON4DKernel ordering_deltas None (runtime_with None) world0 = (Ret c, r', w')
    /\ current_snapshot r' = Some sout
    /\ snap_id sout = "snap_1"%string /\ hash32 sout = None
    /\ anchor_type sout = "soft"%string.
Proof.
  destruct (run TestZON4DKernel ordering_deltas None (runtime_with None) world0)
    as [[[c|e] r'] w'] eqn:E; [|vm_compute in E; discriminate].
  run_fact E (@breached PyVal TestTask) c Hb.
  run_fact E (@tick_id PyVal TestTask) c Ht.
  destruct (committed_snapshot_is_soft_and_unhashed _ _ _ _ _ _ _ _ E Hb)
    as (sout & _ & _ & _ & _ & Hcur & _ & Hid & _ & _ & Hh & Ha & _).
  exists c, r', w', sout. rewrite Ht in Hid. auto 10.
Defined.

Lemma test_kernel_inverse_witness :
  exists inv s1 s2,
    test_compute_inverse_delta {[ "value" := PyInt 3 ]} (add_delta "d" 1 5) = Ret (Some inv)
    /\ test_apply_delta_in_place {[ "value" := PyInt 3 ]} (add_delta "d" 1 5) = Ret s1
    /\ test_apply_delta_in_place s1 inv = Ret s2
    /\ s2 !! "value" = Some (PyInt 3).
Proof.
  edestruct (test_kernel_inverse_undoes_delta {[ "value" := PyInt 3 ]} (add_delta "d" 1 5))
    as (s2 & H1 & H2 & _); [reflexivity|reflexivity|].
  eexists _, _, s2. split; [reflexivity|]. split; [reflexivity|].
  split; [exact H1|exact H2].
Defined.
End EdgeWitnesses.

Module ViewWitnesses.
Import Values DomainViews TestHarness ViewRuns.

Lemma views_present_witness :
  exists views,
    generate_domain_views_from_state speaking_state 1 = Ret views
    /\ is_Some (views !! "narrative_view")
    /\ views !! "audio_view" = None.
Proof.
  eassert (E : generate_domain_views_from_state speaking_state 1 = Ret _)
    by (apply generate_returns; vm_compute; reflexivity).
  eexists. split; [exact E|].
  destruct (views_present_iff_state_names_them _ _ _ E) as (Hn & Ha & _).
  split; [apply Hn; vm_compute; reflexivity|]. vm_compute. reflexivity.
Defined.

Lemma spatial_slice_witness :
  exists views,
    generate_domain_views_from_state speaking_state 1 = Ret views
    /\ is_slice "spatial/" speaking_state (views !! "spatial_view")
    /\ is_slice "ap/" speaking_state (views !! "ap_rules_view").
Proof.
  eassert (E : generate_domain_views_from_state speaking_state 1 = Ret _)
    by (apply generate_returns; vm_compute; reflexivity).
  eexists. split; [exact E|].
  exact (spatial_and_ap_views_are_slices _ _ _ E).
Defined.

Lemma idle_state_witness :
  generate_domain_views_from_state idle_state 7
  = Ret (put "ap_rules_view" (slice_view "ap/" idle_state)
           (put "spatial_view" (slice_view "spatial/" idle_state) ∅)).
Proof.
  apply idle_state_converts_nothing; vm_compute; reflexivity.
Defined.

End ViewWitnesses.
